(** * XDP tutorial packet programs: parsing helpers, VLAN rewriting,
      ICMP echo, and the FIB router

    A shallow embedding of
      - common/parsing_helpers.h
      - packet01-parsing/xdp_prog_kern.c
      - packet02-rewriting/xdp_prog_kern.c
      - packet-solutions/xdp_prog_kern.c
    The packet buffer is a list of bytes together with the two offsets
    [data] and [data_end] of [struct xdp_md]; pointers are offsets into
    that list.  Integers of the C code are [Z], with the truncations of
    the C types written out.  The host is little-endian (the usual BPF
    target), so [bpf_htons] and [bpf_ntohs] swap the two bytes of a
    16-bit value and a native 16-bit load reads the low byte first. *)

From Stdlib Require Import ZArith List Lia Bool Arith.
From Stdlib Require Import Strings.Byte.
Import ListNotations.

Open Scope Z_scope.

(** ** Bytes and memory *)

Definition byte_to_Z (b : byte) : Z := Z.of_N (Byte.to_N b).

Definition byte_of_Z (z : Z) : byte :=
  match Byte.of_N (Z.to_N (z mod 256)) with
  | Some b => b
  | None => x00
  end.

Definition bytes_of (l : list Z) : list byte := map byte_of_Z l.

(** [upd l n b]: the assignment [l[n] = b]; it has no effect outside the
    list (every write of the programs is bounds-checked first). *)
Fixpoint upd (l : list byte) (n : nat) (b : byte) : list byte :=
  match l, n with
  | [], _ => []
  | _ :: t, O => b :: t
  | h :: t, S n' => h :: upd t n' b
  end.

(** [memcpy(mem + off, bs, length bs)] *)
Fixpoint write_bytes (mem : list byte) (off : nat) (bs : list byte) : list byte :=
  match bs with
  | [] => mem
  | b :: bs' => write_bytes (upd mem off b) (S off) bs'
  end.

(** the [n] bytes at [mem + off] (a struct copy, or the source of a memcpy) *)
Fixpoint read_bytes (mem : list byte) (off : nat) (n : nat) : list byte :=
  match n with
  | O => []
  | S n' => nth off mem x00 :: read_bytes mem (S off) n'
  end.

Definition load8 (mem : list byte) (p : nat) : Z := byte_to_Z (nth p mem x00).

(** native (little-endian) loads of [__u16] and [__u32] *)
Definition load16 (mem : list byte) (p : nat) : Z :=
  load8 mem p + 256 * load8 mem (p + 1).

Definition load32 (mem : list byte) (p : nat) : Z :=
  load16 mem p + 65536 * load16 mem (p + 2).

Definition store8 (mem : list byte) (p : nat) (v : Z) : list byte :=
  upd mem p (byte_of_Z v).

Definition store16 (mem : list byte) (p : nat) (v : Z) : list byte :=
  store8 (store8 mem p v) (p + 1) (v / 256).

Definition store32 (mem : list byte) (p : nat) (v : Z) : list byte :=
  store16 (store16 mem p v) (p + 2) (v / 65536).

(** conversions of the C integer types *)
Definition to_u8 (z : Z) : Z := z mod 256.
Definition to_u16 (z : Z) : Z := z mod 65536.
Definition to_u32 (z : Z) : Z := z mod 4294967296.

(** [bpf_htons] / [bpf_ntohs] on a little-endian host: [__builtin_bswap16] *)
Definition bswap16 (x : Z) : Z := (x mod 256) * 256 + (x / 256) mod 256.
Definition bpf_htons (x : Z) : Z := bswap16 (to_u16 x).
Definition bpf_ntohs (x : Z) : Z := bswap16 (to_u16 x).

(** [bpf_htonl] on a little-endian host: [__builtin_bswap32] *)
Definition bpf_htonl (x : Z) : Z :=
  bswap16 (x mod 65536) * 65536 + bswap16 ((x / 65536) mod 65536).

(** ** Constants of the kernel headers *)

Definition ETH_ALEN : nat := 6.
Definition ETH_HLEN : nat := 14.
Definition ETH_P_IP : Z := 0x0800.
Definition ETH_P_IPV6 : Z := 0x86DD.
Definition ETH_P_8021Q : Z := 0x8100.
Definition ETH_P_8021AD : Z := 0x88A8.
Definition IPPROTO_ICMP : Z := 1.
Definition IPPROTO_TCP : Z := 6.
Definition IPPROTO_UDP : Z := 17.
Definition IPPROTO_ICMPV6 : Z := 58.
Definition ICMP_ECHOREPLY : Z := 0.
Definition ICMP_ECHO : Z := 8.
Definition ICMPV6_ECHO_REQUEST : Z := 128.
Definition ICMPV6_ECHO_REPLY : Z := 129.
Definition EINVAL : Z := 22.

(** [sizeof] of the header structs *)
Definition sizeof_ethhdr : nat := 14.
Definition sizeof_vlan_hdr : nat := 4.
Definition sizeof_iphdr : nat := 20.
Definition sizeof_ipv6hdr : nat := 40.
Definition sizeof_icmphdr : nat := 8.
Definition sizeof_icmp6hdr : nat := 8.
Definition sizeof_tcphdr : nat := 20.
Definition sizeof_udphdr : nat := 8.

(** [enum xdp_action] *)
Inductive xdp_action : Type :=
| XDP_ABORTED
| XDP_DROP
| XDP_PASS
| XDP_TX
| XDP_REDIRECT.

(** ** The packet context

    [mem] is the whole buffer the driver handed over, headroom included;
    [data] and [data_end] delimit the packet inside it. *)
Record xdp_md : Type := mk_xdp_md {
  mem : list byte;
  data : nat;
  data_end : nat;
  ingress_ifindex : Z
}.

Definition set_mem (ctx : xdp_md) (m : list byte) : xdp_md :=
  mk_xdp_md m (data ctx) (data_end ctx) (ingress_ifindex ctx).

Definition set_data (ctx : xdp_md) (d : nat) : xdp_md :=
  mk_xdp_md (mem ctx) d (data_end ctx) (ingress_ifindex ctx).

(** the bytes of the packet as they leave the program *)
Definition packet (ctx : xdp_md) : list byte :=
  firstn (data_end ctx - data ctx) (skipn (data ctx) (mem ctx)).

Definition wf_ctx (ctx : xdp_md) : Prop :=
  (data ctx <= data_end ctx)%nat /\ (data_end ctx <= length (mem ctx))%nat.

(** ** common/parsing_helpers.h *)

Module Common.

(** [struct hdr_cursor] *)
Record hdr_cursor : Type := mk_cursor { pos : nat }.

Definition VLAN_MAX_DEPTH : nat := 5.

Definition proto_is_vlan (h_proto : Z) : bool :=
  (h_proto =? bpf_htons ETH_P_8021Q) || (h_proto =? bpf_htons ETH_P_8021AD).

(** field accessors: [eth->h_proto], [vlh->h_vlan_TCI], ... *)
Definition eth_h_proto (m : list byte) (eth : nat) : Z := load16 m (eth + 12).
Definition vlan_TCI (m : list byte) (vlh : nat) : Z := load16 m vlh.
Definition vlan_encapsulated_proto (m : list byte) (vlh : nat) : Z :=
  load16 m (vlh + 2).
Definition ip_ihl (m : list byte) (iph : nat) : Z := load8 m iph mod 16.
Definition ip_tos (m : list byte) (iph : nat) : Z := load8 m (iph + 1).
Definition ip_tot_len (m : list byte) (iph : nat) : Z := load16 m (iph + 2).
Definition ip_ttl (m : list byte) (iph : nat) : Z := load8 m (iph + 8).
Definition ip_protocol (m : list byte) (iph : nat) : Z := load8 m (iph + 9).
Definition ip_check (m : list byte) (iph : nat) : Z := load16 m (iph + 10).
Definition ip_saddr (m : list byte) (iph : nat) : Z := load32 m (iph + 12).
Definition ip_daddr (m : list byte) (iph : nat) : Z := load32 m (iph + 16).
Definition ip6_payload_len (m : list byte) (ip6h : nat) : Z := load16 m (ip6h + 4).
Definition ip6_nexthdr (m : list byte) (ip6h : nat) : Z := load8 m (ip6h + 6).
Definition ip6_hop_limit (m : list byte) (ip6h : nat) : Z := load8 m (ip6h + 7).
Definition icmp_type (m : list byte) (icmph : nat) : Z := load8 m icmph.
Definition icmp_checksum (m : list byte) (icmph : nat) : Z := load16 m (icmph + 2).
Definition icmp_sequence (m : list byte) (icmph : nat) : Z := load16 m (icmph + 6).

(** The body of the unrolled loop of [parse_ethhdr], [n] iterations left:
    [for (i = 0; i < VLAN_MAX_DEPTH; i++)]. *)
Fixpoint vlan_loop (n : nat) (m : list byte) (data_end : nat)
         (h_proto : Z) (vlh : nat) : Z * nat :=
  match n with
  | O => (h_proto, vlh)
  | S n' =>
      if negb (proto_is_vlan h_proto) then (h_proto, vlh)
      else if (data_end <? vlh + sizeof_vlan_hdr)%nat then (h_proto, vlh)
      else vlan_loop n' m data_end (vlan_encapsulated_proto m vlh)
                     (vlh + sizeof_vlan_hdr)%nat
  end.

(** Every parser returns its [int] result and the cursor; the header
    pointer it stores through its last argument is the cursor position on
    entry, and is stored on success only. *)
Definition parse_ethhdr (m : list byte) (nh : hdr_cursor) (data_end : nat)
  : Z * hdr_cursor :=
  let eth := pos nh in
  let hdrsize := sizeof_ethhdr in
  if (data_end <? pos nh + hdrsize)%nat then (-1, nh)
  else
    let vlh := (pos nh + hdrsize)%nat in
    let h_proto := eth_h_proto m eth in
    let '(h_proto', vlh') := vlan_loop VLAN_MAX_DEPTH m data_end h_proto vlh in
    (bpf_ntohs h_proto', mk_cursor vlh').

Definition parse_ip6hdr (m : list byte) (nh : hdr_cursor) (data_end : nat)
  : Z * hdr_cursor :=
  let ip6h := pos nh in
  if (data_end <? ip6h + sizeof_ipv6hdr)%nat then (-1, nh)
  else (ip6_nexthdr m ip6h, mk_cursor (ip6h + sizeof_ipv6hdr)).

Definition parse_iphdr (m : list byte) (nh : hdr_cursor) (data_end : nat)
  : Z * hdr_cursor :=
  let iph := pos nh in
  if (data_end <? iph + sizeof_iphdr)%nat then (-1, nh)
  else
    let hdrsize := ip_ihl m iph * 4 in
    if Z.of_nat data_end <? Z.of_nat (pos nh) + hdrsize then (-1, nh)
    else (ip_protocol m iph, mk_cursor (Z.to_nat (Z.of_nat (pos nh) + hdrsize))).

Definition parse_icmp6hdr (m : list byte) (nh : hdr_cursor) (data_end : nat)
  : Z * hdr_cursor :=
  let icmp6h := pos nh in
  if (data_end <? icmp6h + sizeof_icmp6hdr)%nat then (-1, nh)
  else (icmp_type m icmp6h, mk_cursor (icmp6h + sizeof_icmp6hdr)).

Definition parse_icmphdr (m : list byte) (nh : hdr_cursor) (data_end : nat)
  : Z * hdr_cursor :=
  let icmph := pos nh in
  if (data_end <? icmph + sizeof_icmphdr)%nat then (-1, nh)
  else (icmp_type m icmph, mk_cursor (icmph + sizeof_icmphdr)).

(** The [get_*] helpers return the header pointer, [None] for [NULL]. *)
Definition get_ethhdr (nh : hdr_cursor) (data_end : nat)
  : option nat * hdr_cursor :=
  let eth := pos nh in
  let hdrsize := sizeof_ethhdr in
  if (data_end <? pos nh + hdrsize)%nat then (None, nh)
  else (Some eth, mk_cursor (pos nh + hdrsize)).

(** The unrolled loop of [get_ip6hdr], [n] iterations left; [None] is its
    [return NULL] on a tag that does not fit. *)
Fixpoint get_vlan_loop (n : nat) (m : list byte) (data_end : nat)
         (h_proto : Z) (vlh : nat) : option (Z * nat) :=
  match n with
  | O => Some (h_proto, vlh)
  | S n' =>
      if negb ((h_proto =? bpf_htons ETH_P_8021Q)
               || (h_proto =? bpf_htons ETH_P_8021AD))
      then Some (h_proto, vlh)
      else if (data_end <? vlh + sizeof_vlan_hdr)%nat then None
      else get_vlan_loop n' m data_end (vlan_encapsulated_proto m vlh)
                         (vlh + sizeof_vlan_hdr)%nat
  end.

Definition get_ip6hdr (m : list byte) (eth : nat) (nh : hdr_cursor)
           (data_end : nat) : option nat * hdr_cursor :=
  let vlh := pos nh in
  let h_proto := eth_h_proto m eth in
  match get_vlan_loop VLAN_MAX_DEPTH m data_end h_proto vlh with
  | None => (None, nh)
  | Some (h_proto, vlh) =>
      let ip6h := vlh in
      if negb (h_proto =? bpf_htons ETH_P_IPV6) then (None, nh)
      else if (data_end <? ip6h + sizeof_ipv6hdr)%nat then (None, nh)
      else (Some ip6h, mk_cursor (ip6h + sizeof_ipv6hdr))
  end.

Definition get_icmp6hdr (m : list byte) (ip6h : nat) (nh : hdr_cursor)
           (data_end : nat) : option nat * hdr_cursor :=
  let icmp6h := pos nh in
  if negb (ip6_nexthdr m ip6h =? IPPROTO_ICMPV6) then (None, nh)
  else if (data_end <? icmp6h + sizeof_icmp6hdr)%nat then (None, nh)
  else (Some icmp6h, mk_cursor (icmp6h + sizeof_icmp6hdr)).

End Common.

(** ** Effects of a program run

    What a program does besides touching the packet: the invocations of
    the statistics collector, of the FIB resolver and of the redirect
    helpers, each in call order. *)

(** [struct bpf_fib_lookup], the fields the router uses *)
Record bpf_fib_lookup : Type := mk_fib {
  family : Z;
  l4_protocol : Z;
  sport : Z;
  dport : Z;
  tot_len : Z;
  ifindex : Z;
  tos : Z;
  flowinfo : Z;
  ipv4_src : Z;
  ipv4_dst : Z;
  ipv6_src : list byte;
  ipv6_dst : list byte;
  smac : list byte;
  dmac : list byte
}.

(** [struct bpf_fib_lookup fib_params = {};] *)
Definition fib_zero : bpf_fib_lookup :=
  mk_fib 0 0 0 0 0 0 0 0 0 0 (repeat x00 16) (repeat x00 16)
         (repeat x00 6) (repeat x00 6).

(** The externally owned services: the FIB resolver behind
    [bpf_fib_lookup] (it answers a return code and fills in [ifindex],
    [smac], [dmac]), the [redirect_params] hash map from source MAC to
    destination MAC, and the driver's say on a head adjustment:
    [head_adjustable ctx delta] tells whether it accepts moving the head
    of [ctx] by [delta]. *)
Record kernel : Type := mk_kernel {
  fib_resolve : bpf_fib_lookup -> Z * bpf_fib_lookup;
  redirect_params : list byte -> option (list byte);
  head_adjustable : xdp_md -> Z -> bool
}.

(** Modelled from the spec: the kernel helper [bpf_xdp_adjust_head] is not
    part of the repository.  The PacketBuffer's head moves backward (grow)
    or forward (shrink) by [delta] and stays inside the buffer, at or
    before the tail; the resize may also be refused for
    implementation-specific reasons.  A refused resize has no effect and
    returns a negative error code, a successful one returns 0. *)
Definition bpf_xdp_adjust_head (K : kernel) (ctx : xdp_md) (delta : Z)
  : Z * xdp_md :=
  let d := Z.of_nat (data ctx) + delta in
  if (d <? 0) || (Z.of_nat (data_end ctx) <? d)
     || negb (head_adjustable K ctx delta)
  then (- EINVAL, ctx)
  else (0, set_data ctx (Z.to_nat d)).

(** the rule of the Linux helper: an Ethernet header's worth of bytes must
    remain after the new head *)
Definition linux_head_adjustable (ctx : xdp_md) (delta : Z) : bool :=
  Z.of_nat (data ctx) + delta <=? Z.of_nat (data_end ctx) - Z.of_nat ETH_HLEN.

(** one call of an external service *)
Inductive event : Type :=
| EvStats (action : xdp_action)
| EvFib (params : bpf_fib_lookup)
| EvRedirect (key : Z).

Definition trace : Type := list event.

Definition no_trace : trace := [].

Fixpoint stats_calls (tr : trace) : list xdp_action :=
  match tr with
  | [] => []
  | EvStats a :: tr' => a :: stats_calls tr'
  | _ :: tr' => stats_calls tr'
  end.

Fixpoint fib_calls (tr : trace) : list bpf_fib_lookup :=
  match tr with
  | [] => []
  | EvFib k :: tr' => k :: fib_calls tr'
  | _ :: tr' => fib_calls tr'
  end.

Fixpoint redirect_calls (tr : trace) : list Z :=
  match tr with
  | [] => []
  | EvRedirect k :: tr' => k :: redirect_calls tr'
  | _ :: tr' => redirect_calls tr'
  end.

(** the result of a program: the returned action, the packet context and
    the effects *)
Definition result : Type := (xdp_action * xdp_md * trace)%type.

Definition verdict (r : result) : xdp_action := fst (fst r).
Definition final_ctx (r : result) : xdp_md := snd (fst r).
Definition effects (r : result) : trace := snd r.

(** Modelled from the spec: [xdp_stats_record_action] lives in
    common/xdp_stats_kern.h, which is not among the sources.  The
    statistics collector is [record(verdict) -> void]: one counter
    increment keyed by the action, which is then returned. *)
Definition xdp_stats_record_action (ctx : xdp_md) (tr : trace)
           (action : xdp_action) : result :=
  (action, ctx, tr ++ [EvStats action]).

(** Modelled from the spec: the kernel helpers [bpf_redirect_map] and
    [bpf_redirect] are not part of the repository.  They note the egress
    index (the key into the device table, or the interface) and answer
    [XDP_REDIRECT]. *)
Definition bpf_redirect_map (tr : trace) (key : Z) : xdp_action * trace :=
  (XDP_REDIRECT, tr ++ [EvRedirect key]).

Definition bpf_redirect (tr : trace) (ifidx : Z) : xdp_action * trace :=
  (XDP_REDIRECT, tr ++ [EvRedirect ifidx]).

Definition bpf_fib_lookup_call (K : kernel) (tr : trace) (params : bpf_fib_lookup)
  : Z * bpf_fib_lookup * trace :=
  (fib_resolve K params, tr ++ [EvFib params]).

(** return codes of [bpf_fib_lookup] *)
Definition BPF_FIB_LKUP_RET_SUCCESS : Z := 0.
Definition BPF_FIB_LKUP_RET_BLACKHOLE : Z := 1.
Definition BPF_FIB_LKUP_RET_UNREACHABLE : Z := 2.
Definition BPF_FIB_LKUP_RET_PROHIBIT : Z := 3.
Definition BPF_FIB_LKUP_RET_NOT_FWDED : Z := 4.
Definition BPF_FIB_LKUP_RET_FWD_DISABLED : Z := 5.
Definition BPF_FIB_LKUP_RET_UNSUPP_LWT : Z := 6.
Definition BPF_FIB_LKUP_RET_NO_NEIGH : Z := 7.
Definition BPF_FIB_LKUP_RET_FRAG_NEEDED : Z := 8.

Definition AF_INET : Z := 2.
Definition AF_INET6 : Z := 10.
Definition IPV6_FLOWINFO_MASK : Z := bpf_htonl 0x0FFFFFFF.

(** ** packet02-rewriting/xdp_prog_kern.c *)

Module Rewriting.
Import Common.

Definition parse_tcphdr (m : list byte) (nh : hdr_cursor) (data_end : nat)
  : Z * hdr_cursor * list byte :=
  let tcph := pos nh in
  if (data_end <? tcph + sizeof_tcphdr)%nat then (-1, nh, m)
  else
    (0, mk_cursor (tcph + sizeof_tcphdr),
     store16 m (tcph + 2) (bpf_htons (bpf_ntohs (load16 m (tcph + 2)) - 1))).

Definition parse_udphdr (m : list byte) (nh : hdr_cursor) (data_end : nat)
  : Z * hdr_cursor * list byte :=
  let udph := pos nh in
  if (data_end <? udph + sizeof_udphdr)%nat then (-1, nh, m)
  else
    (0, mk_cursor (udph + sizeof_udphdr),
     store16 m (udph + 2) (bpf_htons (bpf_ntohs (load16 m (udph + 2)) - 1))).

(** The labels [parse_tcp], [parse_udp] and [out] of
    [xdp_port_rewrite_func]; an Ethernet type that is neither IPv6 nor IPv4
    (a failed parse included) falls through to [parse_tcp]. *)
Definition xdp_port_rewrite_func (ctx : xdp_md) : result :=
  let data_end := data_end ctx in
  let m := mem ctx in
  let nh := mk_cursor (data ctx) in
  let out (m' : list byte) : result := (XDP_PASS, set_mem ctx m', no_trace) in
  let parse_tcp (nh' : hdr_cursor) : result :=
    let '(_, _, m') := parse_tcphdr m nh' data_end in out m' in
  let parse_udp (nh' : hdr_cursor) : result :=
    let '(_, _, m') := parse_udphdr m nh' data_end in out m' in
  let '(nh_type, nh1) := parse_ethhdr m nh data_end in
  if nh_type =? ETH_P_IPV6 then
    let '(nh_type2, nh2) := parse_ip6hdr m nh1 data_end in
    if nh_type2 =? IPPROTO_TCP then parse_tcp nh2
    else if nh_type2 =? IPPROTO_UDP then parse_udp nh2
    else out m
  else if nh_type =? ETH_P_IP then
    let '(nh_type2, nh2) := parse_iphdr m nh1 data_end in
    if nh_type2 =? IPPROTO_TCP then parse_tcp nh2
    else if nh_type2 =? IPPROTO_UDP then parse_udp nh2
    else out m
  else parse_tcp nh1.

Definition vlan_tag_pop (K : kernel) (ctx : xdp_md) (eth : nat)
  : Z * xdp_md :=
  let data_end0 := data_end ctx in
  let vlh := (eth + sizeof_ethhdr)%nat in
  if negb (proto_is_vlan (eth_h_proto (mem ctx) eth)) then (-1, ctx)
  else if (data_end0 <? vlh + sizeof_vlan_hdr)%nat then (-1, ctx)
  else
    let eth_cpy := read_bytes (mem ctx) eth sizeof_ethhdr in
    let vlid := bpf_ntohs (vlan_TCI (mem ctx) vlh) in
    let eth_cpy := store16 eth_cpy 12 (vlan_encapsulated_proto (mem ctx) vlh) in
    let '(rc, ctx1) := bpf_xdp_adjust_head K ctx (Z.of_nat sizeof_vlan_hdr) in
    if negb (rc =? 0) then (-1, ctx1)
    else
      let eth := data ctx1 in
      let data_end := data_end ctx1 in
      if (data_end <? eth + sizeof_ethhdr)%nat then (-1, ctx1)
      else (vlid, set_mem ctx1 (write_bytes (mem ctx1) eth eth_cpy)).

Definition vlan_tag_push (K : kernel) (ctx : xdp_md) (eth : nat) (vlid : Z)
  : Z * xdp_md :=
  if proto_is_vlan (eth_h_proto (mem ctx) eth) then (-1, ctx)
  else
    let eth_cpy := read_bytes (mem ctx) eth sizeof_ethhdr in
    let '(rc, ctx1) := bpf_xdp_adjust_head K ctx (- Z.of_nat sizeof_vlan_hdr) in
    if negb (rc =? 0) then (-1, ctx1)
    else
      let eth := data ctx1 in
      let data_end := data_end ctx1 in
      if (data_end <? eth + sizeof_ethhdr)%nat then (-1, ctx1)
      else
        let m1 := write_bytes (mem ctx1) eth eth_cpy in
        let vlh := (eth + sizeof_ethhdr)%nat in
        if (data_end <? vlh + sizeof_vlan_hdr)%nat then (-1, set_mem ctx1 m1)
        else
          let m2 := store16 m1 vlh (bpf_htons vlid) in
          let m3 := store16 m2 (vlh + 2) (eth_h_proto m2 eth) in
          let m4 := store16 m3 (eth + 12) (bpf_htons ETH_P_8021Q) in
          (0, set_mem ctx1 m4).

Definition xdp_vlan_swap_func (K : kernel) (ctx : xdp_md) : result :=
  let nh := mk_cursor (data ctx) in
  let eth := data ctx in
  let '(nh_type, _) := parse_ethhdr (mem ctx) nh (data_end ctx) in
  if nh_type <? 0 then (XDP_PASS, ctx, no_trace)
  else if proto_is_vlan (eth_h_proto (mem ctx) eth)
       then (XDP_PASS, snd (vlan_tag_pop K ctx eth), no_trace)
       else (XDP_PASS, snd (vlan_tag_push K ctx eth 1), no_trace).

Definition xdp_parser_func (ctx : xdp_md) : result :=
  let data_end := data_end ctx in
  let m := mem ctx in
  let nh := mk_cursor (data ctx) in
  let out := xdp_stats_record_action ctx no_trace in
  let '(nh_type, nh1) := parse_ethhdr m nh data_end in
  if nh_type =? ETH_P_IPV6 then
    let '(nh_type2, nh2) := parse_ip6hdr m nh1 data_end in
    if negb (nh_type2 =? IPPROTO_ICMPV6) then out XDP_PASS
    else
      let icmp6h := pos nh2 in
      let '(nh_type3, _) := parse_icmp6hdr m nh2 data_end in
      if negb (nh_type3 =? ICMPV6_ECHO_REQUEST) then out XDP_PASS
      else if bpf_ntohs (icmp_sequence m icmp6h) mod 2 =? 0 then out XDP_DROP
      else out XDP_PASS
  else if nh_type =? ETH_P_IP then
    let '(nh_type2, nh2) := parse_iphdr m nh1 data_end in
    if negb (nh_type2 =? IPPROTO_ICMP) then out XDP_PASS
    else
      let icmph := pos nh2 in
      let '(nh_type3, _) := parse_icmphdr m nh2 data_end in
      if negb (nh_type3 =? ICMP_ECHO) then out XDP_PASS
      else if bpf_ntohs (icmp_sequence m icmph) mod 2 =? 0 then out XDP_DROP
      else out XDP_PASS
  else out XDP_PASS.

End Rewriting.

(** ** packet-solutions/xdp_prog_kern.c *)

Module Solutions.
Import Common.

Definition vlan_tag_pop (K : kernel) (ctx : xdp_md) (eth : nat)
  : Z * xdp_md :=
  let data_end0 := data_end ctx in
  if negb (proto_is_vlan (eth_h_proto (mem ctx) eth)) then (-1, ctx)
  else
    let vlh := (eth + sizeof_ethhdr)%nat in
    if (data_end0 <? vlh + sizeof_vlan_hdr)%nat then (-1, ctx)
    else
      let vlid := bpf_ntohs (vlan_TCI (mem ctx) vlh) in
      let h_proto := vlan_encapsulated_proto (mem ctx) vlh in
      let eth_cpy := read_bytes (mem ctx) eth sizeof_ethhdr in
      let '(rc, ctx1) := bpf_xdp_adjust_head K ctx (Z.of_nat sizeof_vlan_hdr) in
      if negb (rc =? 0) then (-1, ctx1)
      else
        let eth := data ctx1 in
        let data_end := data_end ctx1 in
        if (data_end <? eth + sizeof_ethhdr)%nat then (-1, ctx1)
        else
          let m1 := write_bytes (mem ctx1) eth eth_cpy in
          let m2 := store16 m1 (eth + 12) h_proto in
          (vlid, set_mem ctx1 m2).

Definition vlan_tag_push (K : kernel) (ctx : xdp_md) (eth : nat) (vlid : Z)
  : Z * xdp_md :=
  let eth_cpy := read_bytes (mem ctx) eth sizeof_ethhdr in
  let '(rc, ctx1) := bpf_xdp_adjust_head K ctx (0 - Z.of_nat sizeof_vlan_hdr) in
  if negb (rc =? 0) then (-1, ctx1)
  else
    let data_end := data_end ctx1 in
    let eth := data ctx1 in
    if (data_end <? eth + sizeof_ethhdr)%nat then (-1, ctx1)
    else
      let m1 := write_bytes (mem ctx1) eth eth_cpy in
      let vlh := (eth + sizeof_ethhdr)%nat in
      if (data_end <? vlh + sizeof_vlan_hdr)%nat then (-1, set_mem ctx1 m1)
      else
        let m2 := store16 m1 vlh (bpf_htons vlid) in
        let m3 := store16 m2 (vlh + 2) (eth_h_proto m2 eth) in
        let m4 := store16 m3 (eth + 12) (bpf_htons ETH_P_8021Q) in
        (0, set_mem ctx1 m4).

Definition xdp_vlan_swap_func (K : kernel) (ctx : xdp_md) : result :=
  let nh := mk_cursor (data ctx) in
  let eth := data ctx in
  let '(nh_type, _) := parse_ethhdr (mem ctx) nh (data_end ctx) in
  if nh_type <? 0 then (XDP_PASS, ctx, no_trace)
  else if proto_is_vlan (eth_h_proto (mem ctx) eth)
       then (XDP_PASS, snd (vlan_tag_pop K ctx eth), no_trace)
       else (XDP_PASS, snd (vlan_tag_push K ctx eth 1), no_trace).

Definition swap_src_dst_mac (m : list byte) (eth : nat) : list byte :=
  let h_tmp := read_bytes m (eth + 6) ETH_ALEN in
  let m1 := write_bytes m (eth + 6) (read_bytes m eth ETH_ALEN) in
  write_bytes m1 eth h_tmp.

Definition swap_src_dst_ipv6 (m : list byte) (ipv6 : nat) : list byte :=
  let tmp := read_bytes m (ipv6 + 8) 16 in
  let m1 := write_bytes m (ipv6 + 8) (read_bytes m (ipv6 + 24) 16) in
  write_bytes m1 (ipv6 + 24) tmp.

Definition swap_src_dst_ipv4 (m : list byte) (iphdr : nat) : list byte :=
  let tmp := ip_saddr m iphdr in
  let m1 := store32 m (iphdr + 12) (ip_daddr m iphdr) in
  store32 m1 (iphdr + 16) tmp.

(** Both arguments arrive converted to [__u16]; so does the result. *)
Definition csum16_add (csum addend : Z) : Z :=
  let csum := to_u16 csum in
  let addend := to_u16 addend in
  let csum := to_u16 (csum + addend) in
  to_u16 (csum + (if csum <? addend then 1 else 0)).

(** the right-hand side of the checksum patch of [xdp_icmp_echo_func]:
    [~(csum16_add(csum16_add(~checksum, ~m0), m1))], stored as 16 bits *)
Definition csum_patch (checksum m0 m1 : Z) : Z :=
  to_u16 (Z.lnot (csum16_add (csum16_add (Z.lnot checksum) (Z.lnot m0)) m1)).

Definition xdp_icmp_echo_func (ctx : xdp_md) : result :=
  let data_end := data_end ctx in
  let m := mem ctx in
  let nh := mk_cursor (data ctx) in
  let out := xdp_stats_record_action ctx no_trace in
  let eth := data ctx in
  let '(eth_type, nh1) := parse_ethhdr m nh data_end in
  let l3 := pos nh1 in
  let after_ip (nh2 : hdr_cursor) : result :=
    let icmphdr := pos nh2 in
    let '(icmp_type, _) := parse_icmphdr m nh2 data_end in
    let patch (m1 : list byte) (echo_reply : Z) : result :=
      let m2 := swap_src_dst_mac m1 eth in
      let m0 := load16 m2 icmphdr in
      let m3 := store8 m2 icmphdr echo_reply in
      let m1' := load16 m3 icmphdr in
      let m4 := store16 m3 (icmphdr + 2)
                        (csum_patch (icmp_checksum m3 icmphdr) m0 m1') in
      xdp_stats_record_action (set_mem ctx m4) no_trace XDP_TX in
    if (eth_type =? ETH_P_IP) && (icmp_type =? ICMP_ECHO)
    then patch (swap_src_dst_ipv4 m l3) ICMP_ECHOREPLY
    else if (eth_type =? ETH_P_IPV6) && (icmp_type =? ICMPV6_ECHO_REQUEST)
    then patch (swap_src_dst_ipv6 m l3) ICMPV6_ECHO_REPLY
    else out XDP_PASS in
  if eth_type =? ETH_P_IP then
    let '(ip_type, nh2) := parse_iphdr m nh1 data_end in
    if negb (ip_type =? IPPROTO_ICMP) then out XDP_PASS else after_ip nh2
  else if eth_type =? ETH_P_IPV6 then
    let '(ip_type, nh2) := parse_ip6hdr m nh1 data_end in
    if negb (ip_type =? IPPROTO_ICMPV6) then out XDP_PASS else after_ip nh2
  else out XDP_PASS.

(** [dst] and [ifindex] are left as TODO in the source; they are parameters
    here. *)
Definition xdp_redirect_func (dst : list byte) (ifidx : Z) (ctx : xdp_md)
  : result :=
  let eth := data ctx in
  let '(eth_type, _) :=
    parse_ethhdr (mem ctx) (mk_cursor (data ctx)) (data_end ctx) in
  if eth_type =? -1 then xdp_stats_record_action ctx no_trace XDP_PASS
  else
    let m1 := write_bytes (mem ctx) eth (firstn ETH_ALEN dst) in
    let '(action, tr) := bpf_redirect no_trace ifidx in
    xdp_stats_record_action (set_mem ctx m1) tr action.

Definition xdp_redirect_map_func (K : kernel) (ctx : xdp_md) : result :=
  let eth := data ctx in
  let '(eth_type, _) :=
    parse_ethhdr (mem ctx) (mk_cursor (data ctx)) (data_end ctx) in
  if eth_type =? -1 then xdp_stats_record_action ctx no_trace XDP_PASS
  else
    match redirect_params K (read_bytes (mem ctx) (eth + 6) ETH_ALEN) with
    | None => xdp_stats_record_action ctx no_trace XDP_PASS
    | Some dst =>
        let m1 := write_bytes (mem ctx) eth (firstn ETH_ALEN dst) in
        let '(action, tr) := bpf_redirect_map no_trace 0 in
        xdp_stats_record_action (set_mem ctx m1) tr action
    end.

(** returns the new TTL and the memory *)
Definition ip_decrease_ttl (m : list byte) (iph : nat) : Z * list byte :=
  let check := ip_check m iph in
  let check := to_u32 (check + bpf_htons 0x0100) in
  let m1 := store16 m (iph + 10)
                    (to_u16 (check + (if 0xFFFF <=? check then 1 else 0))) in
  let ttl := to_u8 (ip_ttl m1 iph - 1) in
  (ttl, store8 m1 (iph + 8) ttl).

(** [fib_params] as the IPv4 branch of [xdp_router_func] fills it *)
Definition fib_params_ipv4 (m : list byte) (iph : nat) : bpf_fib_lookup :=
  mk_fib AF_INET (ip_protocol m iph) 0 0
         (bpf_ntohs (ip_tot_len m iph)) 0
         (ip_tos m iph) 0
         (ip_saddr m iph) (ip_daddr m iph)
         (ipv6_src fib_zero) (ipv6_dst fib_zero)
         (smac fib_zero) (dmac fib_zero).

(** [fib_params] as the IPv6 branch fills it *)
Definition fib_params_ipv6 (m : list byte) (ip6h : nat) : bpf_fib_lookup :=
  mk_fib AF_INET6 (ip6_nexthdr m ip6h) 0 0
         (bpf_ntohs (ip6_payload_len m ip6h)) 0
         0 (Z.land (load32 m ip6h) IPV6_FLOWINFO_MASK)
         0 0
         (read_bytes m (ip6h + 8) 16) (read_bytes m (ip6h + 24) 16)
         (smac fib_zero) (dmac fib_zero).

(** [fib_params.ifindex = ctx->ingress_ifindex;] *)
Definition set_ifindex (fp : bpf_fib_lookup) (i : Z) : bpf_fib_lookup :=
  mk_fib (family fp) (l4_protocol fp) (sport fp) (dport fp) (tot_len fp) i
         (tos fp) (flowinfo fp) (ipv4_src fp) (ipv4_dst fp)
         (ipv6_src fp) (ipv6_dst fp) (smac fp) (dmac fp).

(** The part of [xdp_router_func] after the two header branches: the
    resolver call and the [switch] over its return code ([l3] is [iph] or
    [ip6h]). *)
Definition router_forward (K : kernel) (ctx : xdp_md) (h_proto : Z)
           (l3 : nat) (fib_params : bpf_fib_lookup) : result :=
  let eth := data ctx in
  let m := mem ctx in
  let fib_params := set_ifindex fib_params (ingress_ifindex ctx) in
  let '(rc, fib_params, tr) := bpf_fib_lookup_call K no_trace fib_params in
  if rc =? BPF_FIB_LKUP_RET_SUCCESS then
    let m1 :=
      if h_proto =? bpf_htons ETH_P_IP then snd (ip_decrease_ttl m l3)
      else if h_proto =? bpf_htons ETH_P_IPV6
           then store8 m (l3 + 7) (ip6_hop_limit m l3 - 1)
           else m in
    let m2 := write_bytes m1 eth (firstn ETH_ALEN (dmac fib_params)) in
    let m3 := write_bytes m2 (eth + 6) (firstn ETH_ALEN (smac fib_params)) in
    let '(action, tr) := bpf_redirect_map tr (ifindex fib_params) in
    xdp_stats_record_action (set_mem ctx m3) tr action
  else if (rc =? BPF_FIB_LKUP_RET_BLACKHOLE)
          || (rc =? BPF_FIB_LKUP_RET_UNREACHABLE)
          || (rc =? BPF_FIB_LKUP_RET_PROHIBIT)
  then xdp_stats_record_action ctx tr XDP_DROP
  else if (rc =? BPF_FIB_LKUP_RET_NOT_FWDED)
          || (rc =? BPF_FIB_LKUP_RET_FWD_DISABLED)
          || (rc =? BPF_FIB_LKUP_RET_UNSUPP_LWT)
          || (rc =? BPF_FIB_LKUP_RET_NO_NEIGH)
          || (rc =? BPF_FIB_LKUP_RET_FRAG_NEEDED)
  then xdp_stats_record_action ctx tr XDP_PASS
  else xdp_stats_record_action ctx tr XDP_PASS.

Definition xdp_router_func (K : kernel) (ctx : xdp_md) : result :=
  let data_end := data_end ctx in
  let data := data ctx in
  let m := mem ctx in
  let eth := data in
  let out := xdp_stats_record_action ctx no_trace in
  let nh_off := sizeof_ethhdr in
  if (data_end <? data + nh_off)%nat then out XDP_DROP
  else
    let h_proto := eth_h_proto m eth in
    if h_proto =? bpf_htons ETH_P_IP then
      let iph := (data + nh_off)%nat in
      if (data_end <? iph + sizeof_iphdr)%nat then out XDP_DROP
      else if ip_ttl m iph <=? 1 then out XDP_PASS
      else router_forward K ctx h_proto iph (fib_params_ipv4 m iph)
    else if h_proto =? bpf_htons ETH_P_IPV6 then
      let ip6h := (data + nh_off)%nat in
      if (data_end <? ip6h + sizeof_ipv6hdr)%nat then out XDP_DROP
      else if ip6_hop_limit m ip6h <=? 1 then out XDP_PASS
      else router_forward K ctx h_proto ip6h (fib_params_ipv6 m ip6h)
    else out XDP_PASS.

Definition xdp_pass_func (ctx : xdp_md) : result := (XDP_PASS, ctx, no_trace).

End Solutions.

(** ** packet01-parsing/xdp_prog_kern.c *)

Module Parsing01.
Import Common.

Definition parse_ethhdr (m : list byte) (nh : hdr_cursor) (data_end : nat)
  : Z * hdr_cursor :=
  let eth := pos nh in
  let hdrsize := sizeof_ethhdr in
  if (data_end <? pos nh + hdrsize)%nat then (-1, nh)
  else (bpf_ntohs (eth_h_proto m eth), mk_cursor (pos nh + hdrsize)).

Definition parse_vlanhdr (m : list byte) (nh : hdr_cursor) (data_end : nat)
  : Z * hdr_cursor :=
  let vlan := pos nh in
  let hdrsize := sizeof_vlan_hdr in
  if (data_end <? pos nh + hdrsize)%nat then (-1, nh)
  else (bpf_ntohs (vlan_encapsulated_proto m vlan), mk_cursor (pos nh + hdrsize)).

Definition parse_ip6hdr (m : list byte) (nh : hdr_cursor) (data_end : nat)
  : Z * hdr_cursor :=
  let ip := pos nh in
  let hdrsize := sizeof_ipv6hdr in
  if (data_end <? pos nh + hdrsize)%nat then (-1, nh)
  else (bpf_ntohs (ip6_nexthdr m ip), mk_cursor (pos nh + hdrsize)).

Definition parse_icmp6hdr (m : list byte) (nh : hdr_cursor) (data_end : nat)
  : Z * hdr_cursor :=
  let hdrsize := sizeof_icmp6hdr in
  if (data_end <? pos nh + hdrsize)%nat then (-1, nh)
  else (0, mk_cursor (pos nh + hdrsize)).

Definition xdp_parser_func (ctx : xdp_md) : result :=
  let data_end := data_end ctx in
  let m := mem ctx in
  let nh := mk_cursor (data ctx) in
  let out := xdp_stats_record_action ctx no_trace in
  let assignment (nh1 : hdr_cursor) : result :=
    let '(nh_type, nh2) := parse_ip6hdr m nh1 data_end in
    if negb (nh_type =? 0x3A00) then out XDP_PASS
    else
      let icmp6 := pos nh2 in
      let '(nh_type, _) := parse_icmp6hdr m nh2 data_end in
      if negb (nh_type =? 0) then out XDP_PASS
      else if negb (Z.land (bpf_ntohs (icmp_sequence m icmp6)) 1 =? 0)
           then out XDP_DROP
           else out XDP_PASS in
  let '(nh_type, nh1) := parse_ethhdr m nh data_end in
  if nh_type =? ETH_P_IPV6 then assignment nh1
  else if (nh_type =? ETH_P_8021Q) || (nh_type =? ETH_P_8021AD) then
    let '(_, nh1') := parse_vlanhdr m nh1 data_end in assignment nh1'
  else out XDP_PASS.

End Parsing01.

(** ** One's-complement checksum of a whole message

    The reference the incremental patch is compared with: the Internet
    checksum computed from scratch over the 16-bit words of the message
    (checksum field excluded), by end-around-carry addition starting from
    zero, then complemented. *)

Definition add_end_around (a b : Z) : Z :=
  let s := a + b in s mod 65536 + s / 65536.

Definition ones_sum (words : list Z) : Z := fold_left add_end_around words 0.

Definition csum_full (words : list Z) : Z := 65535 - ones_sum words.

(** the 16-bit words (native order) of [n] bytes at [p] *)
Fixpoint words_at (m : list byte) (p : nat) (n : nat) : list Z :=
  match n with
  | O => []
  | S n' => load16 m p :: words_at m (p + 2) n'
  end.

(** [tags_announced m p n]: the [n] protocol fields at [p], [p + 4], ...
    all hold a VLAN tag type.  With [p] the Ethernet type field, the frame
    announces at least [n] stacked tags. *)
Fixpoint tags_announced (m : list byte) (p : nat) (n : nat) : bool :=
  match n with
  | O => true
  | S n' => Common.proto_is_vlan (load16 m p) && tags_announced m (p + 4) n'
  end.

(** ** The forwarding outcomes

    The outcome set of the FIB resolver as the specification names it,
    the return code that stands for each outcome, and the verdict the
    specification assigns to it. *)
Inductive ForwardingOutcome : Type :=
| Success
| Blackhole
| Unreachable
| Prohibited
| NotForwarded
| ForwardingDisabled
| UnsupportedEncap
| NoNeighbor
| FragmentationNeeded.

Definition outcome_code (o : ForwardingOutcome) : Z :=
  match o with
  | Success => BPF_FIB_LKUP_RET_SUCCESS
  | Blackhole => BPF_FIB_LKUP_RET_BLACKHOLE
  | Unreachable => BPF_FIB_LKUP_RET_UNREACHABLE
  | Prohibited => BPF_FIB_LKUP_RET_PROHIBIT
  | NotForwarded => BPF_FIB_LKUP_RET_NOT_FWDED
  | ForwardingDisabled => BPF_FIB_LKUP_RET_FWD_DISABLED
  | UnsupportedEncap => BPF_FIB_LKUP_RET_UNSUPP_LWT
  | NoNeighbor => BPF_FIB_LKUP_RET_NO_NEIGH
  | FragmentationNeeded => BPF_FIB_LKUP_RET_FRAG_NEEDED
  end.

Definition outcome_verdict (o : ForwardingOutcome) : xdp_action :=
  match o with
  | Success => XDP_REDIRECT
  | Blackhole | Unreachable | Prohibited => XDP_DROP
  | NotForwarded | ForwardingDisabled | UnsupportedEncap
  | NoNeighbor | FragmentationNeeded => XDP_PASS
  end.

(** the redirect call an outcome brings with it *)
Definition outcome_redirect (o : ForwardingOutcome) (egress_if : Z) : trace :=
  match o with
  | Success => [EvRedirect egress_if]
  | _ => []
  end.

(** An IPv4 (IPv6) packet that reaches the resolver call of
    [xdp_router_func]: both headers fit and the TTL (hop limit) exceeds 1. *)
Definition ipv4_frame (ctx : xdp_md) : Prop :=
  (data ctx + sizeof_ethhdr + sizeof_iphdr <= data_end ctx)%nat
  /\ Common.eth_h_proto (mem ctx) (data ctx) = bpf_htons ETH_P_IP.

Definition ipv6_frame (ctx : xdp_md) : Prop :=
  (data ctx + sizeof_ethhdr + sizeof_ipv6hdr <= data_end ctx)%nat
  /\ Common.eth_h_proto (mem ctx) (data ctx) = bpf_htons ETH_P_IPV6.

Definition l3_offset (ctx : xdp_md) : nat := (data ctx + sizeof_ethhdr)%nat.

(** the key [xdp_router_func] hands to the resolver *)
Definition lookup_key (ctx : xdp_md) : bpf_fib_lookup :=
  if Common.eth_h_proto (mem ctx) (data ctx) =? bpf_htons ETH_P_IP
  then Solutions.set_ifindex
         (Solutions.fib_params_ipv4 (mem ctx) (l3_offset ctx))
         (ingress_ifindex ctx)
  else Solutions.set_ifindex
         (Solutions.fib_params_ipv6 (mem ctx) (l3_offset ctx))
         (ingress_ifindex ctx).

(** ** Sample frames and tables *)

(** ten bytes of an Ethernet header, and a 20-byte IPv4 header announcing
    protocol 6 *)
Definition short_frame : list byte := bytes_of [1; 2; 3; 4; 5; 6; 7; 8; 9; 10].

Definition ipv4_header_bytes : list byte :=
  bytes_of [0x45; 0; 0; 20; 0; 0; 0; 0; 64; 6; 0; 0; 10; 0; 0; 1; 10; 0; 0; 2].

(** a 20-byte IPv4 header whose first byte announces IHL 0 *)
Definition ihl0_header_bytes : list byte :=
  bytes_of [0x40; 0; 0; 20; 0; 0; 0; 0; 64; 17; 0; 0; 10; 0; 0; 1; 10; 0; 0; 2].

(** an Ethernet header followed by six 802.1Q tags and two payload bytes *)
Definition six_tag_frame : list byte :=
  bytes_of ([1; 2; 3; 4; 5; 6; 7; 8; 9; 10; 11; 12; 0x81; 0]
            ++ [0; 1; 0x81; 0] ++ [0; 2; 0x81; 0] ++ [0; 3; 0x81; 0]
            ++ [0; 4; 0x81; 0] ++ [0; 5; 0x81; 0] ++ [0; 6; 0x08; 0]
            ++ [0x45; 0]).

(** a context whose packet is [pkt], behind [headroom] zero bytes *)
Definition ctx_of (headroom : nat) (pkt : list byte) : xdp_md :=
  mk_xdp_md (repeat x00 headroom ++ pkt) headroom (headroom + length pkt) 1.

Definition eth_ipv4_header (ttl : Z) : list Z :=
  [2; 0; 0; 0; 0; 1; 2; 0; 0; 0; 0; 2; 0x08; 0]
  ++ [0x45; 0; 0; 28; 0; 0; 0; 0; ttl; 1; 0; 0; 10; 0; 0; 1; 10; 0; 0; 2].

Definition eth_ipv6_header (hop_limit : Z) : list Z :=
  [2; 0; 0; 0; 0; 1; 2; 0; 0; 0; 0; 2; 0x86; 0xDD]
  ++ [0x60; 0; 0; 0; 0; 8; 58; hop_limit]
  ++ [0xfe; 0x80; 0; 0; 0; 0; 0; 0; 0; 0; 0; 0; 0; 0; 0; 1]
  ++ [0xfe; 0x80; 0; 0; 0; 0; 0; 0; 0; 0; 0; 0; 0; 0; 0; 2].

(** ICMP echo request: identifier 0, sequence 0, no payload *)
Definition icmp_echo_zero : list Z := [8; 0; 0xF7; 0xFF; 0; 0; 0; 0].

(** ICMP echo request: identifier 0x1234, sequence 7 *)
Definition icmp_echo_seq7 : list Z := [8; 0; 0xE5; 0xC4; 0x12; 0x34; 0; 7].

(** a resolver that answers [rc] and names egress interface 7 and two
    link-layer addresses; an empty redirect table; the Linux rule for
    head adjustments *)
Definition sample_kernel (rc : Z) : kernel :=
  mk_kernel
    (fun fp =>
       (rc,
        mk_fib (family fp) (l4_protocol fp) (sport fp) (dport fp) (tot_len fp) 7
               (tos fp) (flowinfo fp) (ipv4_src fp) (ipv4_dst fp)
               (ipv6_src fp) (ipv6_dst fp)
               (bytes_of [2; 0; 0; 0; 0; 0xAA]) (bytes_of [2; 0; 0; 0; 0; 0xBB])))
    (fun _ => None)
    linux_head_adjustable.

(** ** Collector discipline of a run *)

(** the collector is called exactly once, as the last external call, with
    the verdict the program returns *)
Definition records_once (r : result) : Prop :=
  exists pre, effects r = pre ++ [EvStats (verdict r)] /\ stats_calls pre = [].

(** the program returns [XDP_PASS] and calls no external service *)
Definition passes_silently (r : result) : Prop :=
  verdict r = XDP_PASS /\ effects r = [].

(** the plain sum of the words, and the one's-complement sum it stands
    for: 0 for 0, otherwise the representative in 1..65535 modulo 65535 *)
Definition sum_words (ws : list Z) : Z := fold_right Z.add 0 ws.

Definition ones_norm (t : Z) : Z :=
  if t =? 0 then 0 else (t - 1) mod 65535 + 1.

Definition is_u16 (w : Z) : Prop := 0 <= w < 65536.


(** the 16-bit words of an 8-byte ICMP echo header at [p], checksum field
    left out *)
Definition icmp_echo_words (m : list byte) (p : nat) : list Z :=
  [load16 m p; load16 m (p + 4); load16 m (p + 6)].

(** Ethernet + IPv4 + ICMP echo request with identifier 0, sequence 0 and
    no payload; its checksum field F7 FF is the correct one *)
Definition echo_zero_ctx : xdp_md :=
  ctx_of 0 (bytes_of (eth_ipv4_header 64 ++ icmp_echo_zero)).

(** the same with identifier 0x1234 and sequence 7 *)
Definition echo_seq7_ctx : xdp_md :=
  ctx_of 0 (bytes_of (eth_ipv4_header 64 ++ icmp_echo_seq7)).

(** the four bytes of a VLAN tag on the wire, preceded by its tag type:
    type and TCI, both big-endian *)
Definition vlan_tag_bytes (tpid vlid : Z) : list byte :=
  bytes_of [tpid / 256; tpid; vlid / 256; vlid].

(** an untagged IPv4 frame behind four bytes of headroom, the same frame
    without headroom, and a frame with one 802.1ad tag, VLAN 42 *)
Definition untagged_ctx : xdp_md := ctx_of 4 (bytes_of (eth_ipv4_header 64)).

Definition no_headroom_ctx : xdp_md := ctx_of 0 (bytes_of (eth_ipv4_header 64)).

Definition tagged_frame (tpid : Z) : list Z :=
  [2; 0; 0; 0; 0; 1; 2; 0; 0; 0; 0; 2; tpid / 256; tpid mod 256; 0; 42; 0x08; 0]
  ++ [0x45; 0; 0; 20; 0; 0; 0; 0; 64; 6; 0; 0; 10; 0; 0; 1; 10; 0; 0; 2].

Definition q_tagged_ctx : xdp_md := ctx_of 0 (bytes_of (tagged_frame ETH_P_8021Q)).

Definition ad_tagged_ctx : xdp_md := ctx_of 0 (bytes_of (tagged_frame ETH_P_8021AD)).

(** a kernel that accepts at least the head adjustments Linux accepts *)
Definition accepts_like_linux (K : kernel) : Prop :=
  forall c delta,
    linux_head_adjustable c delta = true -> head_adjustable K c delta = true.

(** a kernel whose driver refuses every head adjustment *)
Definition refusing_kernel : kernel :=
  mk_kernel (fib_resolve (sample_kernel 0)) (redirect_params (sample_kernel 0))
            (fun _ _ => false).

(** ** Truncated VLAN tags and cut frames *)




(** ** Notions used by the further properties *)

(** ** Footprint of a memory update *)

(** [m'] agrees with [m] on every byte outside [lo, hi) *)
Definition same_outside (lo hi : nat) (m m' : list byte) : Prop :=
  forall i, (i < lo \/ hi <= i)%nat -> nth i m' x00 = nth i m x00.

(** the 16-bit words of an ICMP message at [p] with [n] words after the
    checksum field, the checksum field left out *)
Definition icmp_message_words (m : list byte) (p : nat) (n : nat) : list Z :=
  load16 m p :: words_at m (p + 4) n.

(** [r] is a run on [ctx] that passes the packet on with the big-endian
    16-bit field at [q + 2] (the destination port of a TCP or UDP header
    at [q]) lowered by one modulo 2^16 and nothing else changed *)
Definition port_lowered_at (ctx : xdp_md) (r : result) (q : nat) : Prop :=
  verdict r = XDP_PASS /\ effects r = []
  /\ data (final_ctx r) = data ctx /\ data_end (final_ctx r) = data_end ctx
  /\ bpf_ntohs (load16 (mem (final_ctx r)) (q + 2))
     = (bpf_ntohs (load16 (mem ctx) (q + 2)) - 1) mod 65536
  /\ same_outside (q + 2) (q + 4) (mem ctx) (mem (final_ctx r)).

(** a 20-byte TCP header with destination port 0 *)
Definition tcp_port0 : list byte :=
  bytes_of [0x12; 0x34; 0; 0; 0; 0; 0; 0; 0; 0; 0; 0; 0x50; 0; 0; 0; 0; 0; 0; 0].

(** an ARP frame: Ethernet type 0x0806 followed by 28 bytes *)
Definition arp_frame : list byte :=
  bytes_of ([0xff; 0xff; 0xff; 0xff; 0xff; 0xff; 2; 0; 0; 0; 0; 2; 0x08; 0x06]
            ++ [0; 1; 8; 0; 6; 4; 0; 1; 2; 0; 0; 0; 0; 2; 10; 0; 0; 1;
                0; 0; 0; 0; 0; 0; 10; 0; 0; 2]).

(** Ethernet + IPv4 + a TCP header, destination port 80 *)
Definition tcp_frame : list byte :=
  bytes_of ([2; 0; 0; 0; 0; 1; 2; 0; 0; 0; 0; 2; 0x08; 0]
            ++ [0x45; 0; 0; 40; 0; 0; 0; 0; 64; 6; 0; 0; 10; 0; 0; 1; 10; 0; 0; 2]
            ++ [0x12; 0x34; 0; 80; 0; 0; 0; 0; 0; 0; 0; 0; 0x50; 0; 0; 0;
                0; 0; 0; 0]).

(** a 20-byte IPv4 header (TTL 64, ICMP, 10.0.0.1 to 10.0.0.2) whose
    checksum field 66 DF is the correct one *)
Definition checked_ipv4_header : list Z :=
  [0x45; 0; 0; 28; 0; 0; 0; 0; 64; 1; 0x66; 0xDF; 10; 0; 0; 1; 10; 0; 0; 2].

(** ICMPv6 echo request: identifier 0x1234, sequence 7; the checksum
    70 7D covers the pseudo-header of [eth_ipv6_header] *)
Definition icmp6_echo_seq7 : list Z := [128; 0; 0x70; 0x7D; 0x12; 0x34; 0; 7].

Definition echo6_seq7_ctx : xdp_md :=
  ctx_of 0 (bytes_of (eth_ipv6_header 64 ++ icmp6_echo_seq7)).

(** a kernel whose redirect table sends frames from 02:00:00:00:00:02 to
    02:00:00:00:00:CC *)
Definition redirecting_kernel : kernel :=
  mk_kernel (fib_resolve (sample_kernel 0))
            (fun src =>
               if list_eq_dec Byte.byte_eq_dec src (bytes_of [2; 0; 0; 0; 0; 2])
               then Some (bytes_of [2; 0; 0; 0; 0; 0xCC]) else None)
            linux_head_adjustable.

(** an Ethernet frame with the IPv4 header [checked_ipv4_header] *)
Definition checked_ipv4_frame : list Z :=
  [2; 0; 0; 0; 0; 1; 2; 0; 0; 0; 0; 2; 0x08; 0] ++ checked_ipv4_header.

(** a run that leaves the buffer as long as it was, the tail where it
    was, the head at or before the tail, and every byte of memory outside
    the final packet as it was *)
Definition writes_inside_packet (ctx : xdp_md) (r : result) : Prop :=
  let c' := final_ctx r in
  length (mem c') = length (mem ctx) /\ data_end c' = data_end ctx
  /\ wf_ctx c'
  /\ forall i, (i < data c' \/ data_end c' <= i)%nat ->
               nth i (mem c') x00 = nth i (mem ctx) x00.

(** * Properties *)

(** ** Bytes *)

Lemma byte_to_Z_range (b : byte) : 0 <= byte_to_Z b < 256.
Proof.
  unfold byte_to_Z. pose proof (Byte.to_N_bounded b). lia.
Qed.

Lemma byte_of_to_Z (b : byte) : byte_of_Z (byte_to_Z b) = b.
Proof.
  unfold byte_of_Z. pose proof (byte_to_Z_range b) as R.
  rewrite Z.mod_small by exact R.
  unfold byte_to_Z. rewrite N2Z.id, Byte.of_to_N. reflexivity.
Qed.

Lemma byte_to_of_Z (z : Z) : byte_to_Z (byte_of_Z z) = z mod 256.
Proof.
  unfold byte_of_Z, byte_to_Z.
  pose proof (Z.mod_pos_bound z 256 ltac:(lia)) as R.
  destruct (Byte.of_N (Z.to_N (z mod 256))) as [b|] eqn:E.
  - apply Byte.to_of_N in E. rewrite E. lia.
  - apply Byte.of_N_None_iff in E. lia.
Qed.

Lemma load8_range m p : 0 <= load8 m p < 256.
Proof. apply byte_to_Z_range. Qed.

Lemma load16_range m p : 0 <= load16 m p < 65536.
Proof.
  unfold load16. pose proof (load8_range m p). pose proof (load8_range m (p + 1)).
  lia.
Qed.

Lemma bswap16_bytes (a b : Z) :
  0 <= a < 256 -> 0 <= b < 256 -> bswap16 (a + 256 * b) = 256 * a + b.
Proof.
  intros Ha Hb. unfold bswap16.
  replace ((a + 256 * b) mod 256) with a
    by (apply Z.mod_unique with b; lia).
  replace ((a + 256 * b) / 256) with b
    by (apply Z.div_unique with a; lia).
  rewrite (Z.mod_small b) by lia. lia.
Qed.

(** in host byte order: the big-endian value of the two wire bytes *)
Lemma ntohs_load16 m p :
  bpf_ntohs (load16 m p) = 256 * load8 m p + load8 m (p + 1).
Proof.
  unfold bpf_ntohs, to_u16. rewrite Z.mod_small by apply load16_range.
  unfold load16. apply bswap16_bytes; apply load8_range.
Qed.

Lemma bswap16_range x : 0 <= bswap16 x < 65536.
Proof.
  unfold bswap16.
  pose proof (Z.mod_pos_bound x 256 ltac:(lia)).
  pose proof (Z.mod_pos_bound (x / 256) 256 ltac:(lia)). lia.
Qed.

Lemma bswap16_involutive x : 0 <= x < 65536 -> bswap16 (bswap16 x) = x.
Proof.
  intros Hx.
  assert (x = x mod 256 + 256 * (x / 256)) as E
      by (pose proof (Z.div_mod x 256 ltac:(lia)); lia).
  assert (0 <= x / 256 < 256) as Hq
      by (split; [apply Z.div_pos; lia | apply Z.div_lt_upper_bound; lia]).
  pose proof (Z.mod_pos_bound x 256 ltac:(lia)) as Hr.
  unfold bswap16 at 2. rewrite (Z.mod_small (x / 256)) by lia.
  replace (x mod 256 * 256 + x / 256) with (x / 256 + 256 * (x mod 256)) by lia.
  rewrite bswap16_bytes by lia. lia.
Qed.

(** ** The parsers of common/parsing_helpers.h *)

Import Common.

Lemma vlan_loop_spec n m de h vlh :
  exists k : nat,
    (k <= n)%nat /\
    snd (vlan_loop n m de h vlh) = (vlh + 4 * k)%nat /\
    ((vlh <= de)%nat -> (vlh + 4 * k <= de)%nat) /\
    fst (vlan_loop n m de h vlh)
    = (if (k =? 0)%nat then h else load16 m (vlh + 4 * k - 2)).
Proof.
  revert h vlh. induction n as [|n IH]; intros h vlh.
  - exists 0%nat. simpl. repeat split; lia.
  - simpl. destruct (proto_is_vlan h).
    + simpl. unfold sizeof_vlan_hdr.
      destruct (Nat.ltb_spec de (vlh + 4)) as [Hlt|Hge].
      * exists 0%nat. simpl. repeat split; lia.
      * destruct (IH (vlan_encapsulated_proto m vlh) (vlh + 4)%nat)
          as (k & Hk & Hpos & Hde & Hval).
        exists (S k). repeat split; try lia.
        rewrite Hval. simpl Nat.eqb.
        destruct (Nat.eqb_spec k 0) as [->|Hk0].
        -- unfold vlan_encapsulated_proto. f_equal. lia.
        -- f_equal. lia.
    + exists 0%nat. simpl. repeat split; lia.
Qed.

Lemma vlan_loop_all n : forall m de p,
  tags_announced m p n = true ->
  (p + 2 + 4 * n <= de)%nat ->
  vlan_loop n m de (load16 m p) (p + 2)
  = (load16 m (p + 4 * n), (p + 2 + 4 * n)%nat).
Proof.
  induction n as [|n IH]; intros m de p Ht Hde.
  - simpl. f_equal; [f_equal|]; lia.
  - simpl in Ht. apply andb_true_iff in Ht. destruct Ht as [Hv Ht].
    cbn [vlan_loop]. rewrite Hv. cbn [negb]. unfold sizeof_vlan_hdr.
    destruct (Nat.ltb_spec de (p + 2 + 4)) as [Hlt|Hge]; [lia|].
    unfold vlan_encapsulated_proto.
    replace (p + 2 + 2)%nat with (p + 4)%nat by lia.
    replace (p + 2 + 4)%nat with (p + 4 + 2)%nat by lia.
    rewrite IH by (try assumption; lia).
    f_equal; [f_equal|]; lia.
Qed.

Lemma parse_ethhdr_short m nh de :
  (de - pos nh < sizeof_ethhdr)%nat -> parse_ethhdr m nh de = (-1, nh).
Proof.
  intros H. unfold parse_ethhdr, sizeof_ethhdr in *.
  destruct (Nat.ltb_spec de (pos nh + 14)); [reflexivity | lia].
Qed.

Lemma parse_ethhdr_fits m nh de :
  (sizeof_ethhdr <= de - pos nh)%nat ->
  exists k : nat,
    (k <= VLAN_MAX_DEPTH)%nat /\
    pos (snd (parse_ethhdr m nh de)) = (pos nh + sizeof_ethhdr + 4 * k)%nat /\
    (pos (snd (parse_ethhdr m nh de)) <= de)%nat /\
    fst (parse_ethhdr m nh de)
    = 256 * load8 m (pos (snd (parse_ethhdr m nh de)) - 2)
      + load8 m (pos (snd (parse_ethhdr m nh de)) - 1).
Proof.
  intros H. unfold parse_ethhdr, sizeof_ethhdr in *.
  destruct (Nat.ltb_spec de (pos nh + 14)); [lia|].
  destruct (vlan_loop_spec VLAN_MAX_DEPTH m de (eth_h_proto m (pos nh))
                           (pos nh + 14)) as (k & Hk & Hpos & Hde & Hval).
  destruct (vlan_loop VLAN_MAX_DEPTH m de (eth_h_proto m (pos nh)) (pos nh + 14))
    as [h' v'] eqn:E.
  cbn [fst snd pos] in *. subst v'. exists k. repeat split; try lia.
  assert (h' = load16 m (pos nh + 14 + 4 * k - 2)) as ->.
  { rewrite Hval. destruct (Nat.eqb_spec k 0) as [->|Hk0]; [|reflexivity].
    unfold eth_h_proto. f_equal. lia. }
  rewrite ntohs_load16.
  replace (pos nh + 14 + 4 * k - 2 + 1)%nat with (pos nh + 14 + 4 * k - 1)%nat
    by lia.
  reflexivity.
Qed.

Lemma parse_iphdr_short m nh de :
  (de - pos nh < sizeof_iphdr)%nat
  \/ Z.of_nat (de - pos nh) < 4 * ip_ihl m (pos nh) ->
  parse_iphdr m nh de = (-1, nh).
Proof.
  intros H. unfold parse_iphdr, sizeof_iphdr in *.
  destruct (Nat.ltb_spec de (pos nh + 20)); [reflexivity|].
  destruct (Z.ltb_spec (Z.of_nat de) (Z.of_nat (pos nh) + ip_ihl m (pos nh) * 4));
    [reflexivity | lia].
Qed.

Lemma ip_ihl_range m p : 0 <= ip_ihl m p < 16.
Proof. unfold ip_ihl. apply Z.mod_pos_bound. lia. Qed.

Lemma parse_iphdr_fits m nh de :
  (sizeof_iphdr <= de - pos nh)%nat ->
  4 * ip_ihl m (pos nh) <= Z.of_nat (de - pos nh) ->
  parse_iphdr m nh de
  = (ip_protocol m (pos nh),
     mk_cursor (pos nh + Z.to_nat (4 * ip_ihl m (pos nh)))).
Proof.
  intros H1 H2. unfold parse_iphdr, sizeof_iphdr in *.
  pose proof (ip_ihl_range m (pos nh)) as R.
  destruct (Nat.ltb_spec de (pos nh + 20)); [lia|].
  destruct (Z.ltb_spec (Z.of_nat de) (Z.of_nat (pos nh) + ip_ihl m (pos nh) * 4));
    [lia|].
  repeat f_equal. lia.
Qed.

Lemma parse_ip6hdr_cases m nh de :
  ((de - pos nh < sizeof_ipv6hdr)%nat -> parse_ip6hdr m nh de = (-1, nh)) /\
  ((sizeof_ipv6hdr <= de - pos nh)%nat ->
   parse_ip6hdr m nh de
   = (ip6_nexthdr m (pos nh), mk_cursor (pos nh + sizeof_ipv6hdr))).
Proof.
  unfold parse_ip6hdr, sizeof_ipv6hdr.
  destruct (Nat.ltb_spec de (pos nh + 40)); split; intros; try reflexivity; lia.
Qed.

Lemma parse_icmphdr_cases m nh de :
  ((de - pos nh < sizeof_icmphdr)%nat -> parse_icmphdr m nh de = (-1, nh)) /\
  ((sizeof_icmphdr <= de - pos nh)%nat ->
   parse_icmphdr m nh de
   = (icmp_type m (pos nh), mk_cursor (pos nh + sizeof_icmphdr))).
Proof.
  unfold parse_icmphdr, sizeof_icmphdr.
  destruct (Nat.ltb_spec de (pos nh + 8)); split; intros; try reflexivity; lia.
Qed.

Lemma parse_icmp6hdr_cases m nh de :
  ((de - pos nh < sizeof_icmp6hdr)%nat -> parse_icmp6hdr m nh de = (-1, nh)) /\
  ((sizeof_icmp6hdr <= de - pos nh)%nat ->
   parse_icmp6hdr m nh de
   = (icmp_type m (pos nh), mk_cursor (pos nh + sizeof_icmp6hdr))).
Proof.
  unfold parse_icmp6hdr, sizeof_icmp6hdr.
  destruct (Nat.ltb_spec de (pos nh + 8)); split; intros; try reflexivity; lia.
Qed.

(** the cursor of the unrolled loop stops after [k] tags when [k]
    type fields in a row announce a tag, the [k] tags fit, and the loop
    cannot go on: the bound is reached, the next type field announces no
    tag, or the next tag does not fit *)
Lemma vlan_loop_stop n : forall m de p k,
  (k <= n)%nat ->
  tags_announced m p k = true ->
  (p + 2 + 4 * k <= de)%nat ->
  k = n \/ proto_is_vlan (load16 m (p + 4 * k)) = false
  \/ (de < p + 2 + 4 * (k + 1))%nat ->
  vlan_loop n m de (load16 m p) (p + 2)
  = (load16 m (p + 4 * k), (p + 2 + 4 * k)%nat).
Proof.
  induction n as [|n IH]; intros m de p k Hk Ht Hfit Hstop.
  - assert (k = 0)%nat as -> by lia. cbn [vlan_loop].
    f_equal; [f_equal|]; lia.
  - destruct k as [|k].
    + cbn [vlan_loop]. replace (p + 4 * 0)%nat with p in Hstop by lia.
      destruct Hstop as [Hs|[Hs|Hs]]; [discriminate| |].
      * rewrite Hs. cbn [negb]. f_equal; [f_equal|]; lia.
      * destruct (proto_is_vlan (load16 m p)); cbn [negb];
          [|f_equal; [f_equal|]; lia].
        unfold sizeof_vlan_hdr.
        destruct (Nat.ltb_spec de (p + 2 + 4)); [|lia].
        f_equal; [f_equal|]; lia.
    + cbn [tags_announced] in Ht. apply andb_true_iff in Ht.
      destruct Ht as [Hv Ht].
      cbn [vlan_loop]. rewrite Hv. cbn [negb]. unfold sizeof_vlan_hdr.
      destruct (Nat.ltb_spec de (p + 2 + 4)); [lia|].
      unfold vlan_encapsulated_proto.
      replace (p + 2 + 2)%nat with (p + 4)%nat by lia.
      replace (p + 2 + 4)%nat with (p + 4 + 2)%nat by lia.
      rewrite (IH m de (p + 4)%nat k); [f_equal; [f_equal|]; lia | lia
                                       | exact Ht | lia |].
      replace (p + 4 + 4 * k)%nat with (p + 4 * S k)%nat by lia.
      destruct Hstop as [Hs|[Hs|Hs]]; [left; lia | right; left; exact Hs
                                      | right; right; lia].
Qed.

Lemma vlan_loop_stops n : forall m de p,
  (p + 2 <= de)%nat ->
  exists k : nat,
    (k <= n)%nat /\ tags_announced m p k = true /\ (p + 2 + 4 * k <= de)%nat
    /\ (k = n \/ proto_is_vlan (load16 m (p + 4 * k)) = false
        \/ (de < p + 2 + 4 * (k + 1))%nat).
Proof.
  induction n as [|n IH]; intros m de p Hfit.
  - exists 0%nat. split; [lia|]. split; [reflexivity|]. split; [lia|].
    left. reflexivity.
  - destruct (proto_is_vlan (load16 m p)) eqn:Hv.
    + destruct (le_lt_dec (p + 2 + 4) de) as [Hf|Hs].
      * destruct (IH m de (p + 4)%nat ltac:(lia)) as (k & Hk & Ht & Hd & Hstop).
        exists (S k). split; [lia|]. split.
        { cbn [tags_announced]. rewrite Hv, Ht. reflexivity. }
        split; [lia|].
        replace (p + 4 * S k)%nat with (p + 4 + 4 * k)%nat by lia.
        destruct Hstop as [Hs|[Hs|Hs]]; [left; lia | right; left; exact Hs
                                        | right; right; lia].
      * exists 0%nat. split; [lia|]. split; [reflexivity|]. split; [lia|].
        right. right. lia.
    + exists 0%nat. split; [lia|]. split; [reflexivity|]. split; [lia|].
      right. left.
      replace (p + 4 * 0)%nat with p by lia. exact Hv.
Qed.

(** [parse_ethhdr] on a frame whose Ethernet header fits: the number of
    tags it skips is fixed by the frame, and so is its result *)
Lemma parse_ethhdr_exact m nh de k :
  (k <= VLAN_MAX_DEPTH)%nat ->
  tags_announced m (pos nh + 12) k = true ->
  (pos nh + sizeof_ethhdr + 4 * k <= de)%nat ->
  k = VLAN_MAX_DEPTH
  \/ proto_is_vlan (load16 m (pos nh + 12 + 4 * k)) = false
  \/ (de < pos nh + sizeof_ethhdr + 4 * (k + 1))%nat ->
  parse_ethhdr m nh de
  = (256 * load8 m (pos nh + 12 + 4 * k) + load8 m (pos nh + 12 + 4 * k + 1),
     mk_cursor (pos nh + sizeof_ethhdr + 4 * k)).
Proof.
  unfold sizeof_ethhdr. intros Hk Ht Hfit Hstop.
  unfold parse_ethhdr, sizeof_ethhdr, eth_h_proto. cbv zeta.
  destruct (Nat.ltb_spec de (pos nh + 14)); [lia|].
  replace (pos nh + 14)%nat with (pos nh + 12 + 2)%nat by lia.
  rewrite (vlan_loop_stop VLAN_MAX_DEPTH m de (pos nh + 12)%nat k)
    by (try assumption;
        first [lia | destruct Hstop as [Hs|[Hs|Hs]];
                     [left; exact Hs | right; left; exact Hs | right; right; lia]]).
  rewrite ntohs_load16.
  replace (pos nh + 12 + 2 + 4 * k)%nat with (pos nh + 14 + 4 * k)%nat by lia.
  reflexivity.
Qed.

(** C9: when fewer bytes remain past the cursor than the header needs (its
    fixed size, or [ihl * 4] for IPv4), the parser returns -1 and the
    cursor is returned as it was; when the header fits, the cursor has
    moved past it and the value returned is the next protocol in host
    byte order.  For Ethernet the frame fixes the number [k] of VLAN tags
    skipped ([k] type fields in a row announce a tag, the [k] tags fit,
    and [k] is [VLAN_MAX_DEPTH] or the next type field announces no tag
    or the next tag does not fit); the cursor then stands [14 + 4 * k]
    bytes further and the value returned is the big-endian reading of the
    type field in front of it.  On a frame without a tag that is the
    Ethernet type, with the cursor 14 bytes further. *)
Theorem parsers_truncated_or_advance : forall m nh de,
  let rem := (de - pos nh)%nat in
  let stops_after (k : nat) :=
    (k <= VLAN_MAX_DEPTH)%nat
    /\ tags_announced m (pos nh + 12) k = true
    /\ (pos nh + sizeof_ethhdr + 4 * k <= de)%nat
    /\ (k = VLAN_MAX_DEPTH
        \/ proto_is_vlan (load16 m (pos nh + 12 + 4 * k)) = false
        \/ (de < pos nh + sizeof_ethhdr + 4 * (k + 1))%nat) in
  ((rem < sizeof_ethhdr)%nat -> parse_ethhdr m nh de = (-1, nh)) /\
  ((sizeof_ethhdr <= rem)%nat ->
   (exists k : nat, stops_after k)
   /\ (forall k : nat, stops_after k ->
       parse_ethhdr m nh de
       = (256 * load8 m (pos nh + 12 + 4 * k)
          + load8 m (pos nh + 12 + 4 * k + 1),
          mk_cursor (pos nh + sizeof_ethhdr + 4 * k)))
   /\ (proto_is_vlan (eth_h_proto m (pos nh)) = false ->
       parse_ethhdr m nh de
       = (256 * load8 m (pos nh + 12) + load8 m (pos nh + 13),
          mk_cursor (pos nh + sizeof_ethhdr)))) /\
  ((rem < sizeof_iphdr)%nat \/ Z.of_nat rem < 4 * ip_ihl m (pos nh) ->
   parse_iphdr m nh de = (-1, nh)) /\
  ((sizeof_iphdr <= rem)%nat -> 4 * ip_ihl m (pos nh) <= Z.of_nat rem ->
   parse_iphdr m nh de
   = (ip_protocol m (pos nh),
      mk_cursor (pos nh + Z.to_nat (4 * ip_ihl m (pos nh))))) /\
  ((rem < sizeof_ipv6hdr)%nat -> parse_ip6hdr m nh de = (-1, nh)) /\
  ((sizeof_ipv6hdr <= rem)%nat ->
   parse_ip6hdr m nh de
   = (ip6_nexthdr m (pos nh), mk_cursor (pos nh + sizeof_ipv6hdr))) /\
  ((rem < sizeof_icmphdr)%nat -> parse_icmphdr m nh de = (-1, nh)) /\
  ((sizeof_icmphdr <= rem)%nat ->
   parse_icmphdr m nh de
   = (icmp_type m (pos nh), mk_cursor (pos nh + sizeof_icmphdr))) /\
  ((rem < sizeof_icmp6hdr)%nat -> parse_icmp6hdr m nh de = (-1, nh)) /\
  ((sizeof_icmp6hdr <= rem)%nat ->
   parse_icmp6hdr m nh de
   = (icmp_type m (pos nh), mk_cursor (pos nh + sizeof_icmp6hdr))).
Proof.
  intros m nh de rem stops_after. subst rem stops_after. cbv beta.
  split; [apply parse_ethhdr_short|].
  split.
  { intros Hf. split; [|split].
    - destruct (vlan_loop_stops VLAN_MAX_DEPTH m de (pos nh + 12)%nat
                  ltac:(unfold sizeof_ethhdr in Hf; lia))
        as (k & Hk & Ht & Hd & Hstop).
      exists k. unfold sizeof_ethhdr. split; [exact Hk|]. split; [exact Ht|].
      split; [lia|].
      destruct Hstop as [Hs|[Hs|Hs]]; [left; exact Hs | right; left; exact Hs
                                      | right; right; lia].
    - intros k (Hk & Ht & Hd & Hstop). apply parse_ethhdr_exact; assumption.
    - intros Hv.
      rewrite (parse_ethhdr_exact m nh de 0);
        [ | unfold VLAN_MAX_DEPTH; lia | reflexivity
          | unfold sizeof_ethhdr in *; lia
          | right; left; unfold eth_h_proto in Hv;
            replace (pos nh + 12 + 4 * 0)%nat with (pos nh + 12)%nat by lia;
            exact Hv ].
      f_equal; [f_equal; [f_equal|]; f_equal; lia | f_equal; lia]. }
  split; [apply parse_iphdr_short|].
  split; [apply parse_iphdr_fits|].
  split; [apply parse_ip6hdr_cases|].
  split; [apply parse_ip6hdr_cases|].
  split; [apply parse_icmphdr_cases|].
  split; [apply parse_icmphdr_cases|].
  split; apply parse_icmp6hdr_cases.
Qed.

Lemma parsers_truncated_or_advance_witness :
  parse_ethhdr short_frame (mk_cursor 0) 10 = (-1, mk_cursor 0)
  /\ parse_ethhdr (bytes_of (eth_ipv4_header 64)) (mk_cursor 0) 34
     = (ETH_P_IP, mk_cursor 14)
  /\ parse_ethhdr (bytes_of (tagged_frame ETH_P_8021Q)) (mk_cursor 0) 38
     = (ETH_P_IP, mk_cursor 18)
  /\ parse_iphdr short_frame (mk_cursor 0) 10 = (-1, mk_cursor 0)
  /\ parse_iphdr ipv4_header_bytes (mk_cursor 0) 20 = (6, mk_cursor 20).
Proof.
  pose proof (parsers_truncated_or_advance short_frame (mk_cursor 0) 10)
    as (He & _ & Hi & _).
  pose proof (parsers_truncated_or_advance ipv4_header_bytes (mk_cursor 0) 20)
    as (_ & _ & _ & Hf & _).
  pose proof (parsers_truncated_or_advance (bytes_of (eth_ipv4_header 64))
                (mk_cursor 0) 34) as (_ & Hu & _).
  pose proof (parsers_truncated_or_advance (bytes_of (tagged_frame ETH_P_8021Q))
                (mk_cursor 0) 38) as (_ & Ht & _).
  split; [|split; [|split; [|split]]].
  - apply He. vm_compute. lia.
  - destruct Hu as (_ & _ & Hu); [vm_compute; lia|].
    apply Hu. vm_compute. reflexivity.
  - destruct Ht as (_ & Ht & _); [vm_compute; lia|].
    apply (Ht 1%nat). split; [vm_compute; lia|]. split; [vm_compute; reflexivity|].
    split; [vm_compute; lia|]. right. left. vm_compute. reflexivity.
  - apply Hi. left. vm_compute. lia.
  - apply Hf; vm_compute; [lia | discriminate].
Defined.

(** C10: with 20 bytes present and an IHL below 5, [parse_iphdr] succeeds:
    no minimum header length is enforced, the cursor moves by [ihl * 4]
    bytes (fewer than 20, none when [ihl] is 0) and the protocol field is
    returned. *)
Theorem parse_iphdr_accepts_small_ihl : forall m nh de,
  (pos nh + sizeof_iphdr <= de)%nat ->
  ip_ihl m (pos nh) < 5 ->
  parse_iphdr m nh de
  = (ip_protocol m (pos nh),
     mk_cursor (pos nh + Z.to_nat (ip_ihl m (pos nh) * 4)))
  /\ (Z.to_nat (ip_ihl m (pos nh) * 4) < sizeof_iphdr)%nat
  /\ (ip_ihl m (pos nh) = 0 -> snd (parse_iphdr m nh de) = nh).
Proof.
  intros m nh de Hfit Hihl.
  pose proof (ip_ihl_range m (pos nh)) as R.
  unfold sizeof_iphdr in *.
  assert (parse_iphdr m nh de
          = (ip_protocol m (pos nh),
             mk_cursor (pos nh + Z.to_nat (ip_ihl m (pos nh) * 4)))) as E.
  { rewrite parse_iphdr_fits by (unfold sizeof_iphdr; lia).
    do 3 f_equal. lia. }
  split; [exact E|]. split; [lia|].
  intros H0. rewrite E, H0. destruct nh as [p]. simpl. f_equal. lia.
Qed.

Lemma parse_iphdr_accepts_small_ihl_witness :
  parse_iphdr ihl0_header_bytes (mk_cursor 0) 20 = (17, mk_cursor 0).
Proof.
  destruct (parse_iphdr_accepts_small_ihl ihl0_header_bytes (mk_cursor 0) 20)
    as (E & _ & _).
  - vm_compute. lia.
  - vm_compute. reflexivity.
  - rewrite E. vm_compute. reflexivity.
Defined.

(** the parser chain on Ethernet + one 802.1Q tag (VLAN 42) + IPv4 + TCP:
    the Ethernet parser skips the tag and answers IPv4, the IPv4 parser
    answers TCP and leaves the cursor at offset 14 + 4 + 20 *)
Example parse_chain_vlan_ipv4_tcp :
  parse_ethhdr (mem q_tagged_ctx) (mk_cursor 0) (data_end q_tagged_ctx)
  = (ETH_P_IP, mk_cursor 18)
  /\ parse_iphdr (mem q_tagged_ctx) (mk_cursor 18) (data_end q_tagged_ctx)
     = (IPPROTO_TCP, mk_cursor 38).
Proof. split; vm_compute; reflexivity. Qed.

Lemma tags_announced_last n : forall m p,
  tags_announced m p (S n) = true ->
  tags_announced m p n = true /\ proto_is_vlan (load16 m (p + 4 * n)) = true.
Proof.
  induction n as [|n IH]; intros m p H.
  - simpl in H. rewrite andb_true_r in H. split; [reflexivity|].
    replace (p + 4 * 0)%nat with p by lia. exact H.
  - change (tags_announced m p (S (S n)))
      with (proto_is_vlan (load16 m p) && tags_announced m (p + 4) (S n)) in H.
    apply andb_true_iff in H. destruct H as [H1 H2].
    apply IH in H2. destruct H2 as [H2 H3]. split.
    + simpl. rewrite H1, H2. reflexivity.
    + replace (p + 4 * S n)%nat with (p + 4 + 4 * n)%nat by lia. exact H3.
Qed.

Lemma proto_is_vlan_ntohs h :
  0 <= h < 65536 -> proto_is_vlan h = true ->
  bpf_ntohs h = ETH_P_8021Q \/ bpf_ntohs h = ETH_P_8021AD.
Proof.
  intros R H. unfold proto_is_vlan in H. apply orb_true_iff in H.
  destruct H as [H|H]; apply Z.eqb_eq in H; subst h; [left|right];
    vm_compute; reflexivity.
Qed.

(** C7: the cursor never moves past the Ethernet header plus
    [VLAN_MAX_DEPTH] = 5 tags; when the frame announces more than five
    tags and the first five fit, the cursor stops right after the fifth
    (offset 14 + 5 * 4) and the value returned is the fifth tag's
    encapsulated protocol, still a VLAN tag type. *)
Theorem vlan_unrolling_bounded : forall m nh de,
  (pos (snd (parse_ethhdr m nh de))
   <= pos nh + sizeof_ethhdr + VLAN_MAX_DEPTH * sizeof_vlan_hdr)%nat
  /\ ((pos nh + sizeof_ethhdr + 5 * sizeof_vlan_hdr <= de)%nat ->
      tags_announced m (pos nh + 12) 6 = true ->
      parse_ethhdr m nh de
      = (bpf_ntohs (vlan_encapsulated_proto m (pos nh + 14 + 4 * 4)),
         mk_cursor (pos nh + 14 + 5 * 4))
      /\ (fst (parse_ethhdr m nh de) = ETH_P_8021Q
          \/ fst (parse_ethhdr m nh de) = ETH_P_8021AD)).
Proof.
  intros m nh de. split.
  - destruct (Nat.lt_ge_cases (de - pos nh) sizeof_ethhdr) as [Hs|Hf].
    + rewrite parse_ethhdr_short by exact Hs. simpl. lia.
    + destruct (parse_ethhdr_fits m nh de Hf) as (k & Hk & Hp & _).
      rewrite Hp. unfold VLAN_MAX_DEPTH, sizeof_vlan_hdr in *. lia.
  - unfold sizeof_ethhdr, sizeof_vlan_hdr. intros Hde Ht.
    apply tags_announced_last in Ht. destruct Ht as [Ht Hlast].
    assert (parse_ethhdr m nh de
            = (bpf_ntohs (vlan_encapsulated_proto m (pos nh + 14 + 4 * 4)),
               mk_cursor (pos nh + 14 + 5 * 4))) as E.
    { unfold parse_ethhdr, sizeof_ethhdr, eth_h_proto.
      destruct (Nat.ltb_spec de (pos nh + 14)); [lia|].
      replace (pos nh + 14)%nat with (pos nh + 12 + 2)%nat by lia.
      unfold VLAN_MAX_DEPTH. rewrite vlan_loop_all by (try assumption; lia).
      unfold vlan_encapsulated_proto. f_equal; f_equal; f_equal; lia. }
    split; [exact E|]. rewrite E. cbn [fst].
    apply proto_is_vlan_ntohs; [apply load16_range|].
    unfold vlan_encapsulated_proto.
    replace (pos nh + 14 + 4 * 4 + 2)%nat with (pos nh + 12 + 4 * 5)%nat by lia.
    exact Hlast.
Qed.

Lemma vlan_unrolling_bounded_witness :
  parse_ethhdr six_tag_frame (mk_cursor 0) 40 = (ETH_P_8021Q, mk_cursor 34).
Proof.
  destruct (vlan_unrolling_bounded six_tag_frame (mk_cursor 0) 40) as (_ & H).
  destruct H as (E & _).
  - vm_compute. lia.
  - vm_compute. reflexivity.
  - rewrite E. vm_compute. reflexivity.
Defined.

(** ** Memory *)

Lemma length_upd l : forall n b, length (upd l n b) = length l.
Proof.
  induction l as [|h t IH]; intros [|n] b; simpl; try reflexivity.
  rewrite IH. reflexivity.
Qed.

Lemma nth_upd l : forall n b i,
  nth i (upd l n b) x00
  = if ((i =? n)%nat && (n <? length l)%nat)%bool then b else nth i l x00.
Proof.
  induction l as [|h t IH]; intros n b i.
  - simpl. rewrite andb_false_r. reflexivity.
  - destruct n as [|n]; destruct i as [|i]; simpl; try reflexivity.
    rewrite IH. reflexivity.
Qed.

Lemma nth_upd_same l n b :
  (n < length l)%nat -> nth n (upd l n b) x00 = b.
Proof.
  intros H. rewrite nth_upd, Nat.eqb_refl.
  destruct (Nat.ltb_spec n (length l)); [reflexivity | lia].
Qed.

Lemma nth_upd_other l n b i :
  i <> n -> nth i (upd l n b) x00 = nth i l x00.
Proof.
  intros H. rewrite nth_upd.
  destruct (Nat.eqb_spec i n); [contradiction | reflexivity].
Qed.

Lemma length_write_bytes bs : forall m off,
  length (write_bytes m off bs) = length m.
Proof.
  induction bs as [|b bs IH]; intros m off; simpl; [reflexivity|].
  rewrite IH, length_upd. reflexivity.
Qed.

Lemma nth_write_bytes_other bs : forall m off i,
  (i < off \/ off + length bs <= i)%nat ->
  nth i (write_bytes m off bs) x00 = nth i m x00.
Proof.
  induction bs as [|b bs IH]; intros m off i H; simpl in *; [reflexivity|].
  rewrite IH by lia. apply nth_upd_other. lia.
Qed.

Lemma nth_write_bytes_in bs : forall m off i,
  (off + length bs <= length m)%nat ->
  (off <= i < off + length bs)%nat ->
  nth i (write_bytes m off bs) x00 = nth (i - off) bs x00.
Proof.
  induction bs as [|b bs IH]; intros m off i Hlen Hi; simpl in *; [lia|].
  destruct (Nat.eq_dec i off) as [->|Hne].
  - rewrite nth_write_bytes_other by lia.
    rewrite nth_upd_same by lia. rewrite Nat.sub_diag. reflexivity.
  - rewrite IH by (rewrite ?length_upd; lia).
    replace (i - off)%nat with (S (i - S off)) by lia. reflexivity.
Qed.

Lemma length_read_bytes n : forall m off, length (read_bytes m off n) = n.
Proof.
  induction n as [|n IH]; intros m off; simpl; [reflexivity|].
  rewrite IH. reflexivity.
Qed.

Lemma nth_read_bytes n : forall m off i,
  (i < n)%nat -> nth i (read_bytes m off n) x00 = nth (off + i) m x00.
Proof.
  induction n as [|n IH]; intros m off i H; [lia|].
  destruct i as [|i]; simpl.
  - rewrite Nat.add_0_r. reflexivity.
  - rewrite IH by lia. f_equal. lia.
Qed.

Lemma read_bytes_ext n : forall m m' off,
  (forall i, (off <= i < off + n)%nat -> nth i m x00 = nth i m' x00) ->
  read_bytes m off n = read_bytes m' off n.
Proof.
  induction n as [|n IH]; intros m m' off H; simpl; [reflexivity|].
  rewrite (H off) by lia. f_equal. apply IH. intros i Hi. apply H. lia.
Qed.

Lemma read_bytes_nth n : forall m off bs,
  length bs = n ->
  (forall i, (i < n)%nat -> nth (off + i) m x00 = nth i bs x00) ->
  read_bytes m off n = bs.
Proof.
  induction n as [|n IH]; intros m off bs Hl H.
  - destruct bs; [reflexivity | discriminate].
  - destruct bs as [|b bs]; [discriminate|]. simpl. f_equal.
    + specialize (H 0%nat ltac:(lia)). rewrite Nat.add_0_r in H. exact H.
    + apply IH; [simpl in Hl; lia|]. intros i Hi.
      specialize (H (S i) ltac:(lia)).
      replace (S off + i)%nat with (off + S i)%nat by lia. exact H.
Qed.

Lemma read_write_bytes_same m off bs :
  (off + length bs <= length m)%nat ->
  read_bytes (write_bytes m off bs) off (length bs) = bs.
Proof.
  intros H. apply read_bytes_nth; [reflexivity|]. intros i Hi.
  rewrite nth_write_bytes_in by lia. f_equal. lia.
Qed.

Lemma read_write_bytes_exact m off bs n :
  length bs = n -> (off + n <= length m)%nat ->
  read_bytes (write_bytes m off bs) off n = bs.
Proof. intros <- H. apply read_write_bytes_same. exact H. Qed.

Lemma read_write_bytes_other m off bs p n :
  (p + n <= off \/ off + length bs <= p)%nat ->
  read_bytes (write_bytes m off bs) p n = read_bytes m p n.
Proof.
  intros H. apply read_bytes_ext. intros i Hi.
  apply nth_write_bytes_other. lia.
Qed.

Lemma length_store8 m p v : length (store8 m p v) = length m.
Proof. apply length_upd. Qed.

Lemma length_store16 m p v : length (store16 m p v) = length m.
Proof. unfold store16. rewrite !length_store8. reflexivity. Qed.

Lemma length_store32 m p v : length (store32 m p v) = length m.
Proof. unfold store32. rewrite !length_store16. reflexivity. Qed.

Lemma nth_store8_other m p v i :
  i <> p -> nth i (store8 m p v) x00 = nth i m x00.
Proof. apply nth_upd_other. Qed.

Lemma nth_store16_other m p v i :
  (i < p \/ p + 2 <= i)%nat -> nth i (store16 m p v) x00 = nth i m x00.
Proof.
  intros H. unfold store16. rewrite !nth_store8_other by lia. reflexivity.
Qed.

Lemma nth_store32_other m p v i :
  (i < p \/ p + 4 <= i)%nat -> nth i (store32 m p v) x00 = nth i m x00.
Proof.
  intros H. unfold store32. rewrite !nth_store16_other by lia. reflexivity.
Qed.

Lemma load8_store8_same m p v :
  (p < length m)%nat -> load8 (store8 m p v) p = v mod 256.
Proof.
  intros H. unfold load8, store8. rewrite nth_upd_same by exact H.
  apply byte_to_of_Z.
Qed.

Lemma load8_ext m m' p :
  nth p m x00 = nth p m' x00 -> load8 m p = load8 m' p.
Proof. unfold load8. intros ->. reflexivity. Qed.

Lemma load16_ext m m' p :
  nth p m x00 = nth p m' x00 -> nth (p + 1) m x00 = nth (p + 1) m' x00 ->
  load16 m p = load16 m' p.
Proof. unfold load16, load8. intros -> ->. reflexivity. Qed.

Lemma load16_store16_same m p v :
  (p + 2 <= length m)%nat -> load16 (store16 m p v) p = v mod 65536.
Proof.
  intros H. unfold load16, store16.
  rewrite load8_store8_same by (rewrite length_store8; lia).
  rewrite (load8_ext _ (store8 m p v)) by (apply nth_store8_other; lia).
  rewrite load8_store8_same by lia.
  pose proof (Z.div_mod v 256 ltac:(lia)).
  pose proof (Z.div_mod (v / 256) 256 ltac:(lia)).
  pose proof (Z.mod_pos_bound v 256 ltac:(lia)).
  pose proof (Z.mod_pos_bound (v / 256) 256 ltac:(lia)).
  apply Z.mod_unique with (v / 256 / 256); lia.
Qed.

(** ** The router *)

Import Solutions.

Lemma htons_ip_ne_ipv6 : (bpf_htons ETH_P_IPV6 =? bpf_htons ETH_P_IP) = false.
Proof. vm_compute. reflexivity. Qed.

Lemma router_ipv4 K ctx :
  ipv4_frame ctx ->
  xdp_router_func K ctx
  = if ip_ttl (mem ctx) (l3_offset ctx) <=? 1
    then (XDP_PASS, ctx, [EvStats XDP_PASS])
    else router_forward K ctx (bpf_htons ETH_P_IP) (l3_offset ctx)
                        (fib_params_ipv4 (mem ctx) (l3_offset ctx)).
Proof.
  intros [Hfit Hp]. unfold xdp_router_func, l3_offset, sizeof_ethhdr, sizeof_iphdr in *.
  destruct (Nat.ltb_spec (data_end ctx) (data ctx + 14)); [lia|].
  rewrite Hp, Z.eqb_refl.
  destruct (Nat.ltb_spec (data_end ctx) (data ctx + 14 + 20)); [lia|].
  reflexivity.
Qed.

Lemma router_ipv6 K ctx :
  ipv6_frame ctx ->
  xdp_router_func K ctx
  = if ip6_hop_limit (mem ctx) (l3_offset ctx) <=? 1
    then (XDP_PASS, ctx, [EvStats XDP_PASS])
    else router_forward K ctx (bpf_htons ETH_P_IPV6) (l3_offset ctx)
                        (fib_params_ipv6 (mem ctx) (l3_offset ctx)).
Proof.
  intros [Hfit Hp]. unfold xdp_router_func, l3_offset, sizeof_ethhdr, sizeof_ipv6hdr in *.
  destruct (Nat.ltb_spec (data_end ctx) (data ctx + 14)); [lia|].
  rewrite Hp, htons_ip_ne_ipv6, Z.eqb_refl.
  destruct (Nat.ltb_spec (data_end ctx) (data ctx + 14 + 40)); [lia|].
  reflexivity.
Qed.

(** outside the two forwarding cases the program ends with one
    collector call and nothing else *)
Lemma router_not_forwarding K ctx :
  ~ (ipv4_frame ctx /\ 1 < ip_ttl (mem ctx) (l3_offset ctx)) ->
  ~ (ipv6_frame ctx /\ 1 < ip6_hop_limit (mem ctx) (l3_offset ctx)) ->
  exists a, xdp_router_func K ctx = (a, ctx, [EvStats a]).
Proof.
  intros H4 H6.
  unfold xdp_router_func, ipv4_frame, ipv6_frame, l3_offset,
    sizeof_ethhdr, sizeof_iphdr, sizeof_ipv6hdr, xdp_stats_record_action in *.
  destruct (Nat.ltb_spec (data_end ctx) (data ctx + 14)); [eexists; reflexivity|].
  destruct (Z.eqb_spec (eth_h_proto (mem ctx) (data ctx)) (bpf_htons ETH_P_IP)).
  - destruct (Nat.ltb_spec (data_end ctx) (data ctx + 14 + 20)); [eexists; reflexivity|].
    destruct (Z.leb_spec (ip_ttl (mem ctx) (data ctx + 14)) 1); [eexists; reflexivity|].
    exfalso. apply H4. repeat split; (assumption || lia).
  - destruct (Z.eqb_spec (eth_h_proto (mem ctx) (data ctx)) (bpf_htons ETH_P_IPV6)).
    + destruct (Nat.ltb_spec (data_end ctx) (data ctx + 14 + 40)); [eexists; reflexivity|].
      destruct (Z.leb_spec (ip6_hop_limit (mem ctx) (data ctx + 14)) 1); [eexists; reflexivity|].
      exfalso. apply H6. repeat split; (assumption || lia).
    + eexists; reflexivity.
Qed.

Lemma forwarding_dec ctx :
  ((ipv4_frame ctx /\ 1 < ip_ttl (mem ctx) (l3_offset ctx))
   \/ (ipv6_frame ctx /\ 1 < ip6_hop_limit (mem ctx) (l3_offset ctx)))
  \/ (~ (ipv4_frame ctx /\ 1 < ip_ttl (mem ctx) (l3_offset ctx))
      /\ ~ (ipv6_frame ctx /\ 1 < ip6_hop_limit (mem ctx) (l3_offset ctx))).
Proof.
  unfold ipv4_frame, ipv6_frame.
  destruct (le_dec (data ctx + sizeof_ethhdr + sizeof_iphdr) (data_end ctx));
    destruct (Z.eq_dec (eth_h_proto (mem ctx) (data ctx)) (bpf_htons ETH_P_IP));
    destruct (Z_lt_dec 1 (ip_ttl (mem ctx) (l3_offset ctx)));
    destruct (le_dec (data ctx + sizeof_ethhdr + sizeof_ipv6hdr) (data_end ctx));
    destruct (Z.eq_dec (eth_h_proto (mem ctx) (data ctx)) (bpf_htons ETH_P_IPV6));
    destruct (Z_lt_dec 1 (ip6_hop_limit (mem ctx) (l3_offset ctx)));
    tauto.
Qed.

(** C6: an IPv4 packet with TTL at most 1, or an IPv6 packet with hop
    limit at most 1, that reaches the forwarding code gets [XDP_PASS],
    untouched, and the only external call is the collector's; the resolver
    is called only for an IPv4 packet with TTL above 1 or an IPv6 packet
    with hop limit above 1. *)
Theorem ttl_expired_passes_without_lookup : forall K ctx,
  (ipv4_frame ctx -> ip_ttl (mem ctx) (l3_offset ctx) <= 1 ->
   xdp_router_func K ctx = (XDP_PASS, ctx, [EvStats XDP_PASS]))
  /\ (ipv6_frame ctx -> ip6_hop_limit (mem ctx) (l3_offset ctx) <= 1 ->
      xdp_router_func K ctx = (XDP_PASS, ctx, [EvStats XDP_PASS]))
  /\ (fib_calls (effects (xdp_router_func K ctx)) <> [] ->
      (ipv4_frame ctx /\ 1 < ip_ttl (mem ctx) (l3_offset ctx))
      \/ (ipv6_frame ctx /\ 1 < ip6_hop_limit (mem ctx) (l3_offset ctx))).
Proof.
  intros K ctx. split; [|split].
  - intros Hf Httl. rewrite router_ipv4 by exact Hf.
    destruct (Z.leb_spec (ip_ttl (mem ctx) (l3_offset ctx)) 1); [reflexivity|lia].
  - intros Hf Httl. rewrite router_ipv6 by exact Hf.
    destruct (Z.leb_spec (ip6_hop_limit (mem ctx) (l3_offset ctx)) 1);
      [reflexivity|lia].
  - intros Hcalls.
    destruct (forwarding_dec ctx) as [H|[H4 H6]]; [exact H|].
    destruct (router_not_forwarding K ctx H4 H6) as (a & E).
    rewrite E in Hcalls. simpl in Hcalls. congruence.
Qed.

Lemma ttl_expired_passes_without_lookup_witness :
  xdp_router_func (sample_kernel 0) (ctx_of 0 (bytes_of (eth_ipv4_header 1)))
  = (XDP_PASS, ctx_of 0 (bytes_of (eth_ipv4_header 1)), [EvStats XDP_PASS])
  /\ xdp_router_func (sample_kernel 0) (ctx_of 0 (bytes_of (eth_ipv6_header 1)))
     = (XDP_PASS, ctx_of 0 (bytes_of (eth_ipv6_header 1)), [EvStats XDP_PASS]).
Proof.
  split.
  - apply (proj1 (ttl_expired_passes_without_lookup
                    (sample_kernel 0) (ctx_of 0 (bytes_of (eth_ipv4_header 1))))).
    + split; vm_compute; [lia | reflexivity].
    + vm_compute. discriminate.
  - apply (proj1 (proj2 (ttl_expired_passes_without_lookup
                    (sample_kernel 0) (ctx_of 0 (bytes_of (eth_ipv6_header 1)))))).
    + split; vm_compute; [lia | reflexivity].
    + vm_compute. discriminate.
Defined.

Lemma router_forward_outcome K ctx h l3 fp o fp' :
  fib_resolve K (set_ifindex fp (ingress_ifindex ctx)) = (outcome_code o, fp') ->
  router_forward K ctx h l3 fp
  = match o with
    | Success =>
        (XDP_REDIRECT,
         set_mem ctx
           (write_bytes
              (write_bytes
                 (if h =? bpf_htons ETH_P_IP
                  then snd (ip_decrease_ttl (mem ctx) l3)
                  else if h =? bpf_htons ETH_P_IPV6
                       then store8 (mem ctx) (l3 + 7)
                                   (ip6_hop_limit (mem ctx) l3 - 1)
                       else mem ctx)
                 (data ctx) (firstn ETH_ALEN (dmac fp')))
              (data ctx + 6) (firstn ETH_ALEN (smac fp'))),
         [EvFib (set_ifindex fp (ingress_ifindex ctx));
          EvRedirect (ifindex fp'); EvStats XDP_REDIRECT])
    | _ =>
        (outcome_verdict o, ctx,
         [EvFib (set_ifindex fp (ingress_ifindex ctx));
          EvStats (outcome_verdict o)])
    end.
Proof.
  intros H. unfold router_forward, bpf_fib_lookup_call. cbv zeta.
  rewrite H. destruct o; reflexivity.
Qed.

Lemma ip_decrease_ttl_ttl m iph :
  (iph + sizeof_iphdr <= length m)%nat ->
  1 < ip_ttl m iph ->
  ip_ttl (snd (ip_decrease_ttl m iph)) iph = ip_ttl m iph - 1.
Proof.
  unfold sizeof_iphdr. intros Hlen Httl.
  unfold ip_decrease_ttl. cbv zeta. cbn [snd]. unfold ip_ttl in *.
  rewrite load8_store8_same by (rewrite length_store16; lia).
  rewrite (load8_ext _ m) by (apply nth_store16_other; lia).
  pose proof (load8_range m (iph + 8)).
  unfold to_u8. rewrite Z.mod_mod by lia. apply Z.mod_small. lia.
Qed.

Lemma firstn_exact (l : list byte) n : length l = n -> firstn n l = l.
Proof. intros <-. apply firstn_all. Qed.

(** C2: the router's [switch] maps each of the nine outcomes to the
    verdict the specification gives, and the verdict is what the
    collector receives.  On [Success] the packet leaves with the
    destination and source MAC taken from the resolver's answer and the
    TTL (IPv4) or hop limit (IPv6) one lower, redirected to the answer's
    egress interface; on every other outcome the packet is untouched and
    no redirect is requested. *)
Theorem fib_outcome_to_verdict : forall K ctx o fp',
  wf_ctx ctx ->
  (ipv4_frame ctx /\ 1 < ip_ttl (mem ctx) (l3_offset ctx))
  \/ (ipv6_frame ctx /\ 1 < ip6_hop_limit (mem ctx) (l3_offset ctx)) ->
  fib_resolve K (lookup_key ctx) = (outcome_code o, fp') ->
  length (dmac fp') = ETH_ALEN -> length (smac fp') = ETH_ALEN ->
  let r := xdp_router_func K ctx in
  verdict r = outcome_verdict o
  /\ effects r
     = [EvFib (lookup_key ctx)] ++ outcome_redirect o (ifindex fp')
       ++ [EvStats (outcome_verdict o)]
  /\ match o with
     | Success =>
         read_bytes (mem (final_ctx r)) (data ctx) ETH_ALEN = dmac fp'
         /\ read_bytes (mem (final_ctx r)) (data ctx + 6) ETH_ALEN = smac fp'
         /\ (ipv4_frame ctx ->
             ip_ttl (mem (final_ctx r)) (l3_offset ctx)
             = ip_ttl (mem ctx) (l3_offset ctx) - 1)
         /\ (ipv6_frame ctx ->
             ip6_hop_limit (mem (final_ctx r)) (l3_offset ctx)
             = ip6_hop_limit (mem ctx) (l3_offset ctx) - 1)
     | _ => final_ctx r = ctx
     end.
Proof.
  intros K ctx o fp' [Hwf1 Hwf2] Hfwd Hres Hd Hs r. subst r.
  unfold ETH_ALEN in *.
  assert (ipv4_frame ctx -> ipv6_frame ctx -> False) as Hexcl.
  { intros [_ H4] [_ H6]. rewrite H4 in H6. vm_compute in H6. discriminate. }
  destruct Hfwd as [[H4 Httl]|[H6 Hhop]].
  - (* IPv4 *)
    pose proof H4 as [Hfit Hp].
    unfold lookup_key in Hres. rewrite Hp, Z.eqb_refl in Hres.
    rewrite router_ipv4 by exact H4.
    destruct (Z.leb_spec (ip_ttl (mem ctx) (l3_offset ctx)) 1); [lia|].
    rewrite (router_forward_outcome _ _ _ _ _ _ _ Hres).
    unfold lookup_key. rewrite Hp, Z.eqb_refl.
    destruct o; cbn [verdict final_ctx effects fst snd outcome_verdict
                     outcome_redirect app];
      (split; [reflexivity|]); (split; [reflexivity|]); try reflexivity.
    unfold l3_offset, sizeof_ethhdr, sizeof_iphdr, ETH_ALEN in *.
    cbn [mem set_mem].
    rewrite !firstn_exact by assumption.
    assert (length (snd (ip_decrease_ttl (mem ctx) (data ctx + 14))) = length (mem ctx))
      as Hlen.
    { unfold ip_decrease_ttl. cbn [snd].
      rewrite length_store8, length_store16. reflexivity. }
    repeat split.
    + rewrite read_write_bytes_other by lia.
      apply read_write_bytes_exact; [assumption | lia].
    + apply read_write_bytes_exact; [assumption|].
      rewrite length_write_bytes. lia.
    + intros _. unfold ip_ttl at 1.
      rewrite (load8_ext _ (snd (ip_decrease_ttl (mem ctx) (data ctx + 14)))).
      * apply ip_decrease_ttl_ttl; [unfold sizeof_iphdr; lia | exact Httl].
      * rewrite !nth_write_bytes_other by lia. reflexivity.
    + intros H6. exfalso. exact (Hexcl H4 H6).
  - (* IPv6 *)
    pose proof H6 as [Hfit Hp].
    unfold lookup_key in Hres. rewrite Hp, htons_ip_ne_ipv6 in Hres.
    rewrite router_ipv6 by exact H6.
    destruct (Z.leb_spec (ip6_hop_limit (mem ctx) (l3_offset ctx)) 1); [lia|].
    rewrite (router_forward_outcome _ _ _ _ _ _ _ Hres).
    unfold lookup_key. rewrite Hp, htons_ip_ne_ipv6.
    destruct o; cbn [verdict final_ctx effects fst snd outcome_verdict
                     outcome_redirect app];
      (split; [reflexivity|]); (split; [reflexivity|]); try reflexivity.
    unfold l3_offset, sizeof_ethhdr, sizeof_ipv6hdr, ETH_ALEN in *.
    rewrite ?htons_ip_ne_ipv6, ?Z.eqb_refl. cbn [mem set_mem].
    rewrite !firstn_exact by assumption.
    repeat split.
    + rewrite read_write_bytes_other by lia.
      apply read_write_bytes_exact; [assumption|].
      rewrite length_store8. lia.
    + apply read_write_bytes_exact; [assumption|].
      rewrite length_write_bytes, length_store8. lia.
    + intros H4. exfalso. exact (Hexcl H4 H6).
    + intros _. unfold ip6_hop_limit in *.
      rewrite (load8_ext _ (store8 (mem ctx) (data ctx + 14 + 7)
                                  (load8 (mem ctx) (data ctx + 14 + 7) - 1)))
        by (rewrite !nth_write_bytes_other by lia; reflexivity).
      rewrite load8_store8_same by lia.
      pose proof (load8_range (mem ctx) (data ctx + 14 + 7)).
      apply Z.mod_small. lia.
Qed.

Lemma fib_outcome_to_verdict_witness :
  verdict (xdp_router_func (sample_kernel 1)
                           (ctx_of 0 (bytes_of (eth_ipv4_header 64))))
  = XDP_DROP
  /\ verdict (xdp_router_func (sample_kernel 0)
                              (ctx_of 0 (bytes_of (eth_ipv4_header 64))))
     = XDP_REDIRECT.
Proof.
  assert (wf_ctx (ctx_of 0 (bytes_of (eth_ipv4_header 64)))) as Hwf
      by (split; vm_compute; lia).
  assert (ipv4_frame (ctx_of 0 (bytes_of (eth_ipv4_header 64)))
          /\ 1 < ip_ttl (mem (ctx_of 0 (bytes_of (eth_ipv4_header 64))))
                        (l3_offset (ctx_of 0 (bytes_of (eth_ipv4_header 64)))))
    as Hfwd
      by (split; [split|]; vm_compute; [lia | reflexivity | reflexivity]).
  split.
  - apply (fib_outcome_to_verdict
             (sample_kernel 1) (ctx_of 0 (bytes_of (eth_ipv4_header 64)))
             Blackhole
             (snd (fib_resolve (sample_kernel 1)
                     (lookup_key (ctx_of 0 (bytes_of (eth_ipv4_header 64))))))
             Hwf (or_introl Hfwd) eq_refl eq_refl eq_refl).
  - apply (fib_outcome_to_verdict
             (sample_kernel 0) (ctx_of 0 (bytes_of (eth_ipv4_header 64)))
             Success
             (snd (fib_resolve (sample_kernel 0)
                     (lookup_key (ctx_of 0 (bytes_of (eth_ipv4_header 64))))))
             Hwf (or_introl Hfwd) eq_refl eq_refl eq_refl).
Defined.

(** ** Truncated headers and the collector, program by program *)

Lemma set_mem_same ctx : set_mem ctx (mem ctx) = ctx.
Proof. destruct ctx. reflexivity. Qed.

Lemma records_once_out ctx tr a :
  stats_calls tr = [] -> records_once (xdp_stats_record_action ctx tr a).
Proof. intros H. exists tr. split; [reflexivity | exact H]. Qed.

Ltac split_branches :=
  repeat match goal with
         | |- context [match ?e with (_, _) => _ end] =>
             lazymatch e with
             | (_, _) => fail
             | _ => destruct e
             end
         | |- context [match ?e with Some _ => _ | None => _ end] => destruct e
         | |- context [if ?c then _ else _] => destruct c
         end.

Ltac record_leaf := apply records_once_out; reflexivity.

Lemma parser01_records_once ctx : records_once (Parsing01.xdp_parser_func ctx).
Proof.
  unfold Parsing01.xdp_parser_func. cbv zeta. split_branches; record_leaf.
Qed.

Lemma parser_records_once ctx : records_once (Rewriting.xdp_parser_func ctx).
Proof.
  unfold Rewriting.xdp_parser_func. cbv zeta. split_branches; record_leaf.
Qed.

Lemma icmp_echo_records_once ctx : records_once (xdp_icmp_echo_func ctx).
Proof.
  unfold xdp_icmp_echo_func. cbv zeta. split_branches; record_leaf.
Qed.

Lemma redirect_records_once dst ifidx ctx :
  records_once (xdp_redirect_func dst ifidx ctx).
Proof.
  unfold xdp_redirect_func, bpf_redirect. cbv zeta. split_branches; record_leaf.
Qed.

Lemma redirect_map_records_once K ctx :
  records_once (xdp_redirect_map_func K ctx).
Proof.
  unfold xdp_redirect_map_func, bpf_redirect_map. cbv zeta.
  split_branches; record_leaf.
Qed.

Lemma router_records_once K ctx : records_once (xdp_router_func K ctx).
Proof.
  unfold xdp_router_func, router_forward, bpf_fib_lookup_call, bpf_redirect_map.
  cbv zeta. split_branches; record_leaf.
Qed.

Lemma port_rewrite_silent ctx :
  passes_silently (Rewriting.xdp_port_rewrite_func ctx).
Proof.
  unfold Rewriting.xdp_port_rewrite_func. cbv zeta.
  split_branches; split; reflexivity.
Qed.

Lemma vlan_swap_rewriting_silent K ctx :
  passes_silently (Rewriting.xdp_vlan_swap_func K ctx).
Proof.
  unfold Rewriting.xdp_vlan_swap_func. cbv zeta.
  split_branches; split; reflexivity.
Qed.

Lemma vlan_swap_solutions_silent K ctx :
  passes_silently (Solutions.xdp_vlan_swap_func K ctx).
Proof.
  unfold Solutions.xdp_vlan_swap_func. cbv zeta.
  split_branches; split; reflexivity.
Qed.

(** C3 (as the code has it): the parser, ICMP echo, redirect and router
    programs call the collector exactly once, as their last external call
    and with the verdict they return; [xdp_port_rewrite_func],
    [xdp_vlan_swap_func] (both lessons) and [xdp_pass_func] return
    [XDP_PASS] without calling the collector at all. *)
Theorem collector_once_or_never : forall K dst ifidx ctx,
  records_once (Parsing01.xdp_parser_func ctx)
  /\ records_once (Rewriting.xdp_parser_func ctx)
  /\ records_once (xdp_icmp_echo_func ctx)
  /\ records_once (xdp_redirect_func dst ifidx ctx)
  /\ records_once (xdp_redirect_map_func K ctx)
  /\ records_once (xdp_router_func K ctx)
  /\ passes_silently (Rewriting.xdp_port_rewrite_func ctx)
  /\ passes_silently (Rewriting.xdp_vlan_swap_func K ctx)
  /\ passes_silently (Solutions.xdp_vlan_swap_func K ctx)
  /\ passes_silently (xdp_pass_func ctx).
Proof.
  intros K dst ifidx ctx.
  repeat split;
    first [ apply parser01_records_once | apply parser_records_once
          | apply icmp_echo_records_once | apply redirect_records_once
          | apply redirect_map_records_once | apply router_records_once
          | apply port_rewrite_silent | apply vlan_swap_rewriting_silent
          | apply vlan_swap_solutions_silent ].
Qed.

(** C3, as stated, fails: the VLAN swapper and the port rewriter return a
    verdict for this IPv4 frame without any collector call. *)
Lemma vlan_swap_never_records :
  ~ records_once (Rewriting.xdp_vlan_swap_func
                    (sample_kernel 0)
                    (ctx_of 4 (bytes_of (eth_ipv4_header 64))))
  /\ ~ records_once (Rewriting.xdp_port_rewrite_func
                       (ctx_of 4 (bytes_of (eth_ipv4_header 64))))
  /\ stats_calls (effects (Rewriting.xdp_vlan_swap_func
                             (sample_kernel 0)
                             (ctx_of 4 (bytes_of (eth_ipv4_header 64))))) = [].
Proof.
  split; [|split].
  - intros (pre & H & _).
    destruct (vlan_swap_rewriting_silent
                (sample_kernel 0)
                (ctx_of 4 (bytes_of (eth_ipv4_header 64)))) as [_ E].
    rewrite E in H. destruct pre; discriminate.
  - intros (pre & H & _).
    destruct (port_rewrite_silent
                (ctx_of 4 (bytes_of (eth_ipv4_header 64)))) as [_ E].
    rewrite E in H. destruct pre; discriminate.
  - vm_compute. reflexivity.
Qed.








(** ** The checksum patch *)

Lemma to_u16_small x : is_u16 x -> to_u16 x = x.
Proof. unfold to_u16, is_u16. intros H. apply Z.mod_small. exact H. Qed.

Lemma to_u16_lnot x : is_u16 x -> to_u16 (Z.lnot x) = 65535 - x.
Proof.
  unfold to_u16, is_u16, Z.lnot. intros H.
  symmetry. apply Z.mod_unique with (-1); lia.
Qed.

Lemma add_end_around_cases a b :
  is_u16 a -> is_u16 b ->
  add_end_around a b = if a + b <? 65536 then a + b else a + b - 65535.
Proof.
  unfold is_u16, add_end_around. intros Ha Hb. cbv zeta.
  destruct (Z.ltb_spec (a + b) 65536).
  - rewrite Z.mod_small, Z.div_small by lia. lia.
  - replace ((a + b) mod 65536) with (a + b - 65536)
      by (apply Z.mod_unique with 1; lia).
    replace ((a + b) / 65536) with 1 by (apply Z.div_unique with (a + b - 65536); lia).
    lia.
Qed.

Lemma csum16_add_end_around a b :
  is_u16 a -> is_u16 b -> csum16_add a b = add_end_around a b.
Proof.
  intros Ha Hb. rewrite add_end_around_cases by assumption.
  unfold csum16_add, is_u16 in *. cbv zeta.
  rewrite (to_u16_small a), (to_u16_small b) by assumption.
  unfold to_u16.
  destruct (Z.ltb_spec (a + b) 65536).
  - rewrite (Z.mod_small (a + b)) by lia.
    destruct (Z.ltb_spec (a + b) b); [lia|].
    rewrite Z.add_0_r. apply Z.mod_small. lia.
  - replace ((a + b) mod 65536) with (a + b - 65536)
      by (apply Z.mod_unique with 1; lia).
    destruct (Z.ltb_spec (a + b - 65536) b); [|lia].
    rewrite Z.mod_small by lia. lia.
Qed.

Lemma csum16_add_args a b : csum16_add a b = csum16_add (to_u16 a) (to_u16 b).
Proof.
  unfold csum16_add, to_u16. cbv zeta. rewrite !Z.mod_mod by lia. reflexivity.
Qed.

Lemma ones_norm_range t : 0 <= t -> is_u16 (ones_norm t).
Proof.
  unfold ones_norm, is_u16. intros H.
  destruct (Z.eqb_spec t 0); [lia|].
  pose proof (Z.mod_pos_bound (t - 1) 65535 ltac:(lia)). lia.
Qed.

Lemma ones_norm_add t w :
  0 <= t -> is_u16 w -> add_end_around (ones_norm t) w = ones_norm (t + w).
Proof.
  intros Ht Hw. pose proof (ones_norm_range t Ht) as Hn.
  rewrite add_end_around_cases by assumption.
  unfold ones_norm, is_u16 in *.
  destruct (Z.eqb_spec t 0) as [->|Ht0].
  - rewrite !Z.add_0_l.
    destruct (Z.ltb_spec w 65536); [|lia].
    destruct (Z.eqb_spec w 0); [lia|].
    rewrite Z.mod_small by lia. lia.
  - destruct (Z.eqb_spec (t + w) 0); [lia|].
    pose proof (Z.div_mod (t - 1) 65535 ltac:(lia)) as E.
    pose proof (Z.mod_pos_bound (t - 1) 65535 ltac:(lia)) as R.
    set (r := (t - 1) mod 65535) in *. set (q := (t - 1) / 65535) in *.
    destruct (Z.ltb_spec (r + 1 + w) 65536).
    + assert ((t + w - 1) mod 65535 = r + w) as ->
          by (symmetry; apply Z.mod_unique with q; lia).
      lia.
    + assert ((t + w - 1) mod 65535 = r + w - 65535) as ->
          by (symmetry; apply Z.mod_unique with (q + 1); lia).
      lia.
Qed.

Lemma sum_words_nonneg ws : Forall is_u16 ws -> 0 <= sum_words ws.
Proof.
  induction 1 as [|w ws Hw _ IH]; simpl; [lia|]. unfold is_u16 in Hw. lia.
Qed.

Lemma fold_add_end_around ws : forall t,
  0 <= t -> Forall is_u16 ws ->
  fold_left add_end_around ws (ones_norm t) = ones_norm (t + sum_words ws).
Proof.
  induction ws as [|w ws IH]; intros t Ht Hws; simpl.
  - rewrite Z.add_0_r. reflexivity.
  - inversion Hws as [|? ? Hw Hws']; subst.
    rewrite ones_norm_add by assumption.
    rewrite IH by (try assumption; unfold is_u16 in Hw; lia).
    f_equal. lia.
Qed.

Lemma ones_sum_norm ws :
  Forall is_u16 ws -> ones_sum ws = ones_norm (sum_words ws).
Proof.
  intros H. unfold ones_sum.
  change 0 with (ones_norm 0) at 1.
  rewrite fold_add_end_around by (try assumption; lia). reflexivity.
Qed.

Lemma sum_words_app a b : sum_words (a ++ b) = sum_words a + sum_words b.
Proof. induction a as [|x a IH]; simpl; [reflexivity|]. rewrite IH. lia. Qed.

(** The patch agrees with the checksum computed from scratch whenever the
    patched message is not all zero. *)
Lemma csum_patch_matches_full pre post old new :
  Forall is_u16 pre -> Forall is_u16 post -> is_u16 old -> is_u16 new ->
  0 < sum_words (pre ++ new :: post) ->
  csum_patch (csum_full (pre ++ old :: post)) old new
  = csum_full (pre ++ new :: post).
Proof.
  intros Hpre Hpost Hold Hnew Hnz.
  pose proof (sum_words_nonneg pre Hpre) as Npre.
  pose proof (sum_words_nonneg post Hpost) as Npost.
  assert (Forall is_u16 (pre ++ old :: post)) as Fo
      by (apply Forall_app; split; [|constructor]; assumption).
  assert (Forall is_u16 (pre ++ new :: post)) as Fn
      by (apply Forall_app; split; [|constructor]; assumption).
  unfold csum_full. rewrite !ones_sum_norm by assumption.
  set (R := sum_words pre + sum_words post).
  assert (0 <= R) as HR by (subst R; lia).
  assert (sum_words (pre ++ old :: post) = R + old) as So
      by (rewrite sum_words_app; simpl; subst R; lia).
  assert (sum_words (pre ++ new :: post) = R + new) as Sn
      by (rewrite sum_words_app; simpl; subst R; lia).
  rewrite So, Sn in *.
  pose proof (ones_norm_range (R + old) ltac:(unfold is_u16 in *; lia)) as Ho.
  unfold csum_patch.
  rewrite (csum16_add_args (Z.lnot _) (Z.lnot old)).
  rewrite (to_u16_lnot (65535 - ones_norm (R + old)))
    by (unfold is_u16 in *; lia).
  rewrite (to_u16_lnot old) by assumption.
  replace (65535 - (65535 - ones_norm (R + old))) with (ones_norm (R + old)) by lia.
  assert (is_u16 (65535 - old)) as Hc by (unfold is_u16 in *; lia).
  rewrite (csum16_add_end_around (ones_norm (R + old)) (65535 - old))
    by assumption.
  rewrite ones_norm_add by (try assumption; unfold is_u16 in *; lia).
  pose proof (ones_norm_range (R + old + (65535 - old))
                              ltac:(unfold is_u16 in *; lia)) as H1.
  rewrite csum16_add_end_around by assumption.
  rewrite ones_norm_add by (try assumption; unfold is_u16 in *; lia).
  pose proof (ones_norm_range (R + old + (65535 - old) + new)
                              ltac:(unfold is_u16 in *; lia)) as H2.
  rewrite to_u16_lnot by assumption.
  f_equal. unfold ones_norm, is_u16 in *.
  destruct (Z.eqb_spec (R + old + (65535 - old) + new) 0); [lia|].
  destruct (Z.eqb_spec (R + new) 0); [lia|].
  f_equal.
  replace (R + old + (65535 - old) + new - 1) with (R + new - 1 + 1 * 65535) by lia.
  apply Z.mod_add. lia.
Qed.

(** the echo request with sequence 7 is answered with the checksum a full
    recomputation gives *)
Example icmp_echo_seq7_checksum :
  verdict (xdp_icmp_echo_func echo_seq7_ctx) = XDP_TX
  /\ icmp_checksum (mem (final_ctx (xdp_icmp_echo_func echo_seq7_ctx))) 34
     = csum_full (icmp_echo_words
                    (mem (final_ctx (xdp_icmp_echo_func echo_seq7_ctx))) 34).
Proof. split; vm_compute; reflexivity. Qed.

(** C5, on the code: for the echo request with identifier 0, sequence 0
    and no payload, whose checksum is correct on arrival, the reply is all
    zero; the patch stores checksum 0x0000 where the checksum computed
    from scratch over the reply is 0xFFFF. *)
Theorem icmp_echo_all_zero_reply_checksum :
  icmp_checksum (mem echo_zero_ctx) 34
  = csum_full (icmp_echo_words (mem echo_zero_ctx) 34)
  /\ verdict (xdp_icmp_echo_func echo_zero_ctx) = XDP_TX
  /\ icmp_echo_words (mem (final_ctx (xdp_icmp_echo_func echo_zero_ctx))) 34
     = [0; 0; 0]
  /\ icmp_checksum (mem (final_ctx (xdp_icmp_echo_func echo_zero_ctx))) 34 = 0
  /\ csum_full (icmp_echo_words
                  (mem (final_ctx (xdp_icmp_echo_func echo_zero_ctx))) 34)
     = 65535
  /\ csum_patch (csum_full [8; 0; 0]) 8 0 <> csum_full [0; 0; 0].
Proof.
  repeat split; try (vm_compute; reflexivity).
  vm_compute. discriminate.
Qed.

(** ** VLAN push and pop *)

Lemma byte_of_Z_mod a b : a mod 256 = b mod 256 -> byte_of_Z a = byte_of_Z b.
Proof. unfold byte_of_Z. intros ->. reflexivity. Qed.

Lemma byte_of_Z_load16_lo m q : byte_of_Z (load16 m q) = nth q m x00.
Proof.
  rewrite <- (byte_of_to_Z (nth q m x00)). apply byte_of_Z_mod.
  unfold load16, load8.
  rewrite (Z.mul_comm 256), Z.mod_add by lia. reflexivity.
Qed.

Lemma byte_of_Z_load16_hi m q :
  byte_of_Z (load16 m q / 256) = nth (q + 1) m x00.
Proof.
  rewrite <- (byte_of_to_Z (nth (q + 1) m x00)). f_equal.
  unfold load16. pose proof (load8_range m q).
  symmetry. apply Z.div_unique with (load8 m q); [lia|]. unfold load8. lia.
Qed.

Lemma byte_of_Z_htons_lo v : byte_of_Z (bpf_htons v) = byte_of_Z (v / 256).
Proof.
  apply byte_of_Z_mod. unfold bpf_htons, bswap16, to_u16.
  rewrite (Z.add_comm (_ * 256)), Z.mod_add by lia. rewrite Z.mod_mod by lia.
  pose proof (Z.div_mod v 65536 ltac:(lia)) as E.
  pose proof (Z.mod_pos_bound v 65536 ltac:(lia)) as R.
  pose proof (Z.div_mod (v mod 65536) 256 ltac:(lia)) as E1.
  pose proof (Z.mod_pos_bound (v mod 65536) 256 ltac:(lia)) as R1.
  pose proof (Z.div_mod (v mod 65536 / 256) 256 ltac:(lia)) as E2.
  pose proof (Z.mod_pos_bound (v mod 65536 / 256) 256 ltac:(lia)) as R2.
  assert (0 <= v mod 65536 / 256 < 256) as R3
      by (split; [apply Z.div_pos; lia | apply Z.div_lt_upper_bound; lia]).
  rewrite (Z.mod_small (v mod 65536 / 256)) by lia.
  assert (v / 256 = 256 * (v / 65536) + v mod 65536 / 256) as ->.
  { symmetry. apply Z.div_unique with ((v mod 65536) mod 256); lia. }
  rewrite (Z.add_comm (256 * _)), (Z.mul_comm 256), Z.mod_add by lia.
  rewrite (Z.mod_small (v mod 65536 / 256)) by lia. reflexivity.
Qed.

Lemma byte_of_Z_htons_hi v : byte_of_Z (bpf_htons v / 256) = byte_of_Z v.
Proof.
  apply byte_of_Z_mod. unfold bpf_htons, bswap16, to_u16.
  pose proof (Z.mod_pos_bound (v mod 65536 / 256) 256 ltac:(lia)) as R2.
  replace (((v mod 65536) mod 256 * 256 + (v mod 65536 / 256) mod 256) / 256)
    with ((v mod 65536) mod 256)
    by (apply Z.div_unique with ((v mod 65536 / 256) mod 256); lia).
  rewrite Z.mod_mod by lia.
  pose proof (Z.div_mod v 65536 ltac:(lia)) as E.
  pose proof (Z.div_mod (v mod 65536) 256 ltac:(lia)) as E1.
  pose proof (Z.mod_pos_bound (v mod 65536) 256 ltac:(lia)) as R1.
  apply Z.mod_unique with (256 * (v / 65536) + v mod 65536 / 256); lia.
Qed.

Lemma nth_store16_lo m p v i :
  i = p -> (p < length m)%nat -> nth i (store16 m p v) x00 = byte_of_Z v.
Proof.
  intros -> H. unfold store16. rewrite nth_store8_other by lia.
  unfold store8. apply nth_upd_same. exact H.
Qed.

Lemma nth_store16_hi m p v i :
  i = (p + 1)%nat -> (p + 1 < length m)%nat ->
  nth i (store16 m p v) x00 = byte_of_Z (v / 256).
Proof.
  intros -> H. unfold store16, store8. apply nth_upd_same.
  rewrite length_upd. exact H.
Qed.

Lemma length_packet ctx :
  wf_ctx ctx -> length (packet ctx) = (data_end ctx - data ctx)%nat.
Proof.
  intros [H1 H2]. unfold packet. rewrite length_firstn, length_skipn. lia.
Qed.

Lemma nth_packet ctx i :
  (i < data_end ctx - data ctx)%nat ->
  nth i (packet ctx) x00 = nth (data ctx + i) (mem ctx) x00.
Proof.
  intros H. unfold packet. rewrite nth_firstn.
  destruct (Nat.ltb_spec i (data_end ctx - data ctx)); [|lia].
  apply nth_skipn.
Qed.

(** a failed adjustment has no effect; a successful one moves the head
    by exactly [delta], inside the buffer *)
Lemma adjust_head_cases K ctx delta :
  bpf_xdp_adjust_head K ctx delta = (- EINVAL, ctx)
  \/ (0 <= Z.of_nat (data ctx) + delta <= Z.of_nat (data_end ctx)
      /\ bpf_xdp_adjust_head K ctx delta
         = (0, set_data ctx (Z.to_nat (Z.of_nat (data ctx) + delta)))).
Proof.
  unfold bpf_xdp_adjust_head. cbv zeta.
  destruct (Z.ltb_spec (Z.of_nat (data ctx) + delta) 0); [left; reflexivity|].
  destruct (Z.ltb_spec (Z.of_nat (data_end ctx)) (Z.of_nat (data ctx) + delta));
    [left; reflexivity|].
  destruct (head_adjustable K ctx delta); [right|left; reflexivity].
  split; [lia | reflexivity].
Qed.

Lemma adjust_head_grow K ctx d' :
  head_adjustable K ctx (0 - Z.of_nat sizeof_vlan_hdr) = true ->
  data ctx = (d' + 4)%nat -> (d' <= data_end ctx)%nat ->
  bpf_xdp_adjust_head K ctx (0 - Z.of_nat sizeof_vlan_hdr) = (0, set_data ctx d').
Proof.
  intros Hok Hd He. unfold bpf_xdp_adjust_head. cbv zeta. rewrite Hok.
  unfold sizeof_vlan_hdr in *.
  destruct (Z.ltb_spec (Z.of_nat (data ctx) + (0 - Z.of_nat 4)) 0); [lia|].
  destruct (Z.ltb_spec (Z.of_nat (data_end ctx))
                       (Z.of_nat (data ctx) + (0 - Z.of_nat 4))); [lia|].
  cbn [orb negb]. do 2 f_equal. lia.
Qed.

Lemma adjust_head_shrink K ctx :
  head_adjustable K ctx (Z.of_nat sizeof_vlan_hdr) = true ->
  (data ctx + 4 <= data_end ctx)%nat ->
  bpf_xdp_adjust_head K ctx (Z.of_nat sizeof_vlan_hdr)
  = (0, set_data ctx (data ctx + 4)).
Proof.
  intros Hok He. unfold bpf_xdp_adjust_head. cbv zeta. rewrite Hok.
  unfold sizeof_vlan_hdr in *.
  destruct (Z.ltb_spec (Z.of_nat (data ctx) + Z.of_nat 4) 0); [lia|].
  destruct (Z.ltb_spec (Z.of_nat (data_end ctx))
                       (Z.of_nat (data ctx) + Z.of_nat 4)); [lia|].
  cbn [orb negb]. do 2 f_equal. lia.
Qed.

Ltac mem_step :=
  first
    [ rewrite nth_store16_other by lia
    | rewrite nth_store8_other by lia
    | rewrite nth_write_bytes_other by (rewrite ?length_read_bytes; lia)
    | rewrite nth_write_bytes_in
        by (rewrite ?length_store16, ?length_store8, ?length_write_bytes,
             ?length_read_bytes; lia)
    | rewrite nth_read_bytes by lia
    | rewrite nth_store16_lo
        by (rewrite ?length_store16, ?length_store8, ?length_write_bytes,
             ?length_read_bytes; lia)
    | rewrite nth_store16_hi
        by (rewrite ?length_store16, ?length_store8, ?length_write_bytes,
             ?length_read_bytes; lia)
    | rewrite byte_of_Z_load16_lo
    | rewrite byte_of_Z_load16_hi
    | rewrite byte_of_Z_htons_lo
    | rewrite byte_of_Z_htons_hi ].

Ltac mem_norm := repeat mem_step.

Lemma nth_tagged (P tag : list byte) j :
  (12 <= length P)%nat -> length tag = 4%nat ->
  nth j (firstn 12 P ++ tag ++ skipn 12 P) x00
  = if (j <? 12)%nat then nth j P x00
    else if (j <? 16)%nat then nth (j - 12) tag x00
         else nth (j - 4) P x00.
Proof.
  intros HP Ht.
  assert (length (firstn 12 P) = 12%nat) as L by (rewrite length_firstn; lia).
  destruct (Nat.ltb_spec j 12).
  - rewrite app_nth1 by lia. rewrite nth_firstn.
    destruct (Nat.ltb_spec j 12); [reflexivity | lia].
  - rewrite app_nth2 by lia. rewrite L.
    destruct (Nat.ltb_spec j 16).
    + rewrite app_nth1 by lia. reflexivity.
    + rewrite app_nth2 by lia. rewrite nth_skipn. f_equal. lia.
Qed.

Lemma nth_untagged (P : list byte) j :
  (12 <= length P)%nat ->
  nth j (firstn 12 P ++ skipn 16 P) x00
  = if (j <? 12)%nat then nth j P x00 else nth (j + 4) P x00.
Proof.
  intros HP.
  assert (length (firstn 12 P) = 12%nat) as L by (rewrite length_firstn; lia).
  destruct (Nat.ltb_spec j 12).
  - rewrite app_nth1 by lia. rewrite nth_firstn.
    destruct (Nat.ltb_spec j 12); [reflexivity | lia].
  - rewrite app_nth2 by lia. rewrite L, nth_skipn. f_equal. lia.
Qed.

Lemma eth_h_proto_packet ctx :
  (data ctx + 14 <= data_end ctx)%nat ->
  eth_h_proto (mem ctx) (data ctx)
  = byte_to_Z (nth 12 (packet ctx) x00)
    + 256 * byte_to_Z (nth 13 (packet ctx) x00).
Proof.
  intros H. rewrite !nth_packet by lia.
  unfold eth_h_proto, load16, load8. do 4 f_equal. lia.
Qed.

Lemma byte_to_Z_inj_of b z : byte_to_Z b = z -> b = byte_of_Z z.
Proof. intros <-. symmetry. apply byte_of_to_Z. Qed.

Lemma vlan_tag_push_spec K ctx vlid d' :
  head_adjustable K ctx (0 - Z.of_nat sizeof_vlan_hdr) = true ->
  wf_ctx ctx -> data ctx = (d' + 4)%nat ->
  (data ctx + sizeof_ethhdr <= data_end ctx)%nat ->
  exists ctx',
    Solutions.vlan_tag_push K ctx (data ctx) vlid = (0, ctx')
    /\ data ctx' = d' /\ data_end ctx' = data_end ctx
    /\ length (mem ctx') = length (mem ctx)
    /\ packet ctx'
       = firstn 12 (packet ctx) ++ vlan_tag_bytes ETH_P_8021Q vlid
         ++ skipn 12 (packet ctx).
Proof.
  intros Hok Hwf Hd He. pose proof Hwf as [Hw1 Hw2].
  unfold sizeof_ethhdr in *.
  unfold Solutions.vlan_tag_push.
  rewrite (adjust_head_grow K ctx d') by (try assumption; lia).
  cbn [negb Z.eqb data data_end mem set_data set_mem].
  unfold sizeof_ethhdr, sizeof_vlan_hdr, eth_h_proto.
  destruct (Nat.ltb_spec (data_end ctx) (d' + 14)); [lia|].
  destruct (Nat.ltb_spec (data_end ctx) (d' + 14 + 4)); [lia|].
  eexists. split; [reflexivity|].
  cbn [data data_end mem set_data set_mem].
  split; [reflexivity|]. split; [reflexivity|].
  split; [rewrite !length_store16, length_write_bytes; reflexivity|].
  match goal with
  | |- packet ?c = _ =>
      assert (wf_ctx c) as Hwf'
  end.
  { split; unfold set_mem, set_data; cbn [data data_end mem];
      rewrite ?length_store16, ?length_write_bytes; lia. }
  apply nth_ext with (d := x00) (d' := x00).
  - rewrite !length_app, length_firstn, length_skipn.
    rewrite !length_packet by assumption.
    unfold set_mem, set_data.
    cbn [data data_end mem length vlan_tag_bytes bytes_of map]. lia.
  - intros j Hj.
    rewrite length_packet in Hj by assumption.
    unfold set_mem, set_data in *.
    cbn [data data_end mem] in *.
    rewrite nth_packet by (cbn [data data_end mem]; lia).
    cbn [data data_end mem].
    rewrite nth_tagged by (rewrite ?length_packet by assumption; 
                           try reflexivity; lia).
    destruct (Nat.ltb_spec j 12).
    { rewrite nth_packet by lia. mem_norm. f_equal. lia. }
    destruct (Nat.ltb_spec j 16).
    { assert (j = 12 \/ j = 13 \/ j = 14 \/ j = 15)%nat
        as [-> | [-> | [-> | ->]]] by lia;
        cbn [Nat.sub nth vlan_tag_bytes bytes_of map]; mem_norm; reflexivity. }
    rewrite nth_packet by lia.
    destruct (Nat.eq_dec j 16) as [->|]; [mem_norm; f_equal; lia|].
    destruct (Nat.eq_dec j 17) as [->|]; [mem_norm; f_equal; lia|].
    mem_norm. f_equal. lia.
Qed.

Lemma vlan_tag_pop_spec K ctx :
  head_adjustable K ctx (Z.of_nat sizeof_vlan_hdr) = true ->
  wf_ctx ctx ->
  (data ctx + sizeof_ethhdr + sizeof_vlan_hdr <= data_end ctx)%nat ->
  proto_is_vlan (eth_h_proto (mem ctx) (data ctx)) = true ->
  exists ctx',
    Solutions.vlan_tag_pop K ctx (data ctx)
    = (256 * byte_to_Z (nth 14 (packet ctx) x00)
       + byte_to_Z (nth 15 (packet ctx) x00), ctx')
    /\ data ctx' = (data ctx + 4)%nat /\ data_end ctx' = data_end ctx
    /\ length (mem ctx') = length (mem ctx)
    /\ packet ctx' = firstn 12 (packet ctx) ++ skipn 16 (packet ctx).
Proof.
  intros Hok Hwf He Hv. pose proof Hwf as [Hw1 Hw2].
  unfold Solutions.vlan_tag_pop. rewrite Hv.
  rewrite (adjust_head_shrink K ctx)
    by (try assumption; unfold sizeof_ethhdr, sizeof_vlan_hdr in *; lia).
  unfold sizeof_ethhdr, sizeof_vlan_hdr in *.
  unfold set_mem, set_data.
  cbn [negb Z.eqb data data_end mem].
  unfold sizeof_ethhdr, sizeof_vlan_hdr, vlan_TCI, vlan_encapsulated_proto.
  destruct (Nat.ltb_spec (data_end ctx) (data ctx + 14 + 4)); [lia|].
  destruct (Nat.ltb_spec (data_end ctx) (data ctx + 4 + 14)); [lia|].
  eexists. split.
  { f_equal. rewrite ntohs_load16. rewrite !nth_packet by lia.
    unfold load8. do 3 f_equal. lia. }
  cbn [data data_end mem].
  split; [reflexivity|]. split; [reflexivity|].
  split; [rewrite !length_store16, length_write_bytes; reflexivity|].
  match goal with
  | |- packet ?c = _ => assert (wf_ctx c) as Hwf'
  end.
  { split; cbn [data data_end mem];
      rewrite ?length_store16, ?length_write_bytes; lia. }
  apply nth_ext with (d := x00) (d' := x00).
  - rewrite !length_app, length_firstn, length_skipn.
    rewrite !length_packet by assumption.
    cbn [data data_end mem]. lia.
  - intros j Hj.
    rewrite length_packet in Hj by assumption.
    cbn [data data_end mem] in *.
    rewrite nth_packet by (cbn [data data_end mem]; lia).
    cbn [data data_end mem].
    rewrite nth_untagged by (rewrite length_packet by assumption; lia).
    destruct (Nat.ltb_spec j 12).
    { rewrite nth_packet by lia. mem_norm. f_equal. lia. }
    rewrite nth_packet by lia.
    destruct (Nat.eq_dec j 12) as [->|]; [mem_norm; f_equal; lia|].
    destruct (Nat.eq_dec j 13) as [->|]; [mem_norm; f_equal; lia|].
    mem_norm. f_equal. lia.
Qed.

Lemma linux_accepts_grow ctx :
  (data ctx + sizeof_ethhdr <= data_end ctx)%nat ->
  linux_head_adjustable ctx (0 - Z.of_nat sizeof_vlan_hdr) = true.
Proof.
  unfold linux_head_adjustable, sizeof_ethhdr, sizeof_vlan_hdr, ETH_HLEN.
  intros H. apply Z.leb_le. lia.
Qed.

Lemma linux_accepts_shrink ctx :
  (data ctx + sizeof_ethhdr + sizeof_vlan_hdr <= data_end ctx)%nat ->
  linux_head_adjustable ctx (Z.of_nat sizeof_vlan_hdr) = true.
Proof.
  unfold linux_head_adjustable, sizeof_ethhdr, sizeof_vlan_hdr, ETH_HLEN.
  intros H. apply Z.leb_le. lia.
Qed.

Lemma vlan_push_then_pop K ctx vlid :
  accepts_like_linux K ->
  wf_ctx ctx -> (4 <= data ctx)%nat ->
  (data ctx + sizeof_ethhdr <= data_end ctx)%nat ->
  0 <= vlid < 65536 ->
  exists ctx1 ctx2,
    Solutions.vlan_tag_push K ctx (data ctx) vlid = (0, ctx1)
    /\ Solutions.vlan_tag_pop K ctx1 (data ctx1) = (vlid, ctx2)
    /\ packet ctx2 = packet ctx
    /\ data ctx2 = data ctx /\ data_end ctx2 = data_end ctx.
Proof.
  intros Hok Hwf Hroom He Hid. pose proof Hwf as [Hw1 Hw2].
  unfold sizeof_ethhdr in *.
  destruct (vlan_tag_push_spec K ctx vlid (data ctx - 4)
              (Hok _ _ (linux_accepts_grow ctx He)) Hwf ltac:(lia) He)
    as (ctx1 & Hpush & Hd1 & He1 & Hl1 & HP1).
  assert (wf_ctx ctx1) as Hwf1 by (split; lia).
  assert (length (packet ctx) = (data_end ctx - data ctx)%nat) as LP
      by (apply length_packet; assumption).
  assert (forall j, nth j (packet ctx1) x00
                    = if (j <? 12)%nat then nth j (packet ctx) x00
                      else if (j <? 16)%nat
                           then nth (j - 12) (vlan_tag_bytes ETH_P_8021Q vlid) x00
                           else nth (j - 4) (packet ctx) x00) as N1.
  { intros j. rewrite HP1. apply nth_tagged; [lia | reflexivity]. }
  assert (proto_is_vlan (eth_h_proto (mem ctx1) (data ctx1)) = true) as Hv.
  { rewrite eth_h_proto_packet by lia. rewrite !N1. reflexivity. }
  assert ((data ctx1 + sizeof_ethhdr + sizeof_vlan_hdr <= data_end ctx1)%nat)
    as He1' by (unfold sizeof_ethhdr, sizeof_vlan_hdr; lia).
  destruct (vlan_tag_pop_spec K ctx1 (Hok _ _ (linux_accepts_shrink ctx1 He1'))
                              Hwf1 He1' Hv)
    as (ctx2 & Hpop & Hd2 & He2 & Hl2 & HP2).
  exists ctx1, ctx2. split; [exact Hpush|]. split; [|split; [|split; lia]].
  - rewrite Hpop. f_equal. rewrite !N1.
    cbn [Nat.ltb Nat.leb Nat.sub nth vlan_tag_bytes bytes_of map].
    rewrite !byte_to_of_Z.
    pose proof (Z.div_mod vlid 256 ltac:(lia)).
    pose proof (Z.mod_pos_bound vlid 256 ltac:(lia)).
    rewrite (Z.mod_small (vlid / 256))
      by (split; [apply Z.div_pos; lia | apply Z.div_lt_upper_bound; lia]).
    lia.
  - rewrite HP2. apply nth_ext with (d := x00) (d' := x00).
    + rewrite length_app, length_firstn, length_skipn.
      rewrite length_packet by assumption. lia.
    + intros j _. rewrite nth_untagged by (rewrite length_packet by assumption; lia).
      rewrite !N1.
      destruct (Nat.ltb_spec j 12); [reflexivity|].
      destruct (Nat.ltb_spec (j + 4) 12); [lia|].
      destruct (Nat.ltb_spec (j + 4) 16); [lia|].
      f_equal. lia.
Qed.

Lemma vlan_pop_then_push K ctx :
  accepts_like_linux K ->
  wf_ctx ctx ->
  (data ctx + sizeof_ethhdr + sizeof_vlan_hdr <= data_end ctx)%nat ->
  proto_is_vlan (eth_h_proto (mem ctx) (data ctx)) = true ->
  exists vlid ctx1 ctx2,
    Solutions.vlan_tag_pop K ctx (data ctx) = (vlid, ctx1)
    /\ 0 <= vlid < 65536
    /\ Solutions.vlan_tag_push K ctx1 (data ctx1) vlid = (0, ctx2)
    /\ data ctx2 = data ctx /\ data_end ctx2 = data_end ctx
    /\ packet ctx2
       = firstn 12 (packet ctx) ++ vlan_tag_bytes ETH_P_8021Q vlid
         ++ skipn 16 (packet ctx)
    /\ (eth_h_proto (mem ctx) (data ctx) = bpf_htons ETH_P_8021Q ->
        packet ctx2 = packet ctx).
Proof.
  intros Hok Hwf He Hv. pose proof Hwf as [Hw1 Hw2].
  destruct (vlan_tag_pop_spec K ctx (Hok _ _ (linux_accepts_shrink ctx He))
                              Hwf He Hv)
    as (ctx1 & Hpop & Hd1 & He1 & Hl1 & HP1).
  unfold sizeof_ethhdr, sizeof_vlan_hdr in He.
  assert (wf_ctx ctx1) as Hwf1 by (split; lia).
  set (vlid := 256 * byte_to_Z (nth 14 (packet ctx) x00)
               + byte_to_Z (nth 15 (packet ctx) x00)) in *.
  pose proof (byte_to_Z_range (nth 14 (packet ctx) x00)) as R14.
  pose proof (byte_to_Z_range (nth 15 (packet ctx) x00)) as R15.
  unfold sizeof_ethhdr, sizeof_vlan_hdr in *.
  assert ((data ctx1 + sizeof_ethhdr <= data_end ctx1)%nat)
    as He1' by (unfold sizeof_ethhdr; lia).
  destruct (vlan_tag_push_spec K ctx1 vlid (data ctx)
              (Hok _ _ (linux_accepts_grow ctx1 He1')) Hwf1 Hd1 He1')
    as (ctx2 & Hpush & Hd2 & He2 & Hl2 & HP2).
  assert (length (packet ctx) = (data_end ctx - data ctx)%nat) as LP
      by (apply length_packet; assumption).
  assert (length (packet ctx1) = (data_end ctx - data ctx - 4)%nat) as LP1
      by (rewrite length_packet by assumption; lia).
  assert (forall j, nth j (packet ctx2) x00
                    = if (j <? 12)%nat then nth j (packet ctx) x00
                      else if (j <? 16)%nat
                           then nth (j - 12) (vlan_tag_bytes ETH_P_8021Q vlid) x00
                           else nth j (packet ctx) x00) as N2.
  { intros j. rewrite HP2. rewrite nth_tagged by (try reflexivity; lia).
    rewrite HP1. rewrite !nth_untagged by lia.
    destruct (Nat.ltb_spec j 12); [reflexivity|].
    destruct (Nat.ltb_spec j 16); [reflexivity|].
    destruct (Nat.ltb_spec (j - 4) 12); [lia|]. f_equal. lia. }
  exists vlid, ctx1, ctx2.
  split; [exact Hpop|]. split; [subst vlid; lia|]. split; [exact Hpush|].
  split; [lia|]. split; [lia|]. split.
  - apply nth_ext with (d := x00) (d' := x00).
    + rewrite HP2, HP1. rewrite !length_app, !length_firstn, !length_skipn.
      rewrite !length_app, !length_firstn, !length_skipn.
      cbn [length vlan_tag_bytes bytes_of map]. lia.
    + intros j _. rewrite N2.
      assert (length (firstn 12 (packet ctx)) = 12%nat) as L12
          by (rewrite length_firstn; lia).
      destruct (Nat.ltb_spec j 12).
      { rewrite app_nth1 by lia. rewrite nth_firstn.
        destruct (Nat.ltb_spec j 12); [reflexivity | lia]. }
      rewrite app_nth2 by lia. rewrite L12.
      destruct (Nat.ltb_spec j 16).
      { rewrite app_nth1 by (cbn [length vlan_tag_bytes bytes_of map]; lia).
        reflexivity. }
      rewrite app_nth2 by (cbn [length vlan_tag_bytes bytes_of map]; lia).
      rewrite nth_skipn. f_equal.
      cbn [length vlan_tag_bytes bytes_of map]. lia.
  - intros Hq. rewrite eth_h_proto_packet in Hq by lia.
    pose proof (byte_to_Z_range (nth 12 (packet ctx) x00)) as R12.
    pose proof (byte_to_Z_range (nth 13 (packet ctx) x00)) as R13.
    change (bpf_htons ETH_P_8021Q) with 129 in Hq.
    assert (nth 12 (packet ctx) x00 = byte_of_Z 129) as E12
        by (apply byte_to_Z_inj_of; lia).
    assert (nth 13 (packet ctx) x00 = byte_of_Z 0) as E13
        by (apply byte_to_Z_inj_of; lia).
    apply nth_ext with (d := x00) (d' := x00).
    + rewrite HP2, HP1. rewrite !length_app, !length_firstn, !length_skipn.
      rewrite !length_app, !length_firstn, !length_skipn.
      cbn [length vlan_tag_bytes bytes_of map]. lia.
    + intros j _. rewrite N2.
      destruct (Nat.ltb_spec j 12); [reflexivity|].
      destruct (Nat.ltb_spec j 16); [|reflexivity].
      assert (j = 12 \/ j = 13 \/ j = 14 \/ j = 15)%nat
        as [-> | [-> | [-> | ->]]] by lia;
        cbn [Nat.sub nth vlan_tag_bytes bytes_of map].
      * rewrite E12. reflexivity.
      * rewrite E13. reflexivity.
      * symmetry. apply byte_to_Z_inj_of. try subst vlid.
        apply Z.div_unique with (byte_to_Z (nth 15 (packet ctx) x00)); lia.
      * transitivity (byte_of_Z (byte_to_Z (nth 15 (packet ctx) x00)));
          [|apply byte_of_to_Z].
        apply byte_of_Z_mod. try subst vlid.
        rewrite Z.add_comm, Z.mul_comm, Z.mod_add by lia. reflexivity.
Qed.

Lemma sample_kernel_accepts rc : accepts_like_linux (sample_kernel rc).
Proof. intros c delta H. exact H. Qed.

(** C4 (as the code has it): when the kernel accepts the resizes Linux
    accepts and four bytes of headroom exist, pushing a tag with any
    16-bit id onto a frame and popping it again succeeds, returns that id
    and leaves the packet bytes and bounds as they were.  Popping the tag
    of a tagged frame and pushing the returned id succeeds and gives back
    the frame with the outer tag type 0x8100; that is the original packet
    when its tag type was 802.1Q. *)
Theorem vlan_push_pop_inverse : forall K ctx vlid,
  accepts_like_linux K ->
  wf_ctx ctx ->
  ((4 <= data ctx)%nat ->
   (data ctx + sizeof_ethhdr <= data_end ctx)%nat ->
   0 <= vlid < 65536 ->
   exists ctx1 ctx2,
     Solutions.vlan_tag_push K ctx (data ctx) vlid = (0, ctx1)
     /\ Solutions.vlan_tag_pop K ctx1 (data ctx1) = (vlid, ctx2)
     /\ packet ctx2 = packet ctx
     /\ data ctx2 = data ctx /\ data_end ctx2 = data_end ctx)
  /\ ((data ctx + sizeof_ethhdr + sizeof_vlan_hdr <= data_end ctx)%nat ->
      proto_is_vlan (eth_h_proto (mem ctx) (data ctx)) = true ->
      exists id ctx1 ctx2,
        Solutions.vlan_tag_pop K ctx (data ctx) = (id, ctx1)
        /\ 0 <= id < 65536
        /\ Solutions.vlan_tag_push K ctx1 (data ctx1) id = (0, ctx2)
        /\ data ctx2 = data ctx /\ data_end ctx2 = data_end ctx
        /\ packet ctx2
           = firstn 12 (packet ctx) ++ vlan_tag_bytes ETH_P_8021Q id
             ++ skipn 16 (packet ctx)
        /\ (eth_h_proto (mem ctx) (data ctx) = bpf_htons ETH_P_8021Q ->
            packet ctx2 = packet ctx)).
Proof.
  intros K ctx vlid Hok Hwf. split.
  - intros Hroom He Hid. apply vlan_push_then_pop; assumption.
  - intros He Hv. apply vlan_pop_then_push; assumption.
Qed.

Lemma vlan_push_pop_inverse_witness :
  (exists ctx1 ctx2,
     Solutions.vlan_tag_push (sample_kernel 0) untagged_ctx
                             (data untagged_ctx) 42 = (0, ctx1)
     /\ Solutions.vlan_tag_pop (sample_kernel 0) ctx1 (data ctx1) = (42, ctx2)
     /\ packet ctx2 = packet untagged_ctx
     /\ data ctx2 = data untagged_ctx
     /\ data_end ctx2 = data_end untagged_ctx)
  /\ (exists id ctx1 ctx2,
        Solutions.vlan_tag_pop (sample_kernel 0) q_tagged_ctx
                               (data q_tagged_ctx) = (id, ctx1)
        /\ Solutions.vlan_tag_push (sample_kernel 0) ctx1 (data ctx1) id
           = (0, ctx2)
        /\ packet ctx2 = packet q_tagged_ctx).
Proof.
  split.
  - apply (proj1 (vlan_push_pop_inverse (sample_kernel 0) untagged_ctx 42
                    (sample_kernel_accepts 0)
                    ltac:(split; vm_compute; lia))).
    + vm_compute. lia.
    + vm_compute. lia.
    + lia.
  - destruct (proj2 (vlan_push_pop_inverse (sample_kernel 0) q_tagged_ctx 0
                       (sample_kernel_accepts 0)
                       ltac:(split; vm_compute; lia)))
      as (id & ctx1 & ctx2 & Hpop & _ & Hpush & _ & _ & _ & Hsame).
    + vm_compute. lia.
    + vm_compute. reflexivity.
    + exists id, ctx1, ctx2. split; [exact Hpop|]. split; [exact Hpush|].
      apply Hsame. vm_compute. reflexivity.
Defined.

(** C4, as stated, fails for a frame whose single tag has type 802.1ad
    (0x88A8): the pop accepts it and returns id 42, the push of id 42
    succeeds, and the frame that results differs from the original (its
    tag type is now 0x8100). *)
Lemma vlan_pop_push_8021ad_differs :
  proto_is_vlan (eth_h_proto (mem ad_tagged_ctx) (data ad_tagged_ctx)) = true
  /\ fst (Solutions.vlan_tag_pop (sample_kernel 0) ad_tagged_ctx
                                 (data ad_tagged_ctx)) = 42
  /\ fst (Solutions.vlan_tag_push
            (sample_kernel 0)
            (snd (Solutions.vlan_tag_pop (sample_kernel 0) ad_tagged_ctx
                                         (data ad_tagged_ctx)))
            (data (snd (Solutions.vlan_tag_pop (sample_kernel 0) ad_tagged_ctx
                                               (data ad_tagged_ctx))))
            42) = 0
  /\ packet (snd (Solutions.vlan_tag_push
                    (sample_kernel 0)
                    (snd (Solutions.vlan_tag_pop (sample_kernel 0) ad_tagged_ctx
                                                 (data ad_tagged_ctx)))
                    (data (snd (Solutions.vlan_tag_pop
                                  (sample_kernel 0) ad_tagged_ctx
                                  (data ad_tagged_ctx))))
                    42))
     <> packet ad_tagged_ctx.
Proof.
  repeat split; try (vm_compute; reflexivity).
  vm_compute. discriminate.
Qed.

(** ** Failed pushes and pops *)

Lemma bpf_ntohs_range x : 0 <= bpf_ntohs x < 65536.
Proof. unfold bpf_ntohs. apply bswap16_range. Qed.

Lemma pop_failure_solutions K ctx :
  fst (Solutions.vlan_tag_pop K ctx (data ctx)) = -1 ->
  snd (Solutions.vlan_tag_pop K ctx (data ctx)) = ctx.
Proof.
  unfold Solutions.vlan_tag_pop.
  destruct (proto_is_vlan _); [|reflexivity]. cbn [negb].
  destruct (Nat.ltb_spec (data_end ctx)
                         (data ctx + sizeof_ethhdr + sizeof_vlan_hdr));
    [reflexivity|].
  destruct (adjust_head_cases K ctx (Z.of_nat sizeof_vlan_hdr))
    as [E | [Hb E]]; rewrite E; [reflexivity|].
  unfold sizeof_ethhdr, sizeof_vlan_hdr in *.
  cbn [negb Z.eqb data data_end set_data].
  destruct (Nat.ltb_spec (data_end ctx)
                         (Z.to_nat (Z.of_nat (data ctx) + Z.of_nat 4) + 14));
    [lia|].
  cbn [fst]. intros F.
  pose proof (bpf_ntohs_range (vlan_TCI (mem ctx) (data ctx + 14))). lia.
Qed.

Lemma pop_failure_rewriting K ctx :
  fst (Rewriting.vlan_tag_pop K ctx (data ctx)) = -1 ->
  snd (Rewriting.vlan_tag_pop K ctx (data ctx)) = ctx.
Proof.
  unfold Rewriting.vlan_tag_pop.
  destruct (proto_is_vlan _); [|reflexivity]. cbn [negb].
  destruct (Nat.ltb_spec (data_end ctx)
                         (data ctx + sizeof_ethhdr + sizeof_vlan_hdr));
    [reflexivity|].
  destruct (adjust_head_cases K ctx (Z.of_nat sizeof_vlan_hdr))
    as [E | [Hb E]]; rewrite E; [reflexivity|].
  unfold sizeof_ethhdr, sizeof_vlan_hdr in *.
  cbn [negb Z.eqb data data_end set_data].
  destruct (Nat.ltb_spec (data_end ctx)
                         (Z.to_nat (Z.of_nat (data ctx) + Z.of_nat 4) + 14));
    [lia|].
  cbn [fst]. intros F.
  pose proof (bpf_ntohs_range (vlan_TCI (mem ctx) (data ctx + 14))). lia.
Qed.

Lemma push_failure_solutions K ctx vlid :
  (data ctx + sizeof_ethhdr <= data_end ctx)%nat ->
  fst (Solutions.vlan_tag_push K ctx (data ctx) vlid) <> 0 ->
  snd (Solutions.vlan_tag_push K ctx (data ctx) vlid) = ctx.
Proof.
  intros He. unfold Solutions.vlan_tag_push.
  destruct (adjust_head_cases K ctx (0 - Z.of_nat sizeof_vlan_hdr))
    as [E | [Hb E]]; rewrite E; [reflexivity|].
  unfold sizeof_ethhdr, sizeof_vlan_hdr in *.
  cbn [negb Z.eqb data data_end set_data].
  destruct (Nat.ltb_spec (data_end ctx)
              (Z.to_nat (Z.of_nat (data ctx) + (0 - Z.of_nat 4)) + 14)); [lia|].
  destruct (Nat.ltb_spec (data_end ctx)
              (Z.to_nat (Z.of_nat (data ctx) + (0 - Z.of_nat 4)) + 14 + 4));
    [lia|].
  cbn [fst]. congruence.
Qed.

Lemma push_failure_rewriting K ctx vlid :
  (data ctx + sizeof_ethhdr <= data_end ctx)%nat ->
  fst (Rewriting.vlan_tag_push K ctx (data ctx) vlid) <> 0 ->
  snd (Rewriting.vlan_tag_push K ctx (data ctx) vlid) = ctx.
Proof.
  intros He. unfold Rewriting.vlan_tag_push.
  destruct (proto_is_vlan _); [reflexivity|].
  destruct (adjust_head_cases K ctx (- Z.of_nat sizeof_vlan_hdr))
    as [E | [Hb E]]; rewrite E; [reflexivity|].
  unfold sizeof_ethhdr, sizeof_vlan_hdr in *.
  cbn [negb Z.eqb data data_end set_data].
  destruct (Nat.ltb_spec (data_end ctx)
              (Z.to_nat (Z.of_nat (data ctx) + - Z.of_nat 4) + 14)); [lia|].
  destruct (Nat.ltb_spec (data_end ctx)
              (Z.to_nat (Z.of_nat (data ctx) + - Z.of_nat 4) + 14 + 4));
    [lia|].
  cbn [fst]. congruence.
Qed.

Lemma parse_ethhdr_nonneg_fits m nh de :
  (fst (parse_ethhdr m nh de) <? 0) = false ->
  (pos nh + sizeof_ethhdr <= de)%nat.
Proof.
  intros H. destruct (le_lt_dec (pos nh + sizeof_ethhdr) de) as [|Hs]; [assumption|].
  rewrite parse_ethhdr_short in H by (unfold sizeof_ethhdr in *; lia).
  discriminate.
Qed.

(** C8: whatever the kernel's policy on head adjustments, a pop that fails
    (it returns -1; a successful pop returns the TCI, which is never
    negative) and a push that fails on a frame whose Ethernet header was
    validated leave the context, and with it every packet byte and both
    bounds, exactly as they were; the VLAN swapper then passes the
    unchanged packet on.  A refused resize has no effect, and once the
    resize has succeeded the re-validation cannot fail, so no failure
    happens after the head has moved. *)
Theorem vlan_failure_leaves_packet : forall K ctx vlid,
  (fst (Solutions.vlan_tag_pop K ctx (data ctx)) = -1 ->
   snd (Solutions.vlan_tag_pop K ctx (data ctx)) = ctx)
  /\ (fst (Rewriting.vlan_tag_pop K ctx (data ctx)) = -1 ->
      snd (Rewriting.vlan_tag_pop K ctx (data ctx)) = ctx)
  /\ (fst (Solutions.vlan_tag_pop K ctx (data ctx)) <> -1 ->
      0 <= fst (Solutions.vlan_tag_pop K ctx (data ctx)) < 65536)
  /\ (fst (Rewriting.vlan_tag_pop K ctx (data ctx)) <> -1 ->
      0 <= fst (Rewriting.vlan_tag_pop K ctx (data ctx)) < 65536)
  /\ ((data ctx + sizeof_ethhdr <= data_end ctx)%nat ->
      fst (Solutions.vlan_tag_push K ctx (data ctx) vlid) <> 0 ->
      snd (Solutions.vlan_tag_push K ctx (data ctx) vlid) = ctx)
  /\ ((data ctx + sizeof_ethhdr <= data_end ctx)%nat ->
      fst (Rewriting.vlan_tag_push K ctx (data ctx) vlid) <> 0 ->
      snd (Rewriting.vlan_tag_push K ctx (data ctx) vlid) = ctx)
  /\ (fst (Solutions.vlan_tag_pop K ctx (data ctx)) = -1 ->
      fst (Solutions.vlan_tag_push K ctx (data ctx) 1) <> 0 ->
      Solutions.xdp_vlan_swap_func K ctx = (XDP_PASS, ctx, []))
  /\ (fst (Rewriting.vlan_tag_pop K ctx (data ctx)) = -1 ->
      fst (Rewriting.vlan_tag_push K ctx (data ctx) 1) <> 0 ->
      Rewriting.xdp_vlan_swap_func K ctx = (XDP_PASS, ctx, [])).
Proof.
  intros K ctx vlid.
  split; [apply pop_failure_solutions|].
  split; [apply pop_failure_rewriting|].
  split.
  { unfold Solutions.vlan_tag_pop.
    destruct (proto_is_vlan _); [|cbn; congruence]. cbn [negb].
    destruct (_ <? _)%nat; [cbn; congruence|].
    destruct (bpf_xdp_adjust_head K ctx (Z.of_nat sizeof_vlan_hdr)) as [rc ctx1].
    destruct (negb (rc =? 0)); [cbn; congruence|].
    destruct (_ <? _)%nat; [cbn; congruence|].
    cbn [fst]. intros _. apply bpf_ntohs_range. }
  split.
  { unfold Rewriting.vlan_tag_pop.
    destruct (proto_is_vlan _); [|cbn; congruence]. cbn [negb].
    destruct (_ <? _)%nat; [cbn; congruence|].
    destruct (bpf_xdp_adjust_head K ctx (Z.of_nat sizeof_vlan_hdr)) as [rc ctx1].
    destruct (negb (rc =? 0)); [cbn; congruence|].
    destruct (_ <? _)%nat; [cbn; congruence|].
    cbn [fst]. intros _. apply bpf_ntohs_range. }
  split; [apply push_failure_solutions|].
  split; [apply push_failure_rewriting|].
  split.
  - intros Hpop Hpush. unfold Solutions.xdp_vlan_swap_func.
    destruct (parse_ethhdr (mem ctx) (mk_cursor (data ctx)) (data_end ctx))
      as [nh_type nh1] eqn:E.
    destruct (nh_type <? 0) eqn:Hneg; [reflexivity|].
    assert ((data ctx + sizeof_ethhdr <= data_end ctx)%nat) as Hfit.
    { apply (parse_ethhdr_nonneg_fits (mem ctx) (mk_cursor (data ctx))).
      rewrite E. exact Hneg. }
    destruct (proto_is_vlan _).
    + rewrite pop_failure_solutions by exact Hpop. reflexivity.
    + rewrite push_failure_solutions by assumption. reflexivity.
  - intros Hpop Hpush. unfold Rewriting.xdp_vlan_swap_func.
    destruct (parse_ethhdr (mem ctx) (mk_cursor (data ctx)) (data_end ctx))
      as [nh_type nh1] eqn:E.
    destruct (nh_type <? 0) eqn:Hneg; [reflexivity|].
    assert ((data ctx + sizeof_ethhdr <= data_end ctx)%nat) as Hfit.
    { apply (parse_ethhdr_nonneg_fits (mem ctx) (mk_cursor (data ctx))).
      rewrite E. exact Hneg. }
    destruct (proto_is_vlan _).
    + rewrite pop_failure_rewriting by exact Hpop. reflexivity.
    + rewrite push_failure_rewriting by assumption. reflexivity.
Qed.

Lemma vlan_failure_leaves_packet_witness :
  snd (Solutions.vlan_tag_pop refusing_kernel q_tagged_ctx (data q_tagged_ctx))
  = q_tagged_ctx
  /\ snd (Solutions.vlan_tag_push (sample_kernel 0) no_headroom_ctx
                                  (data no_headroom_ctx) 1)
     = no_headroom_ctx
  /\ snd (Solutions.vlan_tag_push refusing_kernel untagged_ctx
                                  (data untagged_ctx) 1)
     = untagged_ctx
  /\ Solutions.xdp_vlan_swap_func (sample_kernel 0) no_headroom_ctx
     = (XDP_PASS, no_headroom_ctx, []).
Proof.
  destruct (vlan_failure_leaves_packet refusing_kernel q_tagged_ctx 1)
    as (Hpop & _).
  destruct (vlan_failure_leaves_packet (sample_kernel 0) no_headroom_ctx 1)
    as (_ & _ & _ & _ & Hpush & _ & Hswap & _).
  destruct (vlan_failure_leaves_packet refusing_kernel untagged_ctx 1)
    as (_ & _ & _ & _ & Hpush' & _).
  split; [|split; [|split]].
  - apply Hpop. vm_compute. reflexivity.
  - apply Hpush; [vm_compute; lia | vm_compute; discriminate].
  - apply Hpush'; [vm_compute; lia | vm_compute; discriminate].
  - apply Hswap; [vm_compute; reflexivity | vm_compute; discriminate].
Defined.

(** * Further properties of the code *)

(** ** The [get_*] helpers and the cursor *)

Lemma get_vlan_loop_some n : forall m de h v r,
  get_vlan_loop n m de h v = Some r -> vlan_loop n m de h v = r.
Proof.
  induction n as [|n IH]; intros m de h v r H; simpl in *.
  - congruence.
  - unfold proto_is_vlan.
    destruct (negb _); [congruence|].
    destruct (_ <? _)%nat; [discriminate|]. apply IH. exact H.
Qed.

Lemma get_vlan_loop_complete n : forall m de h v,
  proto_is_vlan (fst (vlan_loop n m de h v)) = false ->
  get_vlan_loop n m de h v = Some (vlan_loop n m de h v).
Proof.
  induction n as [|n IH]; intros m de h v H; simpl in *.
  - reflexivity.
  - unfold proto_is_vlan in *.
    destruct ((h =? bpf_htons ETH_P_8021Q) || (h =? bpf_htons ETH_P_8021AD))
      eqn:Hv; cbn [negb] in *.
    + destruct (_ <? _)%nat.
      * cbn [fst] in H. congruence.
      * apply IH. exact H.
    + reflexivity.
Qed.

Lemma vlan_loop_u16 n : forall m de h v,
  0 <= h < 65536 -> 0 <= fst (vlan_loop n m de h v) < 65536.
Proof.
  induction n as [|n IH]; intros m de h v H; simpl.
  - exact H.
  - destruct (negb _); [exact H|].
    destruct (_ <? _)%nat; [exact H|]. apply IH. apply load16_range.
Qed.

Lemma ntohs_is_ipv6 h :
  0 <= h < 65536 -> (bpf_ntohs h = ETH_P_IPV6 <-> h = bpf_htons ETH_P_IPV6).
Proof.
  intros R. unfold bpf_ntohs, to_u16. rewrite Z.mod_small by exact R. split.
  - intros E. rewrite <- (bswap16_involutive h R), E. reflexivity.
  - intros ->. reflexivity.
Qed.

Lemma ipv6_not_vlan : proto_is_vlan (bpf_htons ETH_P_IPV6) = false.
Proof. reflexivity. Qed.

(** [get_ethhdr] then [get_ip6hdr] find an IPv6 header exactly when
    [parse_ethhdr] answers [ETH_P_IPV6] and [parse_ip6hdr] then succeeds,
    and they leave the same header pointer and the same cursor. *)
Theorem get_chain_agrees_with_parse_chain : forall m nh de ip6h nh2,
  (exists eth nh1,
      get_ethhdr nh de = (Some eth, nh1)
      /\ get_ip6hdr m eth nh1 de = (Some ip6h, nh2))
  <-> (exists nh1,
          parse_ethhdr m nh de = (ETH_P_IPV6, nh1)
          /\ pos nh1 = ip6h
          /\ (ip6h + sizeof_ipv6hdr <= de)%nat
          /\ parse_ip6hdr m nh1 de = (ip6_nexthdr m ip6h, nh2)).
Proof.
  intros m nh de ip6h nh2.
  unfold get_ethhdr, get_ip6hdr, parse_ethhdr, parse_ip6hdr. cbv zeta.
  destruct (Nat.ltb_spec de (pos nh + sizeof_ethhdr)) as [Hs|Hf].
  { split.
    - intros (eth & nh1 & H & _). discriminate.
    - intros (nh1 & H & _). discriminate. }
  pose proof (vlan_loop_u16 VLAN_MAX_DEPTH m de (eth_h_proto m (pos nh))
                (pos nh + sizeof_ethhdr)%nat (load16_range _ _)) as Ru.
  split.
  - intros (eth & nh1 & H1 & H2).
    injection H1 as <- <-. cbn [pos] in H2.
    destruct (get_vlan_loop VLAN_MAX_DEPTH m de (eth_h_proto m (pos nh))
                            (pos nh + sizeof_ethhdr)) as [[h' v']|] eqn:G;
      [|discriminate].
    apply get_vlan_loop_some in G. rewrite G in *. cbn [fst] in Ru.
    destruct (Z.eqb_spec h' (bpf_htons ETH_P_IPV6)) as [Eh|]; [|discriminate].
    cbn [negb] in H2.
    destruct (Nat.ltb_spec de (v' + sizeof_ipv6hdr)) as [|Hfit]; [discriminate|].
    injection H2 as <- <-.
    exists (mk_cursor v'). cbn [pos].
    split; [f_equal; apply ntohs_is_ipv6; assumption|].
    split; [reflexivity|]. split; [exact Hfit|].
    destruct (Nat.ltb_spec de (v' + sizeof_ipv6hdr)); [lia | reflexivity].
  - intros (nh1 & H1 & Hp & Hfit & H2).
    destruct (vlan_loop VLAN_MAX_DEPTH m de (eth_h_proto m (pos nh))
                        (pos nh + sizeof_ethhdr)) as [h' v'] eqn:L.
    cbn [fst] in Ru. injection H1 as Hh <-. cbn [pos] in *. subst v'.
    apply ntohs_is_ipv6 in Hh; [|exact Ru]. subst h'.
    exists (pos nh), (mk_cursor (pos nh + sizeof_ethhdr)).
    split; [reflexivity|]. cbn [pos].
    rewrite get_vlan_loop_complete by (rewrite L; reflexivity).
    rewrite L. rewrite Z.eqb_refl. cbn [negb].
    destruct (Nat.ltb_spec de (ip6h + sizeof_ipv6hdr)); [lia|].
    injection H2 as <-. reflexivity.
Qed.

(** the chain on a concrete frame: Ethernet, IPv6, hop limit 64 *)
Lemma get_chain_agrees_with_parse_chain_witness :
  exists eth nh1,
    get_ethhdr (mk_cursor 0) 54 = (Some eth, nh1)
    /\ get_ip6hdr (bytes_of (eth_ipv6_header 64)) eth nh1 54
       = (Some 14%nat, mk_cursor 54).
Proof.
  apply (proj2 (get_chain_agrees_with_parse_chain
                  (bytes_of (eth_ipv6_header 64)) (mk_cursor 0) 54 14
                  (mk_cursor 54))).
  exists (mk_cursor 14). repeat split; try (vm_compute; reflexivity).
Defined.

Lemma get_vlan_loop_bounds n m de h v h' v' :
  get_vlan_loop n m de h v = Some (h', v') ->
  (v <= v')%nat /\ ((v <= de)%nat -> (v' <= de)%nat).
Proof.
  intros G. apply get_vlan_loop_some in G.
  destruct (vlan_loop_spec n m de h v) as (k & _ & Hp & Hd & _).
  rewrite G in Hp. cbn [snd] in Hp. subst v'. split; [lia | exact Hd].
Qed.

(** Every parser leaves the cursor at or after its position on entry and
    never past [data_end]. *)
Theorem cursor_stays_in_packet : forall m nh de eth ip6h,
  (pos nh <= de)%nat ->
  let ok := fun nh' : hdr_cursor => (pos nh <= pos nh' <= de)%nat in
  ok (snd (parse_ethhdr m nh de))
  /\ ok (snd (parse_iphdr m nh de))
  /\ ok (snd (parse_ip6hdr m nh de))
  /\ ok (snd (parse_icmphdr m nh de))
  /\ ok (snd (parse_icmp6hdr m nh de))
  /\ ok (snd (get_ethhdr nh de))
  /\ ok (snd (get_ip6hdr m eth nh de))
  /\ ok (snd (get_icmp6hdr m ip6h nh de))
  /\ ok (snd (fst (Rewriting.parse_tcphdr m nh de)))
  /\ ok (snd (fst (Rewriting.parse_udphdr m nh de))).
Proof.
  intros m nh de eth ip6h Hle ok. subst ok. cbv beta.
  repeat split.
  all: try (unfold parse_ip6hdr, parse_icmphdr, parse_icmp6hdr, get_ethhdr,
              get_icmp6hdr, Rewriting.parse_tcphdr, Rewriting.parse_udphdr;
            cbv zeta;
            repeat match goal with
                   | |- context [if ?c then _ else _] =>
                       match c with
                       | (?a <? ?b)%nat => destruct (Nat.ltb_spec a b)
                       | _ => destruct c
                       end
                   end; cbn [fst snd pos]; lia).
  - destruct (Nat.lt_ge_cases (de - pos nh) sizeof_ethhdr) as [Hs|Hf].
    + rewrite parse_ethhdr_short by exact Hs. cbn. lia.
    + destruct (parse_ethhdr_fits m nh de Hf) as (k & _ & Hp & _). lia.
  - destruct (Nat.lt_ge_cases (de - pos nh) sizeof_ethhdr) as [Hs|Hf].
    + rewrite parse_ethhdr_short by exact Hs. cbn. lia.
    + destruct (parse_ethhdr_fits m nh de Hf) as (k & _ & _ & Hp & _). lia.
  - unfold parse_iphdr. cbv zeta. pose proof (ip_ihl_range m (pos nh)).
    destruct (_ <? _)%nat; [cbn; lia|].
    destruct (Z.ltb_spec (Z.of_nat de)
                (Z.of_nat (pos nh) + ip_ihl m (pos nh) * 4)); cbn [snd pos]; lia.
  - unfold parse_iphdr. cbv zeta. pose proof (ip_ihl_range m (pos nh)).
    destruct (_ <? _)%nat; [cbn; lia|].
    destruct (Z.ltb_spec (Z.of_nat de)
                (Z.of_nat (pos nh) + ip_ihl m (pos nh) * 4)); cbn [snd pos]; lia.
  - unfold get_ip6hdr. cbv zeta.
    destruct (get_vlan_loop _ _ _ _ _) as [[h' v']|] eqn:G; [|cbn; lia].
    apply get_vlan_loop_bounds in G.
    destruct (negb _); [cbn; lia|].
    destruct (Nat.ltb_spec de (v' + sizeof_ipv6hdr)); cbn [snd pos];
      unfold sizeof_ipv6hdr in *; lia.
  - unfold get_ip6hdr. cbv zeta.
    destruct (get_vlan_loop _ _ _ _ _) as [[h' v']|] eqn:G; [|cbn; lia].
    apply get_vlan_loop_bounds in G.
    destruct (negb _); [cbn; lia|].
    destruct (Nat.ltb_spec de (v' + sizeof_ipv6hdr)); cbn [snd pos];
      unfold sizeof_ipv6hdr in *; lia.
Qed.

Lemma cursor_stays_in_packet_witness :
  (0 <= pos (snd (parse_ethhdr six_tag_frame (mk_cursor 0) 40)) <= 40)%nat.
Proof.
  apply (proj1 (cursor_stays_in_packet six_tag_frame (mk_cursor 0) 40 0 0
                  ltac:(cbn; lia))).
Defined.

(** ** Port rewriting *)

Lemma ntohs_htons y : bpf_ntohs (bpf_htons y) = y mod 65536.
Proof.
  unfold bpf_ntohs, bpf_htons, to_u16.
  rewrite (Z.mod_small (bswap16 _)) by apply bswap16_range.
  apply bswap16_involutive. apply Z.mod_pos_bound. lia.
Qed.

Lemma htons_range y : 0 <= bpf_htons y < 65536.
Proof. unfold bpf_htons. apply bswap16_range. Qed.

Lemma port_decrement m p :
  (p + 4 <= length m)%nat ->
  let m' := store16 m (p + 2) (bpf_htons (bpf_ntohs (load16 m (p + 2)) - 1)) in
  length m' = length m
  /\ bpf_ntohs (load16 m' (p + 2))
     = (bpf_ntohs (load16 m (p + 2)) - 1) mod 65536
  /\ same_outside (p + 2) (p + 4) m m'.
Proof.
  intros H m'. subst m'. split; [apply length_store16|]. split.
  - rewrite load16_store16_same by lia.
    rewrite (Z.mod_small (bpf_htons _)) by apply htons_range.
    apply ntohs_htons.
  - intros i Hi. apply nth_store16_other. lia.
Qed.

(** [parse_tcphdr] and [parse_udphdr] of the rewriting lesson: when the
    header fits they answer 0, move the cursor past it and lower the
    destination port, read in network order, by one modulo 2^16 (port 0
    becomes 65535), touching no other byte; when it does not fit they
    answer -1 and change neither cursor nor memory. *)
Theorem parse_l4_decrements_port : forall m nh de,
  (de <= length m)%nat ->
  ((pos nh + sizeof_tcphdr <= de)%nat ->
   exists m',
     Rewriting.parse_tcphdr m nh de
     = (0, mk_cursor (pos nh + sizeof_tcphdr), m')
     /\ length m' = length m
     /\ bpf_ntohs (load16 m' (pos nh + 2))
        = (bpf_ntohs (load16 m (pos nh + 2)) - 1) mod 65536
     /\ same_outside (pos nh + 2) (pos nh + 4) m m')
  /\ ((de < pos nh + sizeof_tcphdr)%nat ->
      Rewriting.parse_tcphdr m nh de = (-1, nh, m))
  /\ ((pos nh + sizeof_udphdr <= de)%nat ->
      exists m',
        Rewriting.parse_udphdr m nh de
        = (0, mk_cursor (pos nh + sizeof_udphdr), m')
        /\ length m' = length m
        /\ bpf_ntohs (load16 m' (pos nh + 2))
           = (bpf_ntohs (load16 m (pos nh + 2)) - 1) mod 65536
        /\ same_outside (pos nh + 2) (pos nh + 4) m m')
  /\ ((de < pos nh + sizeof_udphdr)%nat ->
      Rewriting.parse_udphdr m nh de = (-1, nh, m)).
Proof.
  intros m nh de Hlen.
  unfold Rewriting.parse_tcphdr, Rewriting.parse_udphdr,
    sizeof_tcphdr, sizeof_udphdr. cbv zeta.
  repeat split.
  - intros H. destruct (Nat.ltb_spec de (pos nh + 20)); [lia|].
    eexists. split; [reflexivity|]. apply port_decrement. lia.
  - intros H. destruct (Nat.ltb_spec de (pos nh + 20)); [reflexivity|lia].
  - intros H. destruct (Nat.ltb_spec de (pos nh + 8)); [lia|].
    eexists. split; [reflexivity|]. apply port_decrement. lia.
  - intros H. destruct (Nat.ltb_spec de (pos nh + 8)); [reflexivity|lia].
Qed.

Lemma parse_l4_decrements_port_witness :
  exists m',
    Rewriting.parse_tcphdr tcp_port0 (mk_cursor 0) 20 = (0, mk_cursor 20, m')
    /\ bpf_ntohs (load16 m' 2) = 65535.
Proof.
  destruct (proj1 (parse_l4_decrements_port tcp_port0 (mk_cursor 0) 20
                     ltac:(vm_compute; lia)))
    as (m' & E & _ & P & _).
  - vm_compute. lia.
  - exists m'. split; [exact E|].
    change (load16 m' 2) with (load16 m' (pos (mk_cursor 0) + 2)).
    rewrite P. vm_compute. reflexivity.
Defined.

Lemma port_lowered_intro ctx q :
  (q + 4 <= length (mem ctx))%nat ->
  port_lowered_at ctx
    (XDP_PASS,
     set_mem ctx (store16 (mem ctx) (q + 2)
                    (bpf_htons (bpf_ntohs (load16 (mem ctx) (q + 2)) - 1))),
     no_trace) q.
Proof.
  intros H. destruct (port_decrement (mem ctx) q H) as (_ & P & S).
  unfold port_lowered_at. cbn [verdict effects final_ctx fst snd set_mem mem data data_end].
  repeat split; assumption.
Qed.

(** [xdp_port_rewrite_func] on TCP or UDP over IPv4 or IPv6: when the
    transport header fits, the packet is passed with its destination port
    one lower; with any other protocol behind the IP header (a truncated
    IP header included) it is passed untouched. *)
Theorem port_rewrite_on_ip : forall ctx t nh1 p l4,
  wf_ctx ctx ->
  parse_ethhdr (mem ctx) (mk_cursor (data ctx)) (data_end ctx) = (t, nh1) ->
  (t = ETH_P_IP /\ parse_iphdr (mem ctx) nh1 (data_end ctx) = (p, l4))
  \/ (t = ETH_P_IPV6 /\ parse_ip6hdr (mem ctx) nh1 (data_end ctx) = (p, l4)) ->
  ((p = IPPROTO_TCP /\ (pos l4 + sizeof_tcphdr <= data_end ctx)%nat
    \/ p = IPPROTO_UDP /\ (pos l4 + sizeof_udphdr <= data_end ctx)%nat) ->
   port_lowered_at ctx (Rewriting.xdp_port_rewrite_func ctx) (pos l4))
  /\ (p <> IPPROTO_TCP -> p <> IPPROTO_UDP ->
      Rewriting.xdp_port_rewrite_func ctx = (XDP_PASS, ctx, [])).
Proof.
  intros ctx t nh1 p l4 [Hw1 Hw2] Pe Hip.
  unfold Rewriting.xdp_port_rewrite_func. cbv zeta. rewrite Pe.
  unfold Rewriting.parse_tcphdr, Rewriting.parse_udphdr,
    sizeof_tcphdr, sizeof_udphdr. cbv zeta.
  split.
  - intros Hl4.
    destruct Hip as [[-> Pi]|[-> Pi]]; cbn [Z.eqb ETH_P_IP ETH_P_IPV6 Pos.eqb];
      rewrite Pi;
      destruct Hl4 as [[-> Hfit]|[-> Hfit]];
      cbn [Z.eqb IPPROTO_TCP IPPROTO_UDP Pos.eqb];
      match goal with
      | |- context [(?a <? ?b)%nat] => destruct (Nat.ltb_spec a b); [lia|]
      end;
      apply port_lowered_intro; lia.
  - intros Ht Hu.
    destruct Hip as [[-> Pi]|[-> Pi]]; cbn [Z.eqb ETH_P_IP ETH_P_IPV6 Pos.eqb];
      rewrite Pi;
      destruct (Z.eqb_spec p IPPROTO_TCP); try contradiction;
      destruct (Z.eqb_spec p IPPROTO_UDP); try contradiction;
      rewrite set_mem_same; reflexivity.
Qed.

(** [xdp_port_rewrite_func] on any other Ethernet type: the code falls
    through to its TCP label, so when 20 bytes follow the Ethernet header
    (and its VLAN tags) it lowers the 16-bit field two bytes behind that
    header as if it were a TCP destination port; with fewer bytes the
    packet is passed untouched. *)
Theorem port_rewrite_falls_through : forall ctx t nh1,
  wf_ctx ctx ->
  parse_ethhdr (mem ctx) (mk_cursor (data ctx)) (data_end ctx) = (t, nh1) ->
  t <> ETH_P_IP -> t <> ETH_P_IPV6 ->
  ((pos nh1 + sizeof_tcphdr <= data_end ctx)%nat ->
   port_lowered_at ctx (Rewriting.xdp_port_rewrite_func ctx) (pos nh1))
  /\ ((data_end ctx < pos nh1 + sizeof_tcphdr)%nat ->
      Rewriting.xdp_port_rewrite_func ctx = (XDP_PASS, ctx, [])).
Proof.
  intros ctx t nh1 [Hw1 Hw2] Pe H4 H6.
  unfold Rewriting.xdp_port_rewrite_func. cbv zeta. rewrite Pe.
  destruct (Z.eqb_spec t ETH_P_IPV6); [contradiction|].
  destruct (Z.eqb_spec t ETH_P_IP); [contradiction|].
  unfold Rewriting.parse_tcphdr, sizeof_tcphdr. cbv zeta.
  split; intros Hfit;
    destruct (Nat.ltb_spec (data_end ctx) (pos nh1 + 20)); try lia.
  - apply port_lowered_intro. lia.
  - rewrite set_mem_same. reflexivity.
Qed.

Lemma port_rewrite_falls_through_witness :
  port_lowered_at (ctx_of 0 arp_frame)
                  (Rewriting.xdp_port_rewrite_func (ctx_of 0 arp_frame)) 14.
Proof.
  apply (proj1 (port_rewrite_falls_through (ctx_of 0 arp_frame) 0x0806
                  (mk_cursor 14)
                  ltac:(split; vm_compute; lia) eq_refl
                  ltac:(discriminate) ltac:(discriminate))).
  vm_compute. lia.
Defined.

Lemma port_rewrite_on_ip_witness :
  port_lowered_at (ctx_of 0 tcp_frame)
                  (Rewriting.xdp_port_rewrite_func (ctx_of 0 tcp_frame)) 34.
Proof.
  apply (proj1 (port_rewrite_on_ip (ctx_of 0 tcp_frame) ETH_P_IP
                  (mk_cursor 14) IPPROTO_TCP (mk_cursor 34)
                  ltac:(split; vm_compute; lia) eq_refl
                  (or_introl (conj eq_refl eq_refl)))).
  left. split; [reflexivity|]. vm_compute. lia.
Defined.

(** ** Address swaps *)

Lemma nth_write_read m m' off q n i :
  (off + n <= length m)%nat ->
  nth i (write_bytes m off (read_bytes m' q n)) x00
  = if ((off <=? i) && (i <? off + n))%nat
    then nth (q + (i - off)) m' x00 else nth i m x00.
Proof.
  intros H.
  destruct (Nat.leb_spec off i); destruct (Nat.ltb_spec i (off + n)); cbn [andb].
  - rewrite nth_write_bytes_in by (rewrite length_read_bytes; lia).
    apply nth_read_bytes. lia.
  - apply nth_write_bytes_other. rewrite length_read_bytes. lia.
  - apply nth_write_bytes_other. rewrite length_read_bytes. lia.
  - apply nth_write_bytes_other. rewrite length_read_bytes. lia.
Qed.

Lemma list_eq_nth (l l' : list byte) :
  length l = length l' ->
  (forall i, (i < length l)%nat -> nth i l x00 = nth i l' x00) -> l = l'.
Proof. intros H1 H2. apply nth_ext with (d := x00) (d' := x00); assumption. Qed.

Lemma length_swap_mac m eth :
  length (Solutions.swap_src_dst_mac m eth) = length m.
Proof.
  unfold Solutions.swap_src_dst_mac. rewrite !length_write_bytes. reflexivity.
Qed.

Lemma nth_swap_mac m eth i :
  (eth + 12 <= length m)%nat ->
  nth i (Solutions.swap_src_dst_mac m eth) x00
  = if ((eth <=? i) && (i <? eth + 6))%nat then nth (i + 6) m x00
    else if ((eth + 6 <=? i) && (i <? eth + 12))%nat then nth (i - 6) m x00
         else nth i m x00.
Proof.
  intros H. unfold Solutions.swap_src_dst_mac, ETH_ALEN. cbv zeta.
  rewrite nth_write_read by (rewrite length_write_bytes; lia).
  destruct (Nat.leb_spec eth i); destruct (Nat.ltb_spec i (eth + 6)); cbn [andb].
  - f_equal. lia.
  - rewrite nth_write_read by lia.
    destruct (Nat.leb_spec (eth + 6) i); destruct (Nat.ltb_spec i (eth + 6 + 6));
      destruct (Nat.ltb_spec i (eth + 12)); cbn [andb]; try lia;
      try reflexivity. f_equal. lia.
  - rewrite nth_write_read by lia.
    destruct (Nat.leb_spec (eth + 6) i); try lia. reflexivity.
  - lia.
Qed.

(** [swap_src_dst_mac] exchanges the two 6-byte addresses of the Ethernet
    header, leaves every other byte alone, and applied twice gives back
    the memory it started from. *)
Theorem swap_mac_exchanges : forall m eth,
  (eth + 12 <= length m)%nat ->
  let m' := Solutions.swap_src_dst_mac m eth in
  read_bytes m' eth 6 = read_bytes m (eth + 6) 6
  /\ read_bytes m' (eth + 6) 6 = read_bytes m eth 6
  /\ same_outside eth (eth + 12) m m'
  /\ Solutions.swap_src_dst_mac m' eth = m.
Proof.
  intros m eth H m'. subst m'. repeat split.
  - apply read_bytes_nth; [apply length_read_bytes|]. intros i Hi.
    rewrite nth_swap_mac by lia. rewrite nth_read_bytes by lia.
    destruct (Nat.leb_spec eth (eth + i));
      destruct (Nat.ltb_spec (eth + i) (eth + 6)); cbn [andb]; try lia.
    f_equal. lia.
  - apply read_bytes_nth; [apply length_read_bytes|]. intros i Hi.
    rewrite nth_swap_mac by lia. rewrite nth_read_bytes by lia.
    destruct (Nat.leb_spec eth (eth + 6 + i));
      destruct (Nat.ltb_spec (eth + 6 + i) (eth + 6));
      destruct (Nat.leb_spec (eth + 6) (eth + 6 + i));
      destruct (Nat.ltb_spec (eth + 6 + i) (eth + 12)); cbn [andb]; try lia.
    f_equal. lia.
  - intros i Hi. rewrite nth_swap_mac by lia.
    destruct (Nat.leb_spec eth i); destruct (Nat.ltb_spec i (eth + 6));
      destruct (Nat.leb_spec (eth + 6) i); destruct (Nat.ltb_spec i (eth + 12));
      cbn [andb]; try lia; reflexivity.
  - apply list_eq_nth; [rewrite !length_swap_mac; reflexivity|].
    intros i _. rewrite nth_swap_mac by (rewrite length_swap_mac; lia).
    destruct (Nat.leb_spec eth i); destruct (Nat.ltb_spec i (eth + 6));
      destruct (Nat.leb_spec (eth + 6) i); destruct (Nat.ltb_spec i (eth + 12));
      cbn [andb]; try lia;
      rewrite nth_swap_mac by lia.
    + destruct (Nat.leb_spec eth (i + 6));
        destruct (Nat.ltb_spec (i + 6) (eth + 6));
        destruct (Nat.leb_spec (eth + 6) (i + 6));
        destruct (Nat.ltb_spec (i + 6) (eth + 12)); cbn [andb]; try lia.
      f_equal. lia.
    + destruct (Nat.leb_spec eth (i - 6));
        destruct (Nat.ltb_spec (i - 6) (eth + 6)); cbn [andb]; try lia.
      f_equal. lia.
    + destruct (Nat.leb_spec eth i); destruct (Nat.ltb_spec i (eth + 6));
        destruct (Nat.leb_spec (eth + 6) i); destruct (Nat.ltb_spec i (eth + 12));
        cbn [andb]; try lia; reflexivity.
    + destruct (Nat.leb_spec eth i); destruct (Nat.ltb_spec i (eth + 6));
        destruct (Nat.leb_spec (eth + 6) i); destruct (Nat.ltb_spec i (eth + 12));
        cbn [andb]; try lia; reflexivity.
Qed.

Lemma swap_mac_exchanges_witness :
  read_bytes (Solutions.swap_src_dst_mac (bytes_of (eth_ipv4_header 64)) 0) 0 6
  = bytes_of [2; 0; 0; 0; 0; 2].
Proof.
  destruct (swap_mac_exchanges (bytes_of (eth_ipv4_header 64)) 0
              ltac:(vm_compute; lia)) as (E & _).
  rewrite E. vm_compute. reflexivity.
Defined.

Lemma nth_swap_ipv6 m ip i :
  (ip + 40 <= length m)%nat ->
  nth i (Solutions.swap_src_dst_ipv6 m ip) x00
  = if ((ip + 8 <=? i) && (i <? ip + 24))%nat then nth (i + 16) m x00
    else if ((ip + 24 <=? i) && (i <? ip + 40))%nat then nth (i - 16) m x00
         else nth i m x00.
Proof.
  intros H. unfold Solutions.swap_src_dst_ipv6. cbv zeta.
  rewrite nth_write_read by (rewrite length_write_bytes; lia).
  destruct (Nat.leb_spec (ip + 24) i); destruct (Nat.ltb_spec i (ip + 24 + 16));
    cbn [andb].
  - destruct (Nat.leb_spec (ip + 8) i); destruct (Nat.ltb_spec i (ip + 24));
      destruct (Nat.ltb_spec i (ip + 40)); cbn [andb]; try lia.
    f_equal. lia.
  - rewrite nth_write_read by lia.
    destruct (Nat.leb_spec (ip + 8) i); destruct (Nat.ltb_spec i (ip + 8 + 16));
      destruct (Nat.ltb_spec i (ip + 24)); destruct (Nat.ltb_spec i (ip + 40));
      cbn [andb]; try lia; reflexivity.
  - rewrite nth_write_read by lia.
    destruct (Nat.leb_spec (ip + 8) i); destruct (Nat.ltb_spec i (ip + 8 + 16));
      destruct (Nat.ltb_spec i (ip + 24)); cbn [andb]; try lia;
      try reflexivity.
    f_equal. lia.
  - lia.
Qed.

Lemma length_swap_ipv6 m ip :
  length (Solutions.swap_src_dst_ipv6 m ip) = length m.
Proof.
  unfold Solutions.swap_src_dst_ipv6. rewrite !length_write_bytes. reflexivity.
Qed.

Ltac split_ranges :=
  repeat match goal with
         | |- context [(?a <=? ?b)%nat] => destruct (Nat.leb_spec a b)
         | |- context [(?a <? ?b)%nat] => destruct (Nat.ltb_spec a b)
         end; cbn [andb]; try lia.

(** [swap_src_dst_ipv6] exchanges the source and destination address of
    the IPv6 header, leaves every other byte alone, and applied twice
    gives back the memory it started from. *)
Theorem swap_ipv6_exchanges : forall m ip,
  (ip + sizeof_ipv6hdr <= length m)%nat ->
  let m' := Solutions.swap_src_dst_ipv6 m ip in
  read_bytes m' (ip + 8) 16 = read_bytes m (ip + 24) 16
  /\ read_bytes m' (ip + 24) 16 = read_bytes m (ip + 8) 16
  /\ same_outside (ip + 8) (ip + 40) m m'
  /\ Solutions.swap_src_dst_ipv6 m' ip = m.
Proof.
  intros m ip H m'. subst m'. unfold sizeof_ipv6hdr in H. repeat split.
  - apply read_bytes_nth; [apply length_read_bytes|]. intros i Hi.
    rewrite nth_swap_ipv6 by lia. rewrite nth_read_bytes by lia.
    split_ranges. f_equal. lia.
  - apply read_bytes_nth; [apply length_read_bytes|]. intros i Hi.
    rewrite nth_swap_ipv6 by lia. rewrite nth_read_bytes by lia.
    split_ranges. f_equal. lia.
  - intros i Hi. rewrite nth_swap_ipv6 by lia. split_ranges; reflexivity.
  - apply list_eq_nth; [rewrite !length_swap_ipv6; reflexivity|].
    intros i _. rewrite nth_swap_ipv6 by (rewrite length_swap_ipv6; lia).
    destruct (Nat.leb_spec (ip + 8) i); destruct (Nat.ltb_spec i (ip + 24));
      destruct (Nat.leb_spec (ip + 24) i); destruct (Nat.ltb_spec i (ip + 40));
      cbn [andb]; try lia;
      rewrite nth_swap_ipv6 by lia; split_ranges;
      try reflexivity; f_equal; lia.
Qed.

Lemma swap_ipv6_exchanges_witness :
  read_bytes (Solutions.swap_src_dst_ipv6 (bytes_of (eth_ipv6_header 64)) 14)
             22 16
  = read_bytes (bytes_of (eth_ipv6_header 64)) 38 16.
Proof.
  apply (proj1 (swap_ipv6_exchanges (bytes_of (eth_ipv6_header 64)) 14
                  ltac:(vm_compute; lia))).
Defined.

Lemma nth_store16_load16 m m' p q i :
  (p + 2 <= length m)%nat ->
  nth i (store16 m p (load16 m' q)) x00
  = if ((p <=? i) && (i <? p + 2))%nat
    then nth (q + (i - p)) m' x00 else nth i m x00.
Proof.
  intros H. split_ranges.
  - assert (i = p \/ i = p + 1)%nat as [->| ->] by lia.
    + rewrite nth_store16_lo by lia. rewrite byte_of_Z_load16_lo.
      f_equal. lia.
    + rewrite nth_store16_hi by lia. rewrite byte_of_Z_load16_hi.
      f_equal. lia.
  - apply nth_store16_other. lia.
  - apply nth_store16_other. lia.
Qed.

Lemma store32_load32 m m' p q :
  store32 m p (load32 m' q)
  = store16 (store16 m p (load16 m' q)) (p + 2) (load16 m' (q + 2)).
Proof.
  unfold store32, load32.
  pose proof (load16_range m' q) as R.
  assert ((load16 m' q + 65536 * load16 m' (q + 2)) / 65536
          = load16 m' (q + 2)) as ->
      by (symmetry; apply Z.div_unique with (load16 m' q); lia).
  f_equal. unfold store16, store8. f_equal; [f_equal|]; apply byte_of_Z_mod.
  - replace (load16 m' q + 65536 * load16 m' (q + 2))
      with (load16 m' q + (256 * load16 m' (q + 2)) * 256) by lia.
    apply Z.mod_add. lia.
  - assert ((load16 m' q + 65536 * load16 m' (q + 2)) / 256
            = load16 m' q / 256 + load16 m' (q + 2) * 256) as ->.
    { replace (load16 m' q + 65536 * load16 m' (q + 2))
        with (load16 m' q + (256 * load16 m' (q + 2)) * 256) by lia.
      rewrite Z.div_add by lia. lia. }
    apply Z.mod_add. lia.
Qed.

Lemma nth_store32_load32 m m' p q i :
  (p + 4 <= length m)%nat ->
  nth i (store32 m p (load32 m' q)) x00
  = if ((p <=? i) && (i <? p + 4))%nat
    then nth (q + (i - p)) m' x00 else nth i m x00.
Proof.
  intros H. rewrite store32_load32.
  rewrite nth_store16_load16 by (rewrite length_store16; lia).
  destruct (Nat.leb_spec (p + 2) i); destruct (Nat.ltb_spec i (p + 2 + 2));
    cbn [andb].
  - split_ranges. f_equal. lia.
  - rewrite nth_store16_load16 by lia. split_ranges. reflexivity.
  - rewrite nth_store16_load16 by lia. split_ranges; reflexivity.
  - lia.
Qed.

Lemma load32_shift m m' p q :
  (forall k, (k < 4)%nat -> nth (p + k) m' x00 = nth (q + k) m x00) ->
  load32 m' p = load32 m q.
Proof.
  intros H. unfold load32, load16, load8.
  rewrite <- (Nat.add_0_r p) at 1. rewrite (H 0%nat) by lia.
  rewrite (H 1%nat) by lia.
  replace (p + 2)%nat with (p + 2 + 0)%nat at 1 by lia.
  replace (p + 2 + 0)%nat with (p + 2)%nat by lia.
  replace (p + 2 + 1)%nat with (p + 3)%nat by lia.
  rewrite (H 2%nat), (H 3%nat) by lia.
  rewrite Nat.add_0_r.
  replace (q + 2 + 1)%nat with (q + 3)%nat by lia. reflexivity.
Qed.

Lemma nth_swap_ipv4 m ip i :
  (ip + 20 <= length m)%nat ->
  nth i (Solutions.swap_src_dst_ipv4 m ip) x00
  = if ((ip + 12 <=? i) && (i <? ip + 16))%nat then nth (i + 4) m x00
    else if ((ip + 16 <=? i) && (i <? ip + 20))%nat then nth (i - 4) m x00
         else nth i m x00.
Proof.
  intros H. unfold Solutions.swap_src_dst_ipv4, ip_saddr, ip_daddr. cbv zeta.
  rewrite nth_store32_load32 by (rewrite length_store32; lia).
  destruct (Nat.leb_spec (ip + 16) i); destruct (Nat.ltb_spec i (ip + 16 + 4));
    cbn [andb].
  - split_ranges. f_equal. lia.
  - rewrite nth_store32_load32 by lia. split_ranges; reflexivity.
  - rewrite nth_store32_load32 by lia. split_ranges; try reflexivity.
    f_equal. lia.
  - lia.
Qed.

Lemma length_swap_ipv4 m ip :
  length (Solutions.swap_src_dst_ipv4 m ip) = length m.
Proof.
  unfold Solutions.swap_src_dst_ipv4. rewrite !length_store32. reflexivity.
Qed.

(** [swap_src_dst_ipv4] exchanges [saddr] and [daddr] of the IPv4 header,
    leaves every other byte alone, and applied twice gives back the
    memory it started from. *)
Theorem swap_ipv4_exchanges : forall m ip,
  (ip + sizeof_iphdr <= length m)%nat ->
  let m' := Solutions.swap_src_dst_ipv4 m ip in
  ip_saddr m' ip = ip_daddr m ip
  /\ ip_daddr m' ip = ip_saddr m ip
  /\ same_outside (ip + 12) (ip + 20) m m'
  /\ Solutions.swap_src_dst_ipv4 m' ip = m.
Proof.
  intros m ip H m'. subst m'. unfold sizeof_iphdr in H. repeat split.
  - unfold ip_saddr, ip_daddr. apply load32_shift. intros k Hk.
    rewrite nth_swap_ipv4 by lia. split_ranges. f_equal. lia.
  - unfold ip_saddr, ip_daddr. apply load32_shift. intros k Hk.
    rewrite nth_swap_ipv4 by lia. split_ranges. f_equal. lia.
  - intros i Hi. rewrite nth_swap_ipv4 by lia. split_ranges; reflexivity.
  - apply list_eq_nth; [rewrite !length_swap_ipv4; reflexivity|].
    intros i _. rewrite nth_swap_ipv4 by (rewrite length_swap_ipv4; lia).
    destruct (Nat.leb_spec (ip + 12) i); destruct (Nat.ltb_spec i (ip + 16));
      destruct (Nat.leb_spec (ip + 16) i); destruct (Nat.ltb_spec i (ip + 20));
      cbn [andb]; try lia;
      rewrite nth_swap_ipv4 by lia; split_ranges;
      try reflexivity; f_equal; lia.
Qed.

Lemma swap_ipv4_exchanges_witness :
  ip_saddr (Solutions.swap_src_dst_ipv4 (bytes_of (eth_ipv4_header 64)) 14) 14
  = ip_daddr (bytes_of (eth_ipv4_header 64)) 14.
Proof.
  apply (proj1 (swap_ipv4_exchanges (bytes_of (eth_ipv4_header 64)) 14
                  ltac:(vm_compute; lia))).
Defined.

(** ** One's-complement addition *)

Lemma csum16_add_cases a b :
  is_u16 a -> is_u16 b ->
  csum16_add a b = if a + b <? 65536 then a + b else a + b - 65535.
Proof.
  intros Ha Hb. rewrite csum16_add_end_around by assumption.
  apply add_end_around_cases; assumption.
Qed.

Lemma csum16_add_u16 a b : is_u16 a -> is_u16 b -> is_u16 (csum16_add a b).
Proof.
  intros Ha Hb. rewrite csum16_add_cases by assumption.
  unfold is_u16 in *. destruct (Z.ltb_spec (a + b) 65536); lia.
Qed.

(** [csum16_add] is addition of 16-bit one's-complement numbers: its
    result is again 16 bits wide and congruent to the plain sum modulo
    0xFFFF, it is commutative and associative, 0 is neutral, and the
    result is 0 only when both operands are. *)
Theorem csum16_add_ones_complement : forall a b c,
  is_u16 a -> is_u16 b -> is_u16 c ->
  is_u16 (csum16_add a b)
  /\ (csum16_add a b) mod 65535 = (a + b) mod 65535
  /\ csum16_add a b = csum16_add b a
  /\ csum16_add (csum16_add a b) c = csum16_add a (csum16_add b c)
  /\ csum16_add a 0 = a
  /\ (csum16_add a b = 0 <-> a = 0 /\ b = 0).
Proof.
  intros a b c Ha Hb Hc.
  pose proof (csum16_add_u16 a b Ha Hb) as Hab.
  pose proof (csum16_add_u16 b c Hb Hc) as Hbc.
  split; [exact Hab|]. split.
  { rewrite csum16_add_cases by assumption.
    destruct (Z.ltb_spec (a + b) 65536); [reflexivity|].
    replace (a + b) with (a + b - 65535 + 1 * 65535) at 2 by lia.
    rewrite Z.mod_add by lia. reflexivity. }
  split.
  { rewrite !csum16_add_cases by assumption.
    rewrite (Z.add_comm b a). reflexivity. }
  split.
  { rewrite (csum16_add_cases (csum16_add a b) c) by assumption.
    rewrite (csum16_add_cases a (csum16_add b c)) by assumption.
    rewrite (csum16_add_cases a b), (csum16_add_cases b c) by assumption.
    unfold is_u16 in *.
    destruct (Z.ltb_spec (a + b) 65536); destruct (Z.ltb_spec (b + c) 65536);
      repeat match goal with
             | |- context [?x <? ?y] => destruct (Z.ltb_spec x y)
             end; lia. }
  split.
  { rewrite csum16_add_cases by (try assumption; unfold is_u16; lia).
    unfold is_u16 in *. destruct (Z.ltb_spec (a + 0) 65536); lia. }
  rewrite csum16_add_cases by assumption. unfold is_u16 in *.
  destruct (Z.ltb_spec (a + b) 65536); lia.
Qed.

Lemma csum16_add_ones_complement_witness :
  csum16_add 0xFFFF 1 = 1 /\ csum16_add 1 0xFFFF = 1.
Proof.
  destruct (csum16_add_ones_complement 0xFFFF 1 0
              ltac:(unfold is_u16; lia) ltac:(unfold is_u16; lia)
              ltac:(unfold is_u16; lia)) as (_ & _ & C & _).
  split; [reflexivity | rewrite <- C; reflexivity].
Defined.

Lemma csum_patch_matches_full_witness :
  csum_patch (csum_full [8; 0x3412; 0x0700]) 8 0 = csum_full [0; 0x3412; 0x0700].
Proof.
  apply (csum_patch_matches_full [] [0x3412; 0x0700] 8 0).
  - constructor.
  - repeat constructor; unfold is_u16; lia.
  - unfold is_u16; lia.
  - unfold is_u16; lia.
  - vm_compute. reflexivity.
Defined.

(** ** TTL decrement *)

Lemma words_at_app a : forall m p b,
  words_at m p (a + b) = words_at m p a ++ words_at m (p + 2 * a) b.
Proof.
  induction a as [|a IH]; intros m p b; simpl.
  - f_equal. lia.
  - f_equal. rewrite IH. do 2 f_equal. lia.
Qed.

Lemma words_at_ipv4_split m p k :
  words_at m p (4 + (2 + k))
  = words_at m p 4
    ++ [load16 m (p + 8); load16 m (p + 10)] ++ words_at m (p + 12) k.
Proof.
  rewrite words_at_app. f_equal.
  rewrite words_at_app. f_equal.
  - cbn [words_at].
    replace (p + 2 * 4)%nat with (p + 8)%nat by lia.
    replace (p + 8 + 2)%nat with (p + 10)%nat by lia. reflexivity.
  - f_equal. lia.
Qed.

Lemma words_at_ext n : forall m m' p,
  (forall i, (p <= i < p + 2 * n)%nat -> nth i m' x00 = nth i m x00) ->
  words_at m' p n = words_at m p n.
Proof.
  induction n as [|n IH]; intros m m' p H; simpl; [reflexivity|].
  f_equal.
  - apply load16_ext; apply H; lia.
  - apply IH. intros i Hi. apply H. lia.
Qed.

Lemma words_at_u16 n : forall m p, Forall is_u16 (words_at m p n).
Proof.
  induction n as [|n IH]; intros m p; simpl; constructor.
  - apply load16_range.
  - apply IH.
Qed.

Lemma ones_norm_full t :
  0 <= t -> (ones_norm t = 65535 <-> 0 < t /\ t mod 65535 = 0).
Proof.
  intros Ht. unfold ones_norm.
  destruct (Z.eqb_spec t 0) as [->|Hn]; [split; [lia | intros [? _]; lia]|].
  pose proof (Z.div_mod (t - 1) 65535 ltac:(lia)) as E.
  pose proof (Z.mod_pos_bound (t - 1) 65535 ltac:(lia)) as R.
  split.
  - intros H. split; [lia|].
    symmetry. apply Z.mod_unique with ((t - 1) / 65535 + 1); lia.
  - intros [_ H].
    pose proof (Z.div_mod t 65535 ltac:(lia)) as E'.
    assert ((t - 1) mod 65535 = 65534) as ->; [|lia].
    symmetry. apply Z.mod_unique with (t / 65535 - 1); lia.
Qed.

Lemma ip_decrease_ttl_bytes m iph :
  (iph + 12 <= length m)%nat -> 1 <= ip_ttl m iph ->
  let m' := snd (ip_decrease_ttl m iph) in
  length m' = length m
  /\ load16 m' (iph + 8) = load16 m (iph + 8) - 1
  /\ (load16 m' (iph + 10) = load16 m (iph + 10) + 1
      \/ load16 m' (iph + 10) = load16 m (iph + 10) + 1 - 65535)
  /\ (forall i, i <> (iph + 8)%nat -> (i < iph + 10 \/ iph + 12 <= i)%nat ->
                nth i m' x00 = nth i m x00).
Proof.
  intros Hlen Httl m'. subst m'. unfold ip_decrease_ttl. cbv zeta. cbn [snd].
  unfold ip_ttl, ip_check in *.
  pose proof (load8_range m (iph + 8)) as Rt.
  pose proof (load16_range m (iph + 10)) as Rc.
  rewrite (load8_ext (store16 m (iph + 10) _) m (iph + 8))
    by (apply nth_store16_other; lia).
  split; [rewrite length_store8, length_store16; reflexivity|].
  split.
  { unfold load16.
    rewrite load8_store8_same by (rewrite length_store16; lia).
    rewrite (load8_ext _ m (iph + 8 + 1))
      by (rewrite nth_store8_other by lia; apply nth_store16_other; lia).
    unfold to_u8. rewrite Z.mod_mod by lia.
    rewrite Z.mod_small by lia. lia. }
  split.
  { rewrite (load16_ext _ (store16 m (iph + 10)
               (to_u16 (to_u32 (load16 m (iph + 10) + bpf_htons 256)
                  + (if 65535 <=? to_u32 (load16 m (iph + 10) + bpf_htons 256)
                     then 1 else 0)))) (iph + 10))
      by (apply nth_store8_other; lia).
    rewrite load16_store16_same by lia.
    change (bpf_htons 256) with 1.
    unfold to_u16, to_u32. rewrite Z.mod_mod by lia.
    rewrite (Z.mod_small (load16 m (iph + 10) + 1) 4294967296) by lia.
    destruct (Z.leb_spec 65535 (load16 m (iph + 10) + 1)).
    - right. symmetry. apply Z.mod_unique with 1; lia.
    - left. rewrite Z.add_0_r. apply Z.mod_small. lia. }
  intros i Hne Hi. rewrite nth_store8_other by lia.
  apply nth_store16_other. lia.
Qed.

Lemma ip_decrease_ttl_sum m iph n :
  (6 <= n)%nat -> (iph + 2 * n <= length m)%nat ->
  1 < ip_ttl m iph ->
  ones_sum (words_at m iph n) = 65535 ->
  ones_sum (words_at (snd (ip_decrease_ttl m iph)) iph n) = 65535.
Proof.
  intros Hn Hlen Httl Hsum.
  destruct (ip_decrease_ttl_bytes m iph ltac:(lia) ltac:(lia))
    as (Hl & Hw & Hc & Hsame).
  set (m' := snd (ip_decrease_ttl m iph)) in *.
  pose proof (load8_range m (iph + 8)) as Rt. unfold ip_ttl in *.
  replace n with (4 + (2 + (n - 6)))%nat in * by lia.
  rewrite !words_at_ipv4_split in *.
  rewrite (words_at_ext 4 m m' iph) by (intros i Hi; apply Hsame; lia).
  rewrite (words_at_ext (n - 6) m m' (iph + 12))
    by (intros i Hi; apply Hsame; lia).
  set (A := words_at m iph 4) in *.
  set (B := words_at m (iph + 12) (n - 6)) in *.
  assert (Forall is_u16 A) as FA by apply words_at_u16.
  assert (Forall is_u16 B) as FB by apply words_at_u16.
  pose proof (sum_words_nonneg A FA) as NA.
  pose proof (sum_words_nonneg B FB) as NB.
  pose proof (load16_range m (iph + 8)) as R8.
  pose proof (load16_range m (iph + 10)) as R10.
  pose proof (load16_range m' (iph + 8)) as R8'.
  pose proof (load16_range m' (iph + 10)) as R10'.
  rewrite ones_sum_norm in *
    by (apply Forall_app; split; [assumption|];
        repeat constructor; try apply load16_range; assumption).
  rewrite !sum_words_app in *. cbn [sum_words fold_right] in *.
  fold (sum_words B) in *.
  assert (1 <= load16 m' (iph + 8)) as Hpos.
  { rewrite Hw. unfold load16. pose proof (load8_range m (iph + 8 + 1)). lia. }
  apply ones_norm_full in Hsum; [|lia]. destruct Hsum as [Hp Hz].
  apply ones_norm_full; [lia|]. split; [lia|].
  match type of Hz with ?t mod _ = _ =>
    destruct Hc as [Hc|Hc]; rewrite Hw, Hc;
      [ match goal with |- ?u mod _ = _ =>
          replace u with t by lia end; exact Hz
      | match goal with |- ?u mod _ = _ =>
          replace u with (t + (-1) * 65535) by lia end;
        rewrite Z.mod_add by lia; exact Hz ]
  end.
Qed.

(** [ip_decrease_ttl] on a header of [n] 16-bit words whose checksum
    verifies (the one's-complement sum of all its words is 0xFFFF) and
    whose TTL is above 1: the TTL, returned and stored, is one lower, the
    checksum still verifies, and only the TTL byte and the two checksum
    bytes are written. *)
Theorem ip_decrease_ttl_keeps_checksum : forall m iph n,
  (6 <= n)%nat -> (iph + 2 * n <= length m)%nat ->
  1 < ip_ttl m iph ->
  ones_sum (words_at m iph n) = 65535 ->
  let ttl' := fst (ip_decrease_ttl m iph) in
  let m' := snd (ip_decrease_ttl m iph) in
  ttl' = ip_ttl m iph - 1
  /\ ip_ttl m' iph = ip_ttl m iph - 1
  /\ ones_sum (words_at m' iph n) = 65535
  /\ (forall i, i <> (iph + 8)%nat -> (i < iph + 10 \/ iph + 12 <= i)%nat ->
                nth i m' x00 = nth i m x00).
Proof.
  intros m iph n Hn Hlen Httl Hsum ttl' m'.
  destruct (ip_decrease_ttl_bytes m iph ltac:(lia)
              ltac:(unfold ip_ttl in *; lia)) as (_ & _ & _ & Hsame).
  pose proof (load8_range m (iph + 8)) as Rt.
  split.
  { subst ttl'. unfold ip_decrease_ttl. cbv zeta. cbn [fst].
    unfold ip_ttl in *.
    rewrite (load8_ext _ m) by (apply nth_store16_other; lia).
    unfold to_u8. apply Z.mod_small. lia. }
  split.
  { subst m'. unfold ip_decrease_ttl. cbv zeta. cbn [snd]. unfold ip_ttl in *.
    rewrite load8_store8_same by (rewrite length_store16; lia).
    rewrite (load8_ext _ m) by (apply nth_store16_other; lia).
    unfold to_u8. rewrite Z.mod_mod by lia. apply Z.mod_small. lia. }
  split; [|exact Hsame].
  subst m'. apply ip_decrease_ttl_sum; assumption.
Qed.

Lemma ip_decrease_ttl_keeps_checksum_witness :
  fst (ip_decrease_ttl (bytes_of checked_ipv4_header) 0) = 63
  /\ ones_sum (words_at (snd (ip_decrease_ttl (bytes_of checked_ipv4_header) 0))
                        0 10) = 65535.
Proof.
  destruct (ip_decrease_ttl_keeps_checksum (bytes_of checked_ipv4_header) 0 10
              ltac:(lia) ltac:(vm_compute; lia) ltac:(vm_compute; reflexivity)
              ltac:(vm_compute; reflexivity)) as (T & _ & S & _).
  split; [exact T | exact S].
Defined.

(** ** The echo server *)

(** the memory [xdp_icmp_echo_func] leaves once the addresses of the IP
    header are exchanged: MAC swap, type patch, checksum patch *)
Lemma echo_ipv4_runs ctx nh1 nh2 nh3 :
  parse_ethhdr (mem ctx) (mk_cursor (data ctx)) (data_end ctx) = (ETH_P_IP, nh1) ->
  parse_iphdr (mem ctx) nh1 (data_end ctx) = (IPPROTO_ICMP, nh2) ->
  parse_icmphdr (mem ctx) nh2 (data_end ctx) = (ICMP_ECHO, nh3) ->
  xdp_icmp_echo_func ctx
  = let m2 := swap_src_dst_mac (swap_src_dst_ipv4 (mem ctx) (pos nh1)) (data ctx) in
    let m3 := store8 m2 (pos nh2) ICMP_ECHOREPLY in
    (XDP_TX,
     set_mem ctx (store16 m3 (pos nh2 + 2)
                    (csum_patch (icmp_checksum m3 (pos nh2))
                                (load16 m2 (pos nh2)) (load16 m3 (pos nh2)))),
     [EvStats XDP_TX]).
Proof.
  intros H1 H2 H3. unfold xdp_icmp_echo_func. cbv zeta.
  rewrite H1. cbn iota. change (ETH_P_IP =? ETH_P_IP) with true. cbn iota.
  rewrite H2. cbn iota. change (negb (IPPROTO_ICMP =? IPPROTO_ICMP)) with false.
  cbn iota. rewrite H3. cbn iota.
  change (true && (ICMP_ECHO =? ICMP_ECHO)) with true. cbn iota.
  reflexivity.
Qed.

Lemma echo_ipv6_runs ctx nh1 nh2 nh3 :
  parse_ethhdr (mem ctx) (mk_cursor (data ctx)) (data_end ctx) = (ETH_P_IPV6, nh1) ->
  parse_ip6hdr (mem ctx) nh1 (data_end ctx) = (IPPROTO_ICMPV6, nh2) ->
  parse_icmphdr (mem ctx) nh2 (data_end ctx) = (ICMPV6_ECHO_REQUEST, nh3) ->
  xdp_icmp_echo_func ctx
  = let m2 := swap_src_dst_mac (swap_src_dst_ipv6 (mem ctx) (pos nh1)) (data ctx) in
    let m3 := store8 m2 (pos nh2) ICMPV6_ECHO_REPLY in
    (XDP_TX,
     set_mem ctx (store16 m3 (pos nh2 + 2)
                    (csum_patch (icmp_checksum m3 (pos nh2))
                                (load16 m2 (pos nh2)) (load16 m3 (pos nh2)))),
     [EvStats XDP_TX]).
Proof.
  intros H1 H2 H3. unfold xdp_icmp_echo_func. cbv zeta.
  rewrite H1. cbn iota. change (ETH_P_IPV6 =? ETH_P_IP) with false. cbn iota.
  change (ETH_P_IPV6 =? ETH_P_IPV6) with true. cbn iota.
  rewrite H2. cbn iota.
  change (negb (IPPROTO_ICMPV6 =? IPPROTO_ICMPV6)) with false.
  cbn iota. rewrite H3. cbn iota.
  change (false && (ICMPV6_ECHO_REQUEST =? ICMP_ECHO)) with false. cbn iota.
  change (true && (ICMPV6_ECHO_REQUEST =? ICMPV6_ECHO_REQUEST)) with true.
  cbn iota. reflexivity.
Qed.

(** the type and checksum patch on a memory [m2] *)
Lemma echo_patch_bytes m2 q reply :
  (q + 4 <= length m2)%nat -> 0 <= reply < 256 ->
  let m3 := store8 m2 q reply in
  let m4 := store16 m3 (q + 2)
              (csum_patch (icmp_checksum m3 q) (load16 m2 q) (load16 m3 q)) in
  length m4 = length m2
  /\ load8 m4 q = reply
  /\ load16 m4 q = load16 m2 q - load8 m2 q + reply
  /\ load16 m4 (q + 2)
     = csum_patch (load16 m2 (q + 2)) (load16 m2 q)
                  (load16 m2 q - load8 m2 q + reply)
  /\ (forall i, i <> q -> (i < q + 2 \/ q + 4 <= i)%nat ->
                nth i m4 x00 = nth i m2 x00).
Proof.
  intros Hlen Hr m3 m4.
  assert (load16 m3 q = load16 m2 q - load8 m2 q + reply) as E3.
  { subst m3. unfold load16. rewrite load8_store8_same by lia.
    rewrite (load8_ext _ m2 (q + 1)) by (apply nth_store8_other; lia).
    rewrite Z.mod_small by lia. lia. }
  assert (icmp_checksum m3 q = load16 m2 (q + 2)) as Ec.
  { unfold icmp_checksum. subst m3.
    apply load16_ext; apply nth_store8_other; lia. }
  assert (is_u16 (csum_patch (icmp_checksum m3 q) (load16 m2 q) (load16 m3 q)))
    as Hu.
  { unfold csum_patch, to_u16, is_u16. apply Z.mod_pos_bound. lia. }
  split; [subst m4 m3; rewrite length_store16, length_store8; reflexivity|].
  split.
  { subst m4. rewrite (load8_ext _ m3 q) by (apply nth_store16_other; lia).
    subst m3. rewrite load8_store8_same by lia.
    apply Z.mod_small. lia. }
  split.
  { subst m4. rewrite (load16_ext _ m3 q) by (apply nth_store16_other; lia).
    exact E3. }
  split.
  { subst m4. rewrite load16_store16_same
      by (subst m3; rewrite length_store8; lia).
    rewrite Z.mod_small by exact Hu. rewrite Ec, E3. reflexivity. }
  intros i Hne Hi. subst m4 m3.
  rewrite nth_store16_other by lia. apply nth_store8_other. lia.
Qed.

Lemma parse_ethhdr_ok_bounds m nh de v nh1 :
  parse_ethhdr m nh de = (v, nh1) -> v <> -1 ->
  (pos nh + sizeof_ethhdr <= pos nh1 <= de)%nat.
Proof.
  intros H Hv.
  destruct (le_lt_dec (pos nh + sizeof_ethhdr) de) as [Hf|Hs].
  - destruct (parse_ethhdr_fits m nh de ltac:(lia)) as (k & _ & Hp & Hd & _).
    rewrite H in Hp, Hd. cbn [snd] in Hp, Hd.
    unfold sizeof_ethhdr in *. lia.
  - rewrite parse_ethhdr_short in H by (unfold sizeof_ethhdr in *; lia).
    congruence.
Qed.

Lemma parse_iphdr_ok_bounds m nh de v nh2 :
  parse_iphdr m nh de = (v, nh2) -> v <> -1 ->
  (pos nh + sizeof_iphdr <= de)%nat /\ (pos nh <= pos nh2 <= de)%nat
  /\ v = ip_protocol m (pos nh).
Proof.
  unfold parse_iphdr, sizeof_iphdr. intros H Hv.
  pose proof (ip_ihl_range m (pos nh)) as R.
  destruct (Nat.ltb_spec de (pos nh + 20)); [congruence|].
  destruct (Z.ltb_spec (Z.of_nat de) (Z.of_nat (pos nh) + ip_ihl m (pos nh) * 4));
    [congruence|].
  injection H as <- <-. cbn [pos]. repeat split; lia.
Qed.

Lemma parse_ip6hdr_ok_bounds m nh de v nh2 :
  parse_ip6hdr m nh de = (v, nh2) -> v <> -1 ->
  pos nh2 = (pos nh + sizeof_ipv6hdr)%nat /\ (pos nh2 <= de)%nat
  /\ v = ip6_nexthdr m (pos nh).
Proof.
  unfold parse_ip6hdr, sizeof_ipv6hdr. intros H Hv.
  destruct (Nat.ltb_spec de (pos nh + 40)); [congruence|].
  injection H as <- <-. cbn [pos]. repeat split; lia.
Qed.

Lemma parse_icmphdr_ok_bounds m nh de v nh3 :
  parse_icmphdr m nh de = (v, nh3) -> v <> -1 ->
  (pos nh + sizeof_icmphdr <= de)%nat /\ v = icmp_type m (pos nh).
Proof.
  unfold parse_icmphdr, sizeof_icmphdr. intros H Hv.
  destruct (Nat.ltb_spec de (pos nh + 8)); [congruence|].
  injection H as <- <-. split; [lia | reflexivity].
Qed.

Ltac decide_ranges :=
  repeat match goal with
         | |- context [(?a <=? ?b)%nat] =>
             first [ rewrite (proj2 (Nat.leb_le a b)) by lia
                   | rewrite (proj2 (Nat.leb_gt a b)) by lia ]
         | |- context [(?a <? ?b)%nat] =>
             first [ rewrite (proj2 (Nat.ltb_lt a b)) by lia
                   | rewrite (proj2 (Nat.ltb_ge a b)) by lia ]
         end; cbn [andb].

(** what the echo server leaves in memory for an IPv4 echo request, byte
    by byte *)
Lemma echo_ipv4_memory ctx nh1 nh2 nh3 :
  (data_end ctx <= length (mem ctx))%nat ->
  parse_ethhdr (mem ctx) (mk_cursor (data ctx)) (data_end ctx) = (ETH_P_IP, nh1) ->
  parse_iphdr (mem ctx) nh1 (data_end ctx) = (IPPROTO_ICMP, nh2) ->
  (pos nh1 + sizeof_iphdr <= pos nh2)%nat ->
  parse_icmphdr (mem ctx) nh2 (data_end ctx) = (ICMP_ECHO, nh3) ->
  let m := mem ctx in
  let eth := data ctx in
  let iph := pos nh1 in
  let icmph := pos nh2 in
  (eth + 14 <= iph)%nat /\ (icmph + 8 <= data_end ctx)%nat /\
  exists m',
    xdp_icmp_echo_func ctx = (XDP_TX, set_mem ctx m', [EvStats XDP_TX])
    /\ length m' = length m
    /\ load8 m icmph = ICMP_ECHO
    /\ load8 m' icmph = ICMP_ECHOREPLY
    /\ load16 m' (icmph + 2)
       = csum_patch (load16 m (icmph + 2)) (load16 m icmph)
                    (load16 m icmph - ICMP_ECHO)
    /\ (forall i, i <> icmph -> (i < icmph + 2 \/ icmph + 4 <= i)%nat ->
          nth i m' x00
          = if ((eth <=? i) && (i <? eth + 6))%nat then nth (i + 6) m x00
            else if ((eth + 6 <=? i) && (i <? eth + 12))%nat
                 then nth (i - 6) m x00
            else if ((iph + 12 <=? i) && (i <? iph + 16))%nat
                 then nth (i + 4) m x00
            else if ((iph + 16 <=? i) && (i <? iph + 20))%nat
                 then nth (i - 4) m x00
            else nth i m x00).
Proof.
  intros Hwf H1 H2 Hihl H3 m eth iph icmph.
  pose proof (parse_ethhdr_ok_bounds _ _ _ _ _ H1 ltac:(discriminate)) as B1.
  pose proof (parse_iphdr_ok_bounds _ _ _ _ _ H2 ltac:(discriminate))
    as (B2 & B2' & _).
  pose proof (parse_icmphdr_ok_bounds _ _ _ _ _ H3 ltac:(discriminate))
    as (B3 & Ety).
  cbn [pos] in B1. unfold sizeof_ethhdr, sizeof_iphdr, sizeof_icmphdr in *.
  fold eth in B1. fold iph in B1, B2, B2', Hihl. fold icmph in B2', B3, Hihl, Ety.
  fold m in Ety, Hwf.
  assert (load8 m icmph = 8) as Ety' by (symmetry; exact Ety).
  split; [lia|]. split; [lia|].
  rewrite (echo_ipv4_runs ctx nh1 nh2 nh3 H1 H2 H3). cbv zeta.
  fold m eth iph icmph.
  set (m1 := swap_src_dst_ipv4 m iph).
  set (m2 := swap_src_dst_mac m1 eth).
  assert (length m1 = length m) as L1 by apply length_swap_ipv4.
  assert (length m2 = length m) as L2
      by (unfold m2; rewrite length_swap_mac; exact L1).
  assert (forall i, nth i m2 x00
          = if ((eth <=? i) && (i <? eth + 6))%nat then nth (i + 6) m x00
            else if ((eth + 6 <=? i) && (i <? eth + 12))%nat
                 then nth (i - 6) m x00
            else if ((iph + 12 <=? i) && (i <? iph + 16))%nat
                 then nth (i + 4) m x00
            else if ((iph + 16 <=? i) && (i <? iph + 20))%nat
                 then nth (i - 4) m x00
            else nth i m x00) as N2.
  { intros i. unfold m2. rewrite nth_swap_mac by lia. unfold m1.
    assert ((i < eth)%nat \/ (eth <= i < eth + 6)%nat
            \/ (eth + 6 <= i < eth + 12)%nat \/ (eth + 12 <= i < iph + 12)%nat
            \/ (iph + 12 <= i < iph + 16)%nat \/ (iph + 16 <= i < iph + 20)%nat
            \/ (iph + 20 <= i)%nat) as Hreg by lia.
    destruct Hreg as [R|[R|[R|[R|[R|[R|R]]]]]]; decide_ranges;
      rewrite nth_swap_ipv4 by lia; decide_ranges; reflexivity. }
  destruct (echo_patch_bytes m2 icmph ICMP_ECHOREPLY ltac:(lia)
              ltac:(unfold ICMP_ECHOREPLY; lia))
    as (L4 & T4 & _ & C4 & S4).
  cbv zeta in L4, T4, C4, S4.
  set (m4 := store16 _ _ _) in *.
  assert (load16 m2 icmph = load16 m icmph) as E0.
  { apply load16_ext; rewrite N2; decide_ranges; reflexivity. }
  assert (load16 m2 (icmph + 2) = load16 m (icmph + 2)) as E2.
  { apply load16_ext; rewrite N2; decide_ranges; reflexivity. }
  assert (load8 m2 icmph = load8 m icmph) as E8.
  { apply load8_ext; rewrite N2; decide_ranges; reflexivity. }
  exists m4. split; [reflexivity|]. split; [lia|]. split; [exact Ety'|].
  split; [exact T4|]. split.
  - rewrite C4, E0, E2, E8, Ety'.
    unfold ICMP_ECHOREPLY, ICMP_ECHO. f_equal. lia.
  - intros i Hc Hd. rewrite S4 by lia. apply N2.
Qed.

(** An ICMP echo request over IPv4 whose IP header announces at least its
    20 fixed bytes is answered: the verdict is [XDP_TX], recorded once;
    both bounds stay; the two MAC addresses are exchanged, the two IP
    addresses are exchanged, the ICMP type becomes echo reply, the ICMP
    checksum is the patched one, and every other byte of memory is as it
    was. *)
Theorem icmp_echo_answers_ipv4 : forall ctx nh1 nh2 nh3,
  (data_end ctx <= length (mem ctx))%nat ->
  parse_ethhdr (mem ctx) (mk_cursor (data ctx)) (data_end ctx) = (ETH_P_IP, nh1) ->
  parse_iphdr (mem ctx) nh1 (data_end ctx) = (IPPROTO_ICMP, nh2) ->
  (pos nh1 + sizeof_iphdr <= pos nh2)%nat ->
  parse_icmphdr (mem ctx) nh2 (data_end ctx) = (ICMP_ECHO, nh3) ->
  let r := xdp_icmp_echo_func ctx in
  let m := mem ctx in
  let m' := mem (final_ctx r) in
  let eth := data ctx in
  let iph := pos nh1 in
  let icmph := pos nh2 in
  verdict r = XDP_TX /\ effects r = [EvStats XDP_TX]
  /\ data (final_ctx r) = data ctx /\ data_end (final_ctx r) = data_end ctx
  /\ length m' = length m
  /\ read_bytes m' eth 6 = read_bytes m (eth + 6) 6
  /\ read_bytes m' (eth + 6) 6 = read_bytes m eth 6
  /\ ip_saddr m' iph = ip_daddr m iph
  /\ ip_daddr m' iph = ip_saddr m iph
  /\ icmp_type m' icmph = ICMP_ECHOREPLY
  /\ icmp_checksum m' icmph
     = csum_patch (icmp_checksum m icmph) (load16 m icmph)
                  (load16 m icmph - ICMP_ECHO)
  /\ (forall i, (i < eth \/ eth + 12 <= i)%nat ->
                (i < iph + 12 \/ iph + 20 <= i)%nat ->
                i <> icmph -> (i < icmph + 2 \/ icmph + 4 <= i)%nat ->
                nth i m' x00 = nth i m x00).
Proof.
  intros ctx nh1 nh2 nh3 Hwf H1 H2 Hihl H3 r m m' eth iph icmph.
  destruct (echo_ipv4_memory ctx nh1 nh2 nh3 Hwf H1 H2 Hihl H3)
    as (B1 & B3 & m4 & Hr & L4 & _ & T4 & C4 & N4).
  fold m eth iph icmph in B1, B3, L4, T4, C4, N4.
  unfold sizeof_iphdr in Hihl. fold iph icmph in Hihl.
  subst r m'. rewrite Hr.
  cbn [verdict final_ctx effects fst snd]. unfold set_mem. cbn [mem data data_end].
  repeat split; try reflexivity.
  - exact L4.
  - apply list_eq_nth; [rewrite !length_read_bytes; reflexivity|].
    intros i Hi. rewrite length_read_bytes in Hi.
    rewrite !nth_read_bytes by lia. rewrite N4 by lia.
    decide_ranges. f_equal. lia.
  - apply list_eq_nth; [rewrite !length_read_bytes; reflexivity|].
    intros i Hi. rewrite length_read_bytes in Hi.
    rewrite !nth_read_bytes by lia. rewrite N4 by lia.
    decide_ranges. f_equal. lia.
  - unfold ip_saddr, ip_daddr. apply load32_shift. intros k Hk.
    rewrite N4 by lia. decide_ranges. f_equal. lia.
  - unfold ip_saddr, ip_daddr. apply load32_shift. intros k Hk.
    rewrite N4 by lia. decide_ranges. f_equal. lia.
  - exact T4.
  - exact C4.
  - intros i Ha Hb Hc Hd. rewrite N4 by lia.
    destruct Ha, Hb; try lia; decide_ranges; reflexivity.
Qed.

Lemma icmp_echo_answers_ipv4_witness :
  verdict (xdp_icmp_echo_func echo_seq7_ctx) = XDP_TX
  /\ icmp_type (mem (final_ctx (xdp_icmp_echo_func echo_seq7_ctx))) 34
     = ICMP_ECHOREPLY.
Proof.
  destruct (icmp_echo_answers_ipv4 echo_seq7_ctx (mk_cursor 14) (mk_cursor 34)
              (mk_cursor 42)
              ltac:(vm_compute; lia) ltac:(vm_compute; reflexivity)
              ltac:(vm_compute; reflexivity) ltac:(vm_compute; lia)
              ltac:(vm_compute; reflexivity))
    as (V & _ & _ & _ & _ & _ & _ & _ & _ & T & _).
  split; [exact V | exact T].
Defined.

(** the patch, on sums: replacing a word [old] of a checksummed message
    by [new] *)
Lemma csum_patch_sums ws ws' old new :
  Forall is_u16 ws -> Forall is_u16 ws' -> is_u16 old -> is_u16 new ->
  old <= sum_words ws ->
  sum_words ws' = sum_words ws - old + new ->
  0 < sum_words ws' ->
  csum_patch (csum_full ws) old new = csum_full ws'.
Proof.
  intros Fo Fn Hold Hnew Hle Hs Hnz.
  unfold csum_full. rewrite !ones_sum_norm by assumption.
  rewrite Hs in *.
  set (R := sum_words ws - old) in *.
  assert (0 <= R) as HR by (subst R; lia).
  replace (sum_words ws) with (R + old) by (subst R; lia).
  replace (R + old - old + new) with (R + new) in * by lia.
  pose proof (ones_norm_range (R + old) ltac:(unfold is_u16 in *; lia)) as Ho.
  unfold csum_patch.
  rewrite (csum16_add_args (Z.lnot _) (Z.lnot old)).
  rewrite (to_u16_lnot (65535 - ones_norm (R + old)))
    by (unfold is_u16 in *; lia).
  rewrite (to_u16_lnot old) by assumption.
  replace (65535 - (65535 - ones_norm (R + old))) with (ones_norm (R + old)) by lia.
  assert (is_u16 (65535 - old)) as Hc by (unfold is_u16 in *; lia).
  rewrite (csum16_add_end_around (ones_norm (R + old)) (65535 - old))
    by assumption.
  rewrite ones_norm_add by (try assumption; unfold is_u16 in *; lia).
  pose proof (ones_norm_range (R + old + (65535 - old))
                              ltac:(unfold is_u16 in *; lia)) as H1.
  rewrite csum16_add_end_around by assumption.
  rewrite ones_norm_add by (try assumption; unfold is_u16 in *; lia).
  pose proof (ones_norm_range (R + old + (65535 - old) + new)
                              ltac:(unfold is_u16 in *; lia)) as H2.
  rewrite to_u16_lnot by assumption.
  f_equal. unfold ones_norm, is_u16 in *.
  destruct (Z.eqb_spec (R + old + (65535 - old) + new) 0); [lia|].
  destruct (Z.eqb_spec (R + new) 0); [lia|].
  f_equal.
  replace (R + old + (65535 - old) + new - 1) with (R + new - 1 + 1 * 65535) by lia.
  apply Z.mod_add. lia.
Qed.

(** When the ICMP checksum of the request is the checksum of its message
    (type and code, then [n] words after the checksum field) and the reply
    is not all zero, the patched checksum of the reply is the checksum of
    the reply message. *)
Theorem icmp_echo_reply_checksum_ipv4 : forall ctx nh1 nh2 nh3 n,
  (data_end ctx <= length (mem ctx))%nat ->
  parse_ethhdr (mem ctx) (mk_cursor (data ctx)) (data_end ctx) = (ETH_P_IP, nh1) ->
  parse_iphdr (mem ctx) nh1 (data_end ctx) = (IPPROTO_ICMP, nh2) ->
  (pos nh1 + sizeof_iphdr <= pos nh2)%nat ->
  parse_icmphdr (mem ctx) nh2 (data_end ctx) = (ICMP_ECHO, nh3) ->
  let m := mem ctx in
  let m' := mem (final_ctx (xdp_icmp_echo_func ctx)) in
  let icmph := pos nh2 in
  icmp_checksum m icmph = csum_full (icmp_message_words m icmph n) ->
  0 < sum_words (icmp_message_words m' icmph n) ->
  icmp_checksum m' icmph = csum_full (icmp_message_words m' icmph n).
Proof.
  intros ctx nh1 nh2 nh3 n Hwf H1 H2 Hihl H3 m m' icmph Hck Hnz.
  destruct (echo_ipv4_memory ctx nh1 nh2 nh3 Hwf H1 H2 Hihl H3)
    as (B1 & B3 & m4 & Hr & L4 & T0 & T4 & C4 & N4).
  fold m icmph in B1, B3, L4, T0, T4, C4, N4.
  unfold sizeof_iphdr in Hihl. fold icmph in Hihl.
  subst m'. rewrite Hr in *.
  cbn [final_ctx fst snd] in *. unfold set_mem in *. cbn [mem] in *.
  assert (forall i, (icmph + 4 <= i)%nat \/ i = (icmph + 1)%nat ->
                    nth i m4 x00 = nth i m x00) as Same.
  { intros i Hi. rewrite N4 by lia. decide_ranges. reflexivity. }
  assert (words_at m4 (icmph + 4) n = words_at m (icmph + 4) n) as Ew.
  { apply words_at_ext. intros i Hi. apply Same. lia. }
  assert (load16 m4 icmph = load16 m icmph - ICMP_ECHO) as E0.
  { unfold load16. rewrite T4, T0.
    rewrite (load8_ext m4 m (icmph + 1)) by (apply Same; lia).
    unfold ICMP_ECHOREPLY, ICMP_ECHO. lia. }
  unfold icmp_checksum in *. rewrite C4, Hck.
  pose proof (load16_range m icmph) as R0.
  pose proof (load16_range m4 icmph) as R4.
  assert (Forall is_u16 (icmp_message_words m icmph n)) as F
      by (constructor; [apply load16_range | apply words_at_u16]).
  assert (Forall is_u16 (icmp_message_words m4 icmph n)) as F'
      by (constructor; [apply load16_range | apply words_at_u16]).
  pose proof (sum_words_nonneg _ (words_at_u16 n m (icmph + 4))) as Nw.
  apply csum_patch_sums; [exact F | exact F' | exact R0 | | | | exact Hnz].
  - rewrite <- E0. exact R4.
  - unfold icmp_message_words. cbn [sum_words fold_right].
    fold (sum_words (words_at m (icmph + 4) n)). lia.
  - unfold icmp_message_words. cbn [sum_words fold_right].
    rewrite Ew, E0.
    fold (sum_words (words_at m (icmph + 4) n)). lia.
Qed.

Lemma icmp_echo_reply_checksum_ipv4_witness :
  icmp_checksum (mem (final_ctx (xdp_icmp_echo_func echo_seq7_ctx))) 34
  = csum_full (icmp_message_words
                 (mem (final_ctx (xdp_icmp_echo_func echo_seq7_ctx))) 34 2).
Proof.
  apply (icmp_echo_reply_checksum_ipv4 echo_seq7_ctx (mk_cursor 14)
           (mk_cursor 34) (mk_cursor 42) 2).
  - vm_compute; lia.
  - vm_compute; reflexivity.
  - vm_compute; reflexivity.
  - vm_compute; lia.
  - vm_compute; reflexivity.
  - vm_compute; reflexivity.
  - vm_compute; reflexivity.
Defined.

(** what the echo server leaves in memory for an ICMPv6 echo request *)
Lemma echo_ipv6_memory ctx nh1 nh2 nh3 :
  (data_end ctx <= length (mem ctx))%nat ->
  parse_ethhdr (mem ctx) (mk_cursor (data ctx)) (data_end ctx) = (ETH_P_IPV6, nh1) ->
  parse_ip6hdr (mem ctx) nh1 (data_end ctx) = (IPPROTO_ICMPV6, nh2) ->
  parse_icmphdr (mem ctx) nh2 (data_end ctx) = (ICMPV6_ECHO_REQUEST, nh3) ->
  let m := mem ctx in
  let eth := data ctx in
  let ip6h := pos nh1 in
  let icmph := pos nh2 in
  (eth + 14 <= ip6h)%nat /\ icmph = (ip6h + 40)%nat
  /\ (icmph + 8 <= data_end ctx)%nat /\
  exists m',
    xdp_icmp_echo_func ctx = (XDP_TX, set_mem ctx m', [EvStats XDP_TX])
    /\ length m' = length m
    /\ load8 m icmph = ICMPV6_ECHO_REQUEST
    /\ load8 m' icmph = ICMPV6_ECHO_REPLY
    /\ load16 m' (icmph + 2)
       = csum_patch (load16 m (icmph + 2)) (load16 m icmph)
                    (load16 m icmph + 1)
    /\ (forall i, i <> icmph -> (i < icmph + 2 \/ icmph + 4 <= i)%nat ->
          nth i m' x00
          = if ((eth <=? i) && (i <? eth + 6))%nat then nth (i + 6) m x00
            else if ((eth + 6 <=? i) && (i <? eth + 12))%nat
                 then nth (i - 6) m x00
            else if ((ip6h + 8 <=? i) && (i <? ip6h + 24))%nat
                 then nth (i + 16) m x00
            else if ((ip6h + 24 <=? i) && (i <? ip6h + 40))%nat
                 then nth (i - 16) m x00
            else nth i m x00).
Proof.
  intros Hwf H1 H2 H3 m eth ip6h icmph.
  pose proof (parse_ethhdr_ok_bounds _ _ _ _ _ H1 ltac:(discriminate)) as B1.
  pose proof (parse_ip6hdr_ok_bounds _ _ _ _ _ H2 ltac:(discriminate))
    as (B2 & B2' & _).
  pose proof (parse_icmphdr_ok_bounds _ _ _ _ _ H3 ltac:(discriminate))
    as (B3 & Ety).
  cbn [pos] in B1. unfold sizeof_ethhdr, sizeof_ipv6hdr, sizeof_icmphdr in *.
  fold eth in B1. fold ip6h in B1, B2. fold icmph in B2, B2', B3, Ety.
  fold m in Ety, Hwf.
  assert (load8 m icmph = 128) as Ety' by (symmetry; exact Ety).
  split; [lia|]. split; [lia|]. split; [lia|].
  rewrite (echo_ipv6_runs ctx nh1 nh2 nh3 H1 H2 H3). cbv zeta.
  fold m eth ip6h icmph.
  set (m1 := swap_src_dst_ipv6 m ip6h).
  set (m2 := swap_src_dst_mac m1 eth).
  assert (length m1 = length m) as L1 by apply length_swap_ipv6.
  assert (length m2 = length m) as L2
      by (unfold m2; rewrite length_swap_mac; exact L1).
  assert (forall i, nth i m2 x00
          = if ((eth <=? i) && (i <? eth + 6))%nat then nth (i + 6) m x00
            else if ((eth + 6 <=? i) && (i <? eth + 12))%nat
                 then nth (i - 6) m x00
            else if ((ip6h + 8 <=? i) && (i <? ip6h + 24))%nat
                 then nth (i + 16) m x00
            else if ((ip6h + 24 <=? i) && (i <? ip6h + 40))%nat
                 then nth (i - 16) m x00
            else nth i m x00) as N2.
  { intros i. unfold m2. rewrite nth_swap_mac by lia. unfold m1.
    assert ((i < eth)%nat \/ (eth <= i < eth + 6)%nat
            \/ (eth + 6 <= i < eth + 12)%nat \/ (eth + 12 <= i < ip6h + 8)%nat
            \/ (ip6h + 8 <= i < ip6h + 24)%nat
            \/ (ip6h + 24 <= i < ip6h + 40)%nat
            \/ (ip6h + 40 <= i)%nat) as Hreg by lia.
    destruct Hreg as [R|[R|[R|[R|[R|[R|R]]]]]]; decide_ranges;
      rewrite nth_swap_ipv6 by lia; decide_ranges; reflexivity. }
  destruct (echo_patch_bytes m2 icmph ICMPV6_ECHO_REPLY ltac:(lia)
              ltac:(unfold ICMPV6_ECHO_REPLY; lia))
    as (L4 & T4 & _ & C4 & S4).
  cbv zeta in L4, T4, C4, S4.
  set (m4 := store16 _ _ _) in *.
  assert (load16 m2 icmph = load16 m icmph) as E0.
  { apply load16_ext; rewrite N2; decide_ranges; reflexivity. }
  assert (load16 m2 (icmph + 2) = load16 m (icmph + 2)) as E2.
  { apply load16_ext; rewrite N2; decide_ranges; reflexivity. }
  assert (load8 m2 icmph = load8 m icmph) as E8.
  { apply load8_ext; rewrite N2; decide_ranges; reflexivity. }
  exists m4. split; [reflexivity|]. split; [lia|]. split; [exact Ety'|].
  split; [exact T4|]. split.
  - rewrite C4, E0, E2, E8, Ety'.
    unfold ICMPV6_ECHO_REPLY. f_equal. lia.
  - intros i Hc Hd. rewrite S4 by lia. apply N2.
Qed.

(** An ICMPv6 echo request is answered: the verdict is [XDP_TX],
    recorded once; both bounds stay; the two MAC addresses are exchanged,
    the two IPv6 addresses are exchanged, the ICMPv6 type becomes echo
    reply, the checksum is the patched one, and every other byte of memory
    is as it was. *)
Theorem icmp_echo_answers_ipv6 : forall ctx nh1 nh2 nh3,
  (data_end ctx <= length (mem ctx))%nat ->
  parse_ethhdr (mem ctx) (mk_cursor (data ctx)) (data_end ctx) = (ETH_P_IPV6, nh1) ->
  parse_ip6hdr (mem ctx) nh1 (data_end ctx) = (IPPROTO_ICMPV6, nh2) ->
  parse_icmphdr (mem ctx) nh2 (data_end ctx) = (ICMPV6_ECHO_REQUEST, nh3) ->
  let r := xdp_icmp_echo_func ctx in
  let m := mem ctx in
  let m' := mem (final_ctx r) in
  let eth := data ctx in
  let ip6h := pos nh1 in
  let icmph := pos nh2 in
  verdict r = XDP_TX /\ effects r = [EvStats XDP_TX]
  /\ data (final_ctx r) = data ctx /\ data_end (final_ctx r) = data_end ctx
  /\ length m' = length m
  /\ read_bytes m' eth 6 = read_bytes m (eth + 6) 6
  /\ read_bytes m' (eth + 6) 6 = read_bytes m eth 6
  /\ read_bytes m' (ip6h + 8) 16 = read_bytes m (ip6h + 24) 16
  /\ read_bytes m' (ip6h + 24) 16 = read_bytes m (ip6h + 8) 16
  /\ icmp_type m' icmph = ICMPV6_ECHO_REPLY
  /\ icmp_checksum m' icmph
     = csum_patch (icmp_checksum m icmph) (load16 m icmph)
                  (load16 m icmph + 1)
  /\ (forall i, (i < eth \/ eth + 12 <= i)%nat ->
                (i < ip6h + 8 \/ ip6h + 40 <= i)%nat ->
                i <> icmph -> (i < icmph + 2 \/ icmph + 4 <= i)%nat ->
                nth i m' x00 = nth i m x00).
Proof.
  intros ctx nh1 nh2 nh3 Hwf H1 H2 H3 r m m' eth ip6h icmph.
  destruct (echo_ipv6_memory ctx nh1 nh2 nh3 Hwf H1 H2 H3)
    as (B1 & B2 & B3 & m4 & Hr & L4 & _ & T4 & C4 & N4).
  fold m eth ip6h icmph in B1, B2, B3, L4, T4, C4, N4.
  subst r m'. rewrite Hr.
  cbn [verdict final_ctx effects fst snd]. unfold set_mem. cbn [mem data data_end].
  repeat split; try reflexivity.
  - exact L4.
  - apply list_eq_nth; [rewrite !length_read_bytes; reflexivity|].
    intros i Hi. rewrite length_read_bytes in Hi.
    rewrite !nth_read_bytes by lia. rewrite N4 by lia.
    decide_ranges. f_equal. lia.
  - apply list_eq_nth; [rewrite !length_read_bytes; reflexivity|].
    intros i Hi. rewrite length_read_bytes in Hi.
    rewrite !nth_read_bytes by lia. rewrite N4 by lia.
    decide_ranges. f_equal. lia.
  - apply list_eq_nth; [rewrite !length_read_bytes; reflexivity|].
    intros i Hi. rewrite length_read_bytes in Hi.
    rewrite !nth_read_bytes by lia. rewrite N4 by lia.
    decide_ranges. f_equal. lia.
  - apply list_eq_nth; [rewrite !length_read_bytes; reflexivity|].
    intros i Hi. rewrite length_read_bytes in Hi.
    rewrite !nth_read_bytes by lia. rewrite N4 by lia.
    decide_ranges. f_equal. lia.
  - exact T4.
  - exact C4.
  - intros i Ha Hb Hc Hd. rewrite N4 by lia.
    destruct Ha, Hb; try lia; decide_ranges; reflexivity.
Qed.

Lemma icmp_echo_answers_ipv6_witness :
  verdict (xdp_icmp_echo_func echo6_seq7_ctx) = XDP_TX
  /\ icmp_type (mem (final_ctx (xdp_icmp_echo_func echo6_seq7_ctx))) 54
     = ICMPV6_ECHO_REPLY.
Proof.
  destruct (icmp_echo_answers_ipv6 echo6_seq7_ctx (mk_cursor 14) (mk_cursor 54)
              (mk_cursor 62)
              ltac:(vm_compute; lia) ltac:(vm_compute; reflexivity)
              ltac:(vm_compute; reflexivity) ltac:(vm_compute; reflexivity))
    as (V & _ & _ & _ & _ & _ & _ & _ & _ & T & _).
  split; [exact V | exact T].
Defined.

Lemma words_at_shift n : forall m m' p q,
  (forall i, (i < 2 * n)%nat -> nth (p + i) m' x00 = nth (q + i) m x00) ->
  words_at m' p n = words_at m q n.
Proof.
  induction n as [|n IH]; intros m m' p q H; simpl; [reflexivity|].
  f_equal.
  - unfold load16, load8.
    pose proof (H 0%nat ltac:(lia)) as H0. pose proof (H 1%nat ltac:(lia)) as H1.
    rewrite !Nat.add_0_r in H0. rewrite H0, H1. reflexivity.
  - apply IH. intros i Hi.
    replace (p + 2 + i)%nat with (p + (2 + i))%nat by lia.
    replace (q + 2 + i)%nat with (q + (2 + i))%nat by lia.
    apply H. lia.
Qed.

(** The ICMPv6 checksum covers the two addresses, the rest [ph] of the
    pseudo-header and the message.  When the request's checksum is that
    checksum and the covered words of the reply are not all zero, the
    patched checksum of the reply is the checksum of the reply. *)
Theorem icmp_echo_reply_checksum_ipv6 : forall ctx nh1 nh2 nh3 ph n,
  (data_end ctx <= length (mem ctx))%nat ->
  parse_ethhdr (mem ctx) (mk_cursor (data ctx)) (data_end ctx) = (ETH_P_IPV6, nh1) ->
  parse_ip6hdr (mem ctx) nh1 (data_end ctx) = (IPPROTO_ICMPV6, nh2) ->
  parse_icmphdr (mem ctx) nh2 (data_end ctx) = (ICMPV6_ECHO_REQUEST, nh3) ->
  Forall is_u16 ph ->
  let m := mem ctx in
  let m' := mem (final_ctx (xdp_icmp_echo_func ctx)) in
  let ip6h := pos nh1 in
  let icmph := pos nh2 in
  let covered (mm : list byte) :=
    words_at mm (ip6h + 8) 16 ++ ph ++ icmp_message_words mm icmph n in
  icmp_checksum m icmph = csum_full (covered m) ->
  0 < sum_words (covered m') ->
  icmp_checksum m' icmph = csum_full (covered m').
Proof.
  intros ctx nh1 nh2 nh3 ph n Hwf H1 H2 H3 Hph m m' ip6h icmph covered Hck Hnz.
  destruct (echo_ipv6_memory ctx nh1 nh2 nh3 Hwf H1 H2 H3)
    as (B1 & B2 & B3 & m4 & Hr & L4 & T0 & T4 & C4 & N4).
  fold m ip6h icmph in B1, B2, B3, L4, T0, T4, C4, N4.
  subst m'. rewrite Hr in *.
  cbn [final_ctx fst snd] in *. unfold set_mem in *. cbn [mem] in *.
  assert (forall i, (icmph + 4 <= i)%nat \/ i = (icmph + 1)%nat ->
                    nth i m4 x00 = nth i m x00) as Same.
  { intros i Hi. rewrite N4 by lia. decide_ranges. reflexivity. }
  assert (words_at m4 (icmph + 4) n = words_at m (icmph + 4) n) as Ew.
  { apply words_at_ext. intros i Hi. apply Same. lia. }
  assert (load16 m4 icmph = load16 m icmph + 1) as E0.
  { unfold load16. rewrite T4, T0.
    rewrite (load8_ext m4 m (icmph + 1)) by (apply Same; lia).
    unfold ICMPV6_ECHO_REPLY, ICMPV6_ECHO_REQUEST. lia. }
  assert (words_at m4 (ip6h + 8) 16
          = words_at m (ip6h + 24) 8 ++ words_at m (ip6h + 8) 8) as Ea.
  { change 16%nat with (8 + 8)%nat. rewrite words_at_app. f_equal.
    - apply words_at_shift. intros i Hi. rewrite N4 by lia.
      decide_ranges. f_equal. lia.
    - apply words_at_shift. intros i Hi. rewrite N4 by lia.
      decide_ranges. f_equal. lia. }
  assert (words_at m (ip6h + 8) 16
          = words_at m (ip6h + 8) 8 ++ words_at m (ip6h + 24) 8) as Eb.
  { change 16%nat with (8 + 8)%nat. rewrite words_at_app.
    do 2 f_equal. lia. }
  pose proof (load16_range m icmph) as R0.
  pose proof (load16_range m4 icmph) as R4.
  assert (Forall is_u16 (covered m)) as F.
  { unfold covered. apply Forall_app; split; [apply words_at_u16|].
    apply Forall_app; split; [exact Hph|].
    constructor; [apply load16_range | apply words_at_u16]. }
  assert (Forall is_u16 (covered m4)) as F'.
  { unfold covered. apply Forall_app; split; [apply words_at_u16|].
    apply Forall_app; split; [exact Hph|].
    constructor; [apply load16_range | apply words_at_u16]. }
  pose proof (sum_words_nonneg _ (words_at_u16 n m (icmph + 4))) as Nw.
  pose proof (sum_words_nonneg _ (words_at_u16 8 m (ip6h + 8))) as Na.
  pose proof (sum_words_nonneg _ (words_at_u16 8 m (ip6h + 24))) as Nb.
  pose proof (sum_words_nonneg _ Hph) as Np.
  assert (sum_words (covered m)
          = sum_words (words_at m (ip6h + 8) 8)
            + sum_words (words_at m (ip6h + 24) 8) + sum_words ph
            + load16 m icmph + sum_words (words_at m (icmph + 4) n)) as Sm.
  { unfold covered, icmp_message_words. rewrite Eb, !sum_words_app.
    cbn [sum_words fold_right]. fold (sum_words (words_at m (icmph + 4) n)).
    lia. }
  assert (sum_words (covered m4)
          = sum_words (words_at m (ip6h + 8) 8)
            + sum_words (words_at m (ip6h + 24) 8) + sum_words ph
            + (load16 m icmph + 1) + sum_words (words_at m (icmph + 4) n)) as Sm4.
  { unfold covered, icmp_message_words. rewrite Ea, Ew, E0, !sum_words_app.
    cbn [sum_words fold_right]. fold (sum_words (words_at m (icmph + 4) n)).
    lia. }
  unfold icmp_checksum in *. rewrite C4, Hck.
  apply csum_patch_sums; [exact F | exact F' | exact R0 | | | | exact Hnz].
  - rewrite <- E0. exact R4.
  - rewrite Sm. lia.
  - rewrite Sm, Sm4. lia.
Qed.

Lemma icmp_echo_reply_checksum_ipv6_witness :
  icmp_checksum (mem (final_ctx (xdp_icmp_echo_func echo6_seq7_ctx))) 54
  = csum_full
      (words_at (mem (final_ctx (xdp_icmp_echo_func echo6_seq7_ctx))) 22 16
       ++ [bpf_htons 8; bpf_htons 58]
       ++ icmp_message_words
            (mem (final_ctx (xdp_icmp_echo_func echo6_seq7_ctx))) 54 2).
Proof.
  apply (icmp_echo_reply_checksum_ipv6 echo6_seq7_ctx (mk_cursor 14)
           (mk_cursor 54) (mk_cursor 62) [bpf_htons 8; bpf_htons 58] 2).
  - vm_compute; lia.
  - vm_compute; reflexivity.
  - vm_compute; reflexivity.
  - vm_compute; reflexivity.
  - repeat constructor; vm_compute; congruence.
  - vm_compute; reflexivity.
  - vm_compute; reflexivity.
Defined.

(** The echo server either leaves the context as it found it and passes
    the packet, or transmits; it transmits exactly when the headers parse
    as Ethernet, IPv4, ICMP echo request or as Ethernet, IPv6, ICMPv6 echo
    request.  It never drops, aborts or redirects. *)
Theorem icmp_echo_passes_or_answers : forall ctx,
  let r := xdp_icmp_echo_func ctx in
  let m := mem ctx in
  let de := data_end ctx in
  let is_request :=
    exists nh1 nh2 nh3,
      (parse_ethhdr m (mk_cursor (data ctx)) de = (ETH_P_IP, nh1)
       /\ parse_iphdr m nh1 de = (IPPROTO_ICMP, nh2)
       /\ parse_icmphdr m nh2 de = (ICMP_ECHO, nh3))
      \/ (parse_ethhdr m (mk_cursor (data ctx)) de = (ETH_P_IPV6, nh1)
          /\ parse_ip6hdr m nh1 de = (IPPROTO_ICMPV6, nh2)
          /\ parse_icmphdr m nh2 de = (ICMPV6_ECHO_REQUEST, nh3)) in
  (r = (XDP_PASS, ctx, [EvStats XDP_PASS]) /\ ~ is_request)
  \/ (verdict r = XDP_TX /\ effects r = [EvStats XDP_TX] /\ is_request).
Proof.
  intros ctx r m de is_request. subst r is_request.
  unfold xdp_icmp_echo_func. cbv zeta. fold m de.
  destruct (parse_ethhdr m (mk_cursor (data ctx)) de) as [et nh1] eqn:E1.
  destruct (Z.eqb_spec et ETH_P_IP) as [->|Hn4].
  - destruct (parse_iphdr m nh1 de) as [pt nh2] eqn:E2.
    destruct (Z.eqb_spec pt IPPROTO_ICMP) as [->|Hp]; cbn [negb].
    + destruct (parse_icmphdr m nh2 de) as [it nh3] eqn:E3.
      change (ETH_P_IP =? ETH_P_IP) with true. cbn [andb].
      destruct (Z.eqb_spec it ICMP_ECHO) as [->|Hi].
      * right. split; [reflexivity|]. split; [reflexivity|].
        exists nh1, nh2, nh3. left. rewrite E2, E3. repeat split.
      * change (ETH_P_IP =? ETH_P_IPV6) with false. cbn [andb].
        left. split; [reflexivity|].
        intros (a & b & c & [(A & B & C)|(A & _)]); [|discriminate].
        injection A as <-. rewrite E2 in B. injection B as <-.
        rewrite E3 in C. congruence.
    + left. split; [reflexivity|].
      intros (a & b & c & [(A & B & C)|(A & _)]); [|discriminate].
      injection A as <-. rewrite E2 in B. congruence.
  - destruct (Z.eqb_spec et ETH_P_IPV6) as [->|Hn6].
    + destruct (parse_ip6hdr m nh1 de) as [pt nh2] eqn:E2.
      destruct (Z.eqb_spec pt IPPROTO_ICMPV6) as [->|Hp]; cbn [negb].
      * destruct (parse_icmphdr m nh2 de) as [it nh3] eqn:E3.
        change (ETH_P_IPV6 =? ETH_P_IP) with false.
        change (ETH_P_IPV6 =? ETH_P_IPV6) with true. cbn [andb].
        destruct (Z.eqb_spec it ICMPV6_ECHO_REQUEST) as [->|Hi].
        -- right. split; [reflexivity|]. split; [reflexivity|].
           exists nh1, nh2, nh3. right. rewrite E2, E3. repeat split.
        -- left. split; [reflexivity|].
           intros (a & b & c & [(A & _)|(A & B & C)]); [discriminate|].
           injection A as <-. rewrite E2 in B. injection B as <-.
           rewrite E3 in C. congruence.
      * left. split; [reflexivity|].
        intros (a & b & c & [(A & _)|(A & B & C)]); [discriminate|].
        injection A as <-. rewrite E2 in B. congruence.
    + left. split; [reflexivity|].
      intros (a & b & c & [(A & _)|(A & _)]); congruence.
Qed.

(** ** The redirecting programs *)

Lemma parse_ethhdr_minus_one m nh de :
  (fst (parse_ethhdr m nh de) =? -1) = (de <? pos nh + sizeof_ethhdr)%nat.
Proof.
  unfold parse_ethhdr. cbv zeta.
  destruct (Nat.ltb_spec de (pos nh + sizeof_ethhdr)); [reflexivity|].
  destruct (vlan_loop _ _ _ _ _) as [h v]. cbn [fst].
  pose proof (bpf_ntohs_range h). apply Z.eqb_neq. lia.
Qed.

(** [xdp_redirect_func]: a frame too short for an Ethernet header is
    passed as it is; any other frame gets the six bytes [dst] as its
    destination MAC, nothing else is written, and it is redirected to
    [ifidx], the verdict being recorded. *)
Theorem redirect_rewrites_destination : forall dst ifidx ctx,
  wf_ctx ctx -> length dst = ETH_ALEN ->
  let r := xdp_redirect_func dst ifidx ctx in
  ((data_end ctx < data ctx + sizeof_ethhdr)%nat ->
   r = (XDP_PASS, ctx, [EvStats XDP_PASS]))
  /\ ((data ctx + sizeof_ethhdr <= data_end ctx)%nat ->
      verdict r = XDP_REDIRECT
      /\ effects r = [EvRedirect ifidx; EvStats XDP_REDIRECT]
      /\ data (final_ctx r) = data ctx /\ data_end (final_ctx r) = data_end ctx
      /\ length (mem (final_ctx r)) = length (mem ctx)
      /\ read_bytes (mem (final_ctx r)) (data ctx) ETH_ALEN = dst
      /\ same_outside (data ctx) (data ctx + ETH_ALEN)
                      (mem ctx) (mem (final_ctx r))).
Proof.
  intros dst ifidx ctx [Hw1 Hw2] Hd r. subst r.
  unfold xdp_redirect_func. cbv zeta.
  pose proof (parse_ethhdr_minus_one (mem ctx) (mk_cursor (data ctx))
                                     (data_end ctx)) as E.
  destruct (parse_ethhdr (mem ctx) (mk_cursor (data ctx)) (data_end ctx))
    as [ty nh1].
  cbn [fst pos] in E. rewrite E. unfold sizeof_ethhdr, ETH_ALEN in *.
  split; intros H.
  - destruct (Nat.ltb_spec (data_end ctx) (data ctx + 14)); [reflexivity|lia].
  - destruct (Nat.ltb_spec (data_end ctx) (data ctx + 14)); [lia|].
    unfold bpf_redirect, xdp_stats_record_action, set_mem, same_outside.
    cbn [verdict effects final_ctx fst snd mem data data_end app].
    rewrite firstn_exact by exact Hd.
    repeat split.
    + apply length_write_bytes.
    + apply read_write_bytes_exact; [exact Hd | lia].
    + intros i Hi. apply nth_write_bytes_other. lia.
Qed.

Lemma redirect_rewrites_destination_witness :
  verdict (xdp_redirect_func (bytes_of [2; 0; 0; 0; 0; 0xCC]) 5
             (ctx_of 0 (bytes_of (eth_ipv4_header 64)))) = XDP_REDIRECT
  /\ xdp_redirect_func (bytes_of [2; 0; 0; 0; 0; 0xCC]) 5
       (ctx_of 0 short_frame)
     = (XDP_PASS, ctx_of 0 short_frame, [EvStats XDP_PASS]).
Proof.
  split.
  - apply (proj2 (redirect_rewrites_destination
                    (bytes_of [2; 0; 0; 0; 0; 0xCC]) 5
                    (ctx_of 0 (bytes_of (eth_ipv4_header 64)))
                    ltac:(split; vm_compute; lia) eq_refl)).
    vm_compute; lia.
  - apply (proj1 (redirect_rewrites_destination
                    (bytes_of [2; 0; 0; 0; 0; 0xCC]) 5
                    (ctx_of 0 short_frame)
                    ltac:(split; vm_compute; lia) eq_refl)).
    vm_compute; lia.
Defined.

(** [xdp_redirect_map_func] looks the source MAC up in [redirect_params]:
    with no entry the frame is passed as it is; with an entry [dst] the
    destination MAC becomes [dst], nothing else is written, and the frame
    is redirected through slot 0 of the device table. *)
Theorem redirect_map_by_source_mac : forall K ctx,
  wf_ctx ctx -> (data ctx + sizeof_ethhdr <= data_end ctx)%nat ->
  let r := xdp_redirect_map_func K ctx in
  match redirect_params K (read_bytes (mem ctx) (data ctx + 6) ETH_ALEN) with
  | None => r = (XDP_PASS, ctx, [EvStats XDP_PASS])
  | Some dst =>
      length dst = ETH_ALEN ->
      verdict r = XDP_REDIRECT
      /\ effects r = [EvRedirect 0; EvStats XDP_REDIRECT]
      /\ data (final_ctx r) = data ctx /\ data_end (final_ctx r) = data_end ctx
      /\ length (mem (final_ctx r)) = length (mem ctx)
      /\ read_bytes (mem (final_ctx r)) (data ctx) ETH_ALEN = dst
      /\ same_outside (data ctx) (data ctx + ETH_ALEN)
                      (mem ctx) (mem (final_ctx r))
  end.
Proof.
  intros K ctx [Hw1 Hw2] Hfit r. subst r.
  unfold xdp_redirect_map_func. cbv zeta.
  pose proof (parse_ethhdr_minus_one (mem ctx) (mk_cursor (data ctx))
                                     (data_end ctx)) as E.
  destruct (parse_ethhdr (mem ctx) (mk_cursor (data ctx)) (data_end ctx))
    as [ty nh1].
  cbn [fst pos] in E. rewrite E. unfold sizeof_ethhdr, ETH_ALEN in *.
  destruct (Nat.ltb_spec (data_end ctx) (data ctx + 14)); [lia|].
  destruct (redirect_params K (read_bytes (mem ctx) (data ctx + 6) 6))
    as [dst|]; [|reflexivity].
  intros Hd.
  unfold bpf_redirect_map, xdp_stats_record_action, set_mem, same_outside.
  cbn [verdict effects final_ctx fst snd mem data data_end app].
  rewrite firstn_exact by exact Hd.
  repeat split.
  - apply length_write_bytes.
  - apply read_write_bytes_exact; [exact Hd | lia].
  - intros i Hi. apply nth_write_bytes_other. lia.
Qed.

Lemma redirect_map_by_source_mac_witness :
  verdict (xdp_redirect_map_func redirecting_kernel
             (ctx_of 0 (bytes_of (eth_ipv4_header 64)))) = XDP_REDIRECT
  /\ xdp_redirect_map_func (sample_kernel 0)
       (ctx_of 0 (bytes_of (eth_ipv4_header 64)))
     = (XDP_PASS, ctx_of 0 (bytes_of (eth_ipv4_header 64)), [EvStats XDP_PASS]).
Proof.
  split.
  - apply (redirect_map_by_source_mac redirecting_kernel
             (ctx_of 0 (bytes_of (eth_ipv4_header 64)))
             ltac:(split; vm_compute; lia) ltac:(vm_compute; lia) eq_refl).
  - apply (redirect_map_by_source_mac (sample_kernel 0)
             (ctx_of 0 (bytes_of (eth_ipv4_header 64)))
             ltac:(split; vm_compute; lia) ltac:(vm_compute; lia)).
Defined.

(** ** The router: codes outside the switch, and the forwarded packet *)

(** A return code of the resolver that the [switch] does not list (an
    error code below 0, or a code above 8) leaves the default action: the
    packet is passed untouched after the one lookup. *)
Theorem router_unlisted_code_passes : forall K ctx rc fp',
  (ipv4_frame ctx /\ 1 < ip_ttl (mem ctx) (l3_offset ctx))
  \/ (ipv6_frame ctx /\ 1 < ip6_hop_limit (mem ctx) (l3_offset ctx)) ->
  fib_resolve K (lookup_key ctx) = (rc, fp') ->
  rc < 0 \/ 8 < rc ->
  xdp_router_func K ctx
  = (XDP_PASS, ctx, [EvFib (lookup_key ctx); EvStats XDP_PASS]).
Proof.
  intros K ctx rc fp' Hfwd Hres Hrc.
  assert (forall h l3 fp,
            fib_resolve K (set_ifindex fp (ingress_ifindex ctx)) = (rc, fp') ->
            router_forward K ctx h l3 fp
            = (XDP_PASS, ctx,
               [EvFib (set_ifindex fp (ingress_ifindex ctx)); EvStats XDP_PASS]))
    as Hfw.
  { intros h l3 fp H. unfold router_forward, bpf_fib_lookup_call. cbv zeta.
    rewrite H.
    unfold BPF_FIB_LKUP_RET_SUCCESS, BPF_FIB_LKUP_RET_BLACKHOLE,
      BPF_FIB_LKUP_RET_UNREACHABLE, BPF_FIB_LKUP_RET_PROHIBIT,
      BPF_FIB_LKUP_RET_NOT_FWDED, BPF_FIB_LKUP_RET_FWD_DISABLED,
      BPF_FIB_LKUP_RET_UNSUPP_LWT, BPF_FIB_LKUP_RET_NO_NEIGH,
      BPF_FIB_LKUP_RET_FRAG_NEEDED.
    repeat match goal with
           | |- context [rc =? ?k] => destruct (Z.eqb_spec rc k); [lia|]
           end.
    reflexivity. }
  destruct Hfwd as [[H4 Httl]|[H6 Hhop]].
  - pose proof H4 as [_ Hp]. unfold lookup_key in *.
    rewrite Hp, Z.eqb_refl in *.
    rewrite router_ipv4 by exact H4.
    destruct (Z.leb_spec (ip_ttl (mem ctx) (l3_offset ctx)) 1); [lia|].
    apply Hfw. exact Hres.
  - pose proof H6 as [_ Hp]. unfold lookup_key in *.
    rewrite Hp, htons_ip_ne_ipv6 in *.
    rewrite router_ipv6 by exact H6.
    destruct (Z.leb_spec (ip6_hop_limit (mem ctx) (l3_offset ctx)) 1); [lia|].
    apply Hfw. exact Hres.
Qed.

Lemma router_unlisted_code_passes_witness :
  xdp_router_func (sample_kernel (-22)) (ctx_of 0 (bytes_of (eth_ipv4_header 64)))
  = (XDP_PASS, ctx_of 0 (bytes_of (eth_ipv4_header 64)),
     [EvFib (lookup_key (ctx_of 0 (bytes_of (eth_ipv4_header 64))));
      EvStats XDP_PASS]).
Proof.
  apply (router_unlisted_code_passes (sample_kernel (-22))
           (ctx_of 0 (bytes_of (eth_ipv4_header 64))) (-22)
           (snd (fib_resolve (sample_kernel (-22))
                   (lookup_key (ctx_of 0 (bytes_of (eth_ipv4_header 64))))))).
  - left. split; [split|]; vm_compute; [lia | reflexivity | reflexivity].
  - reflexivity.
  - left. lia.
Defined.

(** A forwarded IPv4 packet whose header checksum verified on arrival
    (over the [n] words of the header) leaves with a header checksum that
    still verifies; apart from the two MAC addresses, the TTL byte and
    the two checksum bytes, memory is as it was. *)
Theorem router_forwarded_ipv4_checksum : forall K ctx fp' n,
  wf_ctx ctx -> ipv4_frame ctx -> 1 < ip_ttl (mem ctx) (l3_offset ctx) ->
  fib_resolve K (lookup_key ctx) = (BPF_FIB_LKUP_RET_SUCCESS, fp') ->
  (6 <= n)%nat -> (l3_offset ctx + 2 * n <= data_end ctx)%nat ->
  ones_sum (words_at (mem ctx) (l3_offset ctx) n) = 65535 ->
  let r := xdp_router_func K ctx in
  let m' := mem (final_ctx r) in
  let iph := l3_offset ctx in
  verdict r = XDP_REDIRECT
  /\ length m' = length (mem ctx)
  /\ ones_sum (words_at m' iph n) = 65535
  /\ (forall i, (i < data ctx \/ data ctx + 12 <= i)%nat ->
                i <> (iph + 8)%nat -> (i < iph + 10 \/ iph + 12 <= i)%nat ->
                nth i m' x00 = nth i (mem ctx) x00).
Proof.
  intros K ctx fp' n [Hw1 Hw2] H4 Httl Hres Hn Hfit Hsum r m' iph.
  pose proof H4 as [Hf Hp].
  unfold lookup_key in Hres. rewrite Hp, Z.eqb_refl in Hres.
  subst r m'. rewrite router_ipv4 by exact H4.
  destruct (Z.leb_spec (ip_ttl (mem ctx) (l3_offset ctx)) 1); [lia|].
  rewrite (router_forward_outcome K ctx _ _ _ Success fp' Hres).
  rewrite Z.eqb_refl. fold iph in Hsum, Hfit, Httl |- *.
  cbn [verdict final_ctx fst snd]. unfold set_mem. cbn [mem].
  assert (iph = (data ctx + 14)%nat) as Hiph by reflexivity.
  destruct (ip_decrease_ttl_bytes (mem ctx) iph ltac:(lia) ltac:(lia))
    as (L1 & _ & _ & S1).
  set (m1 := snd (ip_decrease_ttl (mem ctx) iph)) in *.
  assert (length (firstn ETH_ALEN (dmac fp')) <= 6)%nat as Ld
      by (rewrite length_firstn; unfold ETH_ALEN; lia).
  assert (length (firstn ETH_ALEN (smac fp')) <= 6)%nat as Ls
      by (rewrite length_firstn; unfold ETH_ALEN; lia).
  assert (forall i, (i < data ctx \/ data ctx + 12 <= i)%nat ->
            nth i (write_bytes (write_bytes m1 (data ctx)
                                  (firstn ETH_ALEN (dmac fp')))
                     (data ctx + 6) (firstn ETH_ALEN (smac fp'))) x00
            = nth i m1 x00) as Hout.
  { intros i Hi. rewrite !nth_write_bytes_other by lia. reflexivity. }
  split; [reflexivity|]. split.
  { rewrite !length_write_bytes. exact L1. }
  split.
  - rewrite (words_at_ext n m1 _ iph) by (intros i Hi; apply Hout; lia).
    apply ip_decrease_ttl_sum; try assumption. lia.
  - intros i Ha Hb Hc. rewrite Hout by exact Ha. apply S1; assumption.
Qed.

Lemma router_forwarded_ipv4_checksum_witness :
  ones_sum
    (words_at (mem (final_ctx (xdp_router_func (sample_kernel 0)
                                 (ctx_of 0 (bytes_of checked_ipv4_frame)))))
              14 10) = 65535.
Proof.
  apply (router_forwarded_ipv4_checksum (sample_kernel 0)
           (ctx_of 0 (bytes_of checked_ipv4_frame))
           (snd (fib_resolve (sample_kernel 0)
                   (lookup_key (ctx_of 0 (bytes_of checked_ipv4_frame))))) 10).
  - split; vm_compute; lia.
  - split; vm_compute; [lia | reflexivity].
  - vm_compute; reflexivity.
  - reflexivity.
  - lia.
  - vm_compute; lia.
  - vm_compute; reflexivity.
Defined.

(** ** The packet filters of the parsing lessons *)

(** The parser of lesson 2 never touches the packet and records its
    verdict once; it drops exactly the echo requests (ICMP over IPv4,
    ICMPv6 over IPv6, behind at most [VLAN_MAX_DEPTH] tags) whose
    sequence number is even, and passes everything else. *)
Theorem parser_drops_even_echo_requests : forall ctx,
  let r := Rewriting.xdp_parser_func ctx in
  let m := mem ctx in
  let de := data_end ctx in
  let even_request :=
    exists nh1 nh2 nh3,
      ((parse_ethhdr m (mk_cursor (data ctx)) de = (ETH_P_IPV6, nh1)
        /\ parse_ip6hdr m nh1 de = (IPPROTO_ICMPV6, nh2)
        /\ parse_icmp6hdr m nh2 de = (ICMPV6_ECHO_REQUEST, nh3))
       \/ (parse_ethhdr m (mk_cursor (data ctx)) de = (ETH_P_IP, nh1)
           /\ parse_iphdr m nh1 de = (IPPROTO_ICMP, nh2)
           /\ parse_icmphdr m nh2 de = (ICMP_ECHO, nh3)))
      /\ bpf_ntohs (icmp_sequence m (pos nh2)) mod 2 = 0 in
  final_ctx r = ctx /\ effects r = [EvStats (verdict r)]
  /\ ((verdict r = XDP_DROP /\ even_request)
      \/ (verdict r = XDP_PASS /\ ~ even_request)).
Proof.
  intros ctx r m de even_request. subst r even_request.
  unfold Rewriting.xdp_parser_func. cbv zeta. fold m de.
  destruct (parse_ethhdr m (mk_cursor (data ctx)) de) as [et nh1] eqn:E1.
  destruct (Z.eqb_spec et ETH_P_IPV6) as [->|Hn6].
  - destruct (parse_ip6hdr m nh1 de) as [pt nh2] eqn:E2.
    destruct (Z.eqb_spec pt IPPROTO_ICMPV6) as [->|Hp]; cbn [negb].
    + destruct (parse_icmp6hdr m nh2 de) as [it nh3] eqn:E3.
      destruct (Z.eqb_spec it ICMPV6_ECHO_REQUEST) as [->|Hi]; cbn [negb].
      * destruct (Z.eqb_spec (bpf_ntohs (icmp_sequence m (pos nh2)) mod 2) 0)
          as [Hev|Hodd].
        -- split; [reflexivity|]. split; [reflexivity|]. left.
           split; [reflexivity|].
           exists nh1, nh2, nh3. split; [|exact Hev].
           left. rewrite E2, E3. repeat split.
        -- split; [reflexivity|]. split; [reflexivity|]. right.
           split; [reflexivity|].
           intros (a & b & c & [(A & B & C)|(A & _)] & D); [|discriminate].
           injection A as <-. rewrite E2 in B. injection B as <-.
           contradiction.
      * split; [reflexivity|]. split; [reflexivity|]. right.
        split; [reflexivity|].
        intros (a & b & c & [(A & B & C)|(A & _)] & D); [|discriminate].
        injection A as <-. rewrite E2 in B. injection B as <-.
        rewrite E3 in C. congruence.
    + split; [reflexivity|]. split; [reflexivity|]. right.
      split; [reflexivity|].
      intros (a & b & c & [(A & B & C)|(A & _)] & D); [|discriminate].
      injection A as <-. rewrite E2 in B. congruence.
  - destruct (Z.eqb_spec et ETH_P_IP) as [->|Hn4].
    + destruct (parse_iphdr m nh1 de) as [pt nh2] eqn:E2.
      destruct (Z.eqb_spec pt IPPROTO_ICMP) as [->|Hp]; cbn [negb].
      * destruct (parse_icmphdr m nh2 de) as [it nh3] eqn:E3.
        destruct (Z.eqb_spec it ICMP_ECHO) as [->|Hi]; cbn [negb].
        -- destruct (Z.eqb_spec (bpf_ntohs (icmp_sequence m (pos nh2)) mod 2) 0)
             as [Hev|Hodd].
           ++ split; [reflexivity|]. split; [reflexivity|]. left.
              split; [reflexivity|].
              exists nh1, nh2, nh3. split; [|exact Hev].
              right. rewrite E2, E3. repeat split.
           ++ split; [reflexivity|]. split; [reflexivity|]. right.
              split; [reflexivity|].
              intros (a & b & c & [(A & _)|(A & B & C)] & D); [discriminate|].
              injection A as <-. rewrite E2 in B. injection B as <-.
              contradiction.
        -- split; [reflexivity|]. split; [reflexivity|]. right.
           split; [reflexivity|].
           intros (a & b & c & [(A & _)|(A & B & C)] & D); [discriminate|].
           injection A as <-. rewrite E2 in B. injection B as <-.
           rewrite E3 in C. congruence.
      * split; [reflexivity|]. split; [reflexivity|]. right.
        split; [reflexivity|].
        intros (a & b & c & [(A & _)|(A & B & C)] & D); [discriminate|].
        injection A as <-. rewrite E2 in B. congruence.
    + split; [reflexivity|]. split; [reflexivity|]. right.
      split; [reflexivity|].
      intros (a & b & c & [(A & _)|(A & _)] & D); congruence.
Qed.

Lemma ntohs_of_byte b : 0 <= b < 256 -> bpf_ntohs b = 256 * b.
Proof.
  intros H. unfold bpf_ntohs, to_u16, bswap16.
  rewrite (Z.mod_small b 65536) by lia.
  rewrite (Z.mod_small b 256), Z.div_small by lia.
  change (0 mod 256) with 0. lia.
Qed.

Lemma land_1_odd x : Z.land x 1 = Z.b2z (Z.odd x).
Proof.
  change 1 with (Z.ones 1) at 1. rewrite Z.land_ones by lia.
  change (2 ^ 1) with 2. rewrite <- Z.bit0_mod, Z.bit0_odd. reflexivity.
Qed.

(** The parser of lesson 1 never touches the packet and records its
    verdict once.  It drops exactly the frames that are IPv6, or carry one
    VLAN tag (whatever protocol follows the tag), whose IPv6 header names
    next header 58 and whose eight bytes after the IPv6 header fit and
    hold an odd number in the sequence field; the ICMPv6 type is not looked
    at.  It passes everything else. *)
Theorem parser01_drops_odd_sequence : forall ctx,
  let r := Parsing01.xdp_parser_func ctx in
  let m := mem ctx in
  let de := data_end ctx in
  let eth := data ctx in
  let odd_icmp6 :=
    exists l3 : nat,
      ((bpf_ntohs (eth_h_proto m eth) = ETH_P_IPV6 /\ l3 = (eth + 14)%nat)
       \/ ((bpf_ntohs (eth_h_proto m eth) = ETH_P_8021Q
            \/ bpf_ntohs (eth_h_proto m eth) = ETH_P_8021AD)
           /\ l3 = (eth + 18)%nat))
      /\ (l3 + 48 <= de)%nat
      /\ ip6_nexthdr m l3 = IPPROTO_ICMPV6
      /\ Z.odd (bpf_ntohs (icmp_sequence m (l3 + 40))) = true in
  final_ctx r = ctx /\ effects r = [EvStats (verdict r)]
  /\ ((verdict r = XDP_DROP /\ odd_icmp6)
      \/ (verdict r = XDP_PASS /\ ~ odd_icmp6)).
Proof.
  intros ctx r m de eth odd_icmp6.
  assert (forall nh1,
            let a :=
              (let '(nh_type, nh2) := Parsing01.parse_ip6hdr m nh1 de in
               if negb (nh_type =? 0x3A00)
               then xdp_stats_record_action ctx no_trace XDP_PASS
               else
                 let icmp6 := pos nh2 in
                 let '(nh_type0, _) := Parsing01.parse_icmp6hdr m nh2 de in
                 if negb (nh_type0 =? 0)
                 then xdp_stats_record_action ctx no_trace XDP_PASS
                 else if negb (Z.land (bpf_ntohs (icmp_sequence m icmp6)) 1 =? 0)
                      then xdp_stats_record_action ctx no_trace XDP_DROP
                      else xdp_stats_record_action ctx no_trace XDP_PASS) in
            let hit := (pos nh1 + 48 <= de)%nat
                       /\ ip6_nexthdr m (pos nh1) = IPPROTO_ICMPV6
                       /\ Z.odd (bpf_ntohs (icmp_sequence m (pos nh1 + 40))) = true in
            final_ctx a = ctx /\ effects a = [EvStats (verdict a)]
            /\ ((verdict a = XDP_DROP /\ hit) \/ (verdict a = XDP_PASS /\ ~ hit)))
    as Hassign.
  { intros nh1. cbv zeta.
    unfold Parsing01.parse_ip6hdr, Parsing01.parse_icmp6hdr,
      sizeof_ipv6hdr, sizeof_icmp6hdr. cbv zeta.
    destruct (Nat.ltb_spec de (pos nh1 + 40)) as [Hs|Hf].
    { cbn. split; [reflexivity|]. split; [reflexivity|]. right.
      split; [reflexivity|]. intros (H & _). lia. }
    pose proof (load8_range m (pos nh1 + 6)) as R6.
    unfold ip6_nexthdr. rewrite ntohs_of_byte by exact R6.
    destruct (Z.eqb_spec (256 * load8 m (pos nh1 + 6)) 0x3A00) as [Hnh|Hnh];
      cbn [negb].
    2:{ split; [reflexivity|]. split; [reflexivity|]. right.
        split; [reflexivity|]. intros (_ & H & _).
        unfold IPPROTO_ICMPV6 in H. lia. }
    cbn [pos].
    destruct (Nat.ltb_spec de (pos nh1 + 40 + 8)) as [Hs|Hf8].
    { cbn. split; [reflexivity|]. split; [reflexivity|]. right.
      split; [reflexivity|]. intros (H & _). lia. }
    change (negb (0 =? 0)) with false. cbn iota.
    rewrite land_1_odd.
    destruct (Z.odd (bpf_ntohs (icmp_sequence m (pos nh1 + 40)))) eqn:Ho;
      cbn [Z.b2z Z.eqb negb].
    - split; [reflexivity|]. split; [reflexivity|]. left.
      split; [reflexivity|]. unfold IPPROTO_ICMPV6. repeat split; lia.
    - split; [reflexivity|]. split; [reflexivity|]. right.
      split; [reflexivity|]. intros (_ & _ & H). discriminate. }
  subst r odd_icmp6. unfold Parsing01.xdp_parser_func. cbv zeta. fold m de eth.
  unfold Parsing01.parse_ethhdr, sizeof_ethhdr. cbv zeta. cbn [pos]. fold eth.
  destruct (Nat.ltb_spec de (eth + 14)) as [Hs|Hf].
  { cbn. split; [reflexivity|]. split; [reflexivity|]. right.
    split; [reflexivity|]. intros (l3 & [[_ ->]|[_ ->]] & H & _); lia. }
  pose proof (bpf_ntohs_range (eth_h_proto m eth)) as Rty.
  destruct (Z.eqb_spec (bpf_ntohs (eth_h_proto m eth)) ETH_P_IPV6) as [H6|Hn6].
  - specialize (Hassign (mk_cursor (eth + 14))). cbv zeta in Hassign.
    cbn [pos] in Hassign.
    destruct Hassign as (A & B & C). split; [exact A|]. split; [exact B|].
    destruct C as [(V & H1 & H2 & H3)|(V & Hno)].
    + left. split; [exact V|]. exists (eth + 14)%nat.
      split; [left; split; [exact H6 | reflexivity]|].
      repeat split; assumption.
    + right. split; [exact V|].
      intros (l3 & [[_ ->]|[[Hq|Hq] _]] & H); [apply Hno; exact H| |];
        rewrite H6 in Hq; discriminate.
  - destruct ((bpf_ntohs (eth_h_proto m eth) =? ETH_P_8021Q)
              || (bpf_ntohs (eth_h_proto m eth) =? ETH_P_8021AD)) eqn:Hv.
    + apply orb_true_iff in Hv. rewrite !Z.eqb_eq in Hv.
      unfold Parsing01.parse_vlanhdr, sizeof_vlan_hdr. cbv zeta. cbn [pos].
      destruct (Nat.ltb_spec de (eth + 14 + 4)) as [Hs4|Hf4].
      * specialize (Hassign (mk_cursor (eth + 14))). cbv zeta in Hassign.
        cbn [pos] in Hassign.
        destruct Hassign as (A & B & C). split; [exact A|]. split; [exact B|].
        destruct C as [(V & H1 & _)|(V & Hno)]; [lia|].
        right. split; [exact V|].
        intros (l3 & [[Hq _]|[_ ->]] & H & _); [contradiction | lia].
      * specialize (Hassign (mk_cursor (eth + 14 + 4))). cbv zeta in Hassign.
        cbn [pos] in Hassign.
        replace (eth + 14 + 4)%nat with (eth + 18)%nat in * by lia.
        destruct Hassign as (A & B & C). split; [exact A|]. split; [exact B|].
        destruct C as [(V & H1 & H2 & H3)|(V & Hno)].
        -- left. split; [exact V|]. exists (eth + 18)%nat.
           split; [right; split; [exact Hv | reflexivity]|].
           repeat split; assumption.
        -- right. split; [exact V|].
           intros (l3 & [[Hq _]|[_ ->]] & H); [contradiction|].
           apply Hno. exact H.
    + apply orb_false_iff in Hv. rewrite !Z.eqb_neq in Hv.
      split; [reflexivity|]. split; [reflexivity|]. right.
      split; [reflexivity|].
      intros (l3 & [[Hq _]|[[Hq|Hq] _]] & _); tauto.
Qed.

(** ** The two VLAN lessons *)

(** patching the protocol in the copy before writing it back, or in the
    packet after *)
Lemma write_patched_copy m off cpy v :
  length cpy = 14%nat -> (off + 14 <= length m)%nat ->
  write_bytes m off (store16 cpy 12 v)
  = store16 (write_bytes m off cpy) (off + 12) v.
Proof.
  intros Hc Hm. apply list_eq_nth.
  - rewrite length_store16, !length_write_bytes. reflexivity.
  - intros i _.
    assert ((i < off)%nat \/ (off <= i < off + 12)%nat \/ i = (off + 12)%nat
            \/ i = (off + 13)%nat \/ (off + 14 <= i)%nat) as Hreg by lia.
    destruct Hreg as [R|[R|[R|[R|R]]]].
    + rewrite nth_write_bytes_other by (rewrite length_store16; lia).
      rewrite nth_store16_other by lia.
      rewrite nth_write_bytes_other by lia. reflexivity.
    + rewrite nth_write_bytes_in by (rewrite length_store16; lia).
      rewrite nth_store16_other by lia.
      rewrite nth_store16_other by lia.
      rewrite nth_write_bytes_in by lia. reflexivity.
    + rewrite nth_write_bytes_in by (rewrite length_store16; lia).
      rewrite (nth_store16_lo cpy 12) by lia.
      rewrite nth_store16_lo by (rewrite ?length_write_bytes; lia).
      reflexivity.
    + rewrite nth_write_bytes_in by (rewrite length_store16; lia).
      rewrite (nth_store16_hi cpy 12) by lia.
      rewrite nth_store16_hi by (rewrite ?length_write_bytes; lia).
      reflexivity.
    + rewrite nth_write_bytes_other by (rewrite length_store16; lia).
      rewrite nth_store16_other by lia.
      rewrite nth_write_bytes_other by lia. reflexivity.
Qed.

Lemma vlan_tag_pop_agree K ctx eth :
  (data_end ctx <= length (mem ctx))%nat ->
  Rewriting.vlan_tag_pop K ctx eth = Solutions.vlan_tag_pop K ctx eth.
Proof.
  intros Hw. unfold Rewriting.vlan_tag_pop, Solutions.vlan_tag_pop. cbv zeta.
  destruct (proto_is_vlan (eth_h_proto (mem ctx) eth)); [|reflexivity].
  cbn [negb].
  destruct (Nat.ltb_spec (data_end ctx) (eth + sizeof_ethhdr + sizeof_vlan_hdr));
    [reflexivity|].
  destruct (adjust_head_cases K ctx (Z.of_nat sizeof_vlan_hdr))
    as [E | [Hb E]]; rewrite E; [reflexivity|].
  cbn [negb Z.eqb]. unfold set_data, set_mem. cbn [data data_end mem].
  destruct (Nat.ltb_spec (data_end ctx)
              (Z.to_nat (Z.of_nat (data ctx) + Z.of_nat sizeof_vlan_hdr)
               + sizeof_ethhdr)); [reflexivity|].
  f_equal. f_equal. unfold sizeof_ethhdr in *.
  apply write_patched_copy; [apply length_read_bytes | lia].
Qed.

Lemma vlan_tag_push_agree K ctx eth vlid :
  proto_is_vlan (eth_h_proto (mem ctx) eth) = false ->
  Rewriting.vlan_tag_push K ctx eth vlid = Solutions.vlan_tag_push K ctx eth vlid.
Proof.
  intros Hv. unfold Rewriting.vlan_tag_push, Solutions.vlan_tag_push.
  rewrite Hv. reflexivity.
Qed.

(** The VLAN code of lesson 2 and of the solutions compute the same:
    the two [vlan_tag_pop] agree on every frame, the two [vlan_tag_push]
    agree on every frame that carries no tag, and so do the two
    [xdp_vlan_swap_func] on every frame.  On a tagged frame the push of
    lesson 2 refuses and leaves the context. *)
Theorem vlan_lessons_agree : forall K ctx eth vlid,
  (data_end ctx <= length (mem ctx))%nat ->
  Rewriting.vlan_tag_pop K ctx eth = Solutions.vlan_tag_pop K ctx eth
  /\ (proto_is_vlan (eth_h_proto (mem ctx) eth) = false ->
      Rewriting.vlan_tag_push K ctx eth vlid
      = Solutions.vlan_tag_push K ctx eth vlid)
  /\ (proto_is_vlan (eth_h_proto (mem ctx) eth) = true ->
      Rewriting.vlan_tag_push K ctx eth vlid = (-1, ctx))
  /\ Rewriting.xdp_vlan_swap_func K ctx = Solutions.xdp_vlan_swap_func K ctx.
Proof.
  intros K ctx eth vlid Hw.
  split; [apply vlan_tag_pop_agree; exact Hw|].
  split; [apply vlan_tag_push_agree|].
  split.
  - intros Hv. unfold Rewriting.vlan_tag_push. rewrite Hv. reflexivity.
  - unfold Rewriting.xdp_vlan_swap_func, Solutions.xdp_vlan_swap_func. cbv zeta.
    destruct (parse_ethhdr (mem ctx) (mk_cursor (data ctx)) (data_end ctx))
      as [ty nh1].
    destruct (ty <? 0); [reflexivity|].
    destruct (proto_is_vlan (eth_h_proto (mem ctx) (data ctx))) eqn:Hv.
    + rewrite vlan_tag_pop_agree by exact Hw. reflexivity.
    + rewrite vlan_tag_push_agree by exact Hv. reflexivity.
Qed.

Lemma vlan_lessons_agree_witness :
  Rewriting.xdp_vlan_swap_func (sample_kernel 0) q_tagged_ctx
  = Solutions.xdp_vlan_swap_func (sample_kernel 0) q_tagged_ctx.
Proof.
  apply (vlan_lessons_agree (sample_kernel 0) q_tagged_ctx 0%nat 1).
  vm_compute; lia.
Defined.

(** ** The VLAN swapper on the packet *)

Lemma parse_ethhdr_negative m nh de :
  (fst (parse_ethhdr m nh de) <? 0) = (de <? pos nh + sizeof_ethhdr)%nat.
Proof.
  unfold parse_ethhdr. cbv zeta.
  destruct (Nat.ltb_spec de (pos nh + sizeof_ethhdr)); [reflexivity|].
  destruct (vlan_loop _ _ _ _ _) as [h v]. cbn [fst].
  pose proof (bpf_ntohs_range h). apply Z.ltb_ge. lia.
Qed.

Lemma vlan_swap_unfold K ctx :
  (data ctx + sizeof_ethhdr <= data_end ctx)%nat ->
  Solutions.xdp_vlan_swap_func K ctx
  = (XDP_PASS,
     (if proto_is_vlan (eth_h_proto (mem ctx) (data ctx))
      then snd (Solutions.vlan_tag_pop K ctx (data ctx))
      else snd (Solutions.vlan_tag_push K ctx (data ctx) 1)),
     no_trace).
Proof.
  intros He. unfold Solutions.xdp_vlan_swap_func. cbv zeta.
  pose proof (parse_ethhdr_negative (mem ctx) (mk_cursor (data ctx))
                                    (data_end ctx)) as E.
  destruct (parse_ethhdr (mem ctx) (mk_cursor (data ctx)) (data_end ctx))
    as [ty nh1].
  cbn [fst pos] in E. rewrite E.
  destruct (Nat.ltb_spec (data_end ctx) (data ctx + sizeof_ethhdr)); [lia|].
  destruct (proto_is_vlan _); reflexivity.
Qed.

(** [xdp_vlan_swap_func] on the packet, for a kernel that accepts the
    head adjustments Linux accepts: an untagged frame with four bytes of
    headroom leaves with an 802.1Q tag of id 1 between the addresses and
    the type; a tagged frame leaves without its outermost tag; an untagged
    frame without headroom and a frame too short for an Ethernet header
    leave as they came.  The verdict is [XDP_PASS] every time. *)
Theorem vlan_swap_tags_or_untags : forall K ctx,
  accepts_like_linux K -> wf_ctx ctx ->
  let r := Solutions.xdp_vlan_swap_func K ctx in
  let tagged := proto_is_vlan (eth_h_proto (mem ctx) (data ctx)) in
  verdict r = XDP_PASS
  /\ ((data_end ctx < data ctx + sizeof_ethhdr)%nat -> final_ctx r = ctx)
  /\ ((data ctx + sizeof_ethhdr <= data_end ctx)%nat -> tagged = false ->
      (4 <= data ctx)%nat ->
      packet (final_ctx r)
      = firstn 12 (packet ctx) ++ vlan_tag_bytes ETH_P_8021Q 1
        ++ skipn 12 (packet ctx))
  /\ ((data ctx + sizeof_ethhdr <= data_end ctx)%nat -> tagged = false ->
      (data ctx < 4)%nat -> final_ctx r = ctx)
  /\ ((data ctx + sizeof_ethhdr + sizeof_vlan_hdr <= data_end ctx)%nat ->
      tagged = true ->
      packet (final_ctx r) = firstn 12 (packet ctx) ++ skipn 16 (packet ctx)).
Proof.
  intros K ctx Hok Hwf r tagged. subst r tagged.
  split.
  { unfold Solutions.xdp_vlan_swap_func. cbv zeta.
    destruct (parse_ethhdr _ _ _) as [ty nh1].
    destruct (ty <? 0); [reflexivity|].
    destruct (proto_is_vlan _); reflexivity. }
  split.
  { intros Hs. unfold Solutions.xdp_vlan_swap_func. cbv zeta.
    pose proof (parse_ethhdr_negative (mem ctx) (mk_cursor (data ctx))
                                      (data_end ctx)) as E.
    destruct (parse_ethhdr _ _ _) as [ty nh1]. cbn [fst pos] in E. rewrite E.
    destruct (Nat.ltb_spec (data_end ctx) (data ctx + sizeof_ethhdr));
      [reflexivity | lia]. }
  split.
  { intros He Hv Hroom. rewrite vlan_swap_unfold by exact He. rewrite Hv.
    cbn [final_ctx fst snd].
    destruct (vlan_tag_push_spec K ctx 1 (data ctx - 4)
                (Hok _ _ (linux_accepts_grow ctx He)) Hwf ltac:(lia) He)
      as (ctx1 & Hpush & _ & _ & _ & HP1).
    rewrite Hpush. exact HP1. }
  split.
  { intros He Hv Hroom. rewrite vlan_swap_unfold by exact He. rewrite Hv.
    cbn [final_ctx fst snd].
    unfold Solutions.vlan_tag_push. unfold bpf_xdp_adjust_head. cbv zeta.
    unfold sizeof_vlan_hdr.
    destruct (Z.ltb_spec (Z.of_nat (data ctx) + (0 - Z.of_nat 4)) 0); [|lia].
    reflexivity. }
  intros He Hv. rewrite vlan_swap_unfold
    by (unfold sizeof_ethhdr, sizeof_vlan_hdr in *; lia).
  rewrite Hv. cbn [final_ctx fst snd].
  destruct (vlan_tag_pop_spec K ctx (Hok _ _ (linux_accepts_shrink ctx He))
                              Hwf He Hv)
    as (ctx2 & Hpop & _ & _ & _ & HP2).
  rewrite Hpop. exact HP2.
Qed.

Lemma vlan_swap_tags_or_untags_witness :
  packet (final_ctx (Solutions.xdp_vlan_swap_func (sample_kernel 0) untagged_ctx))
  = firstn 12 (packet untagged_ctx) ++ vlan_tag_bytes ETH_P_8021Q 1
    ++ skipn 12 (packet untagged_ctx).
Proof.
  destruct (vlan_swap_tags_or_untags (sample_kernel 0) untagged_ctx
              (sample_kernel_accepts 0) ltac:(split; vm_compute; lia))
    as (_ & _ & T & _).
  apply T.
  - vm_compute; lia.
  - vm_compute; reflexivity.
  - vm_compute; lia.
Defined.

(** Run twice on an untagged frame with four bytes of headroom, the
    swapper first pushes the tag and then pops it again: the packet and
    both bounds are back where they were. *)
Theorem vlan_swap_twice_restores : forall K ctx,
  accepts_like_linux K -> wf_ctx ctx -> (4 <= data ctx)%nat ->
  (data ctx + sizeof_ethhdr <= data_end ctx)%nat ->
  proto_is_vlan (eth_h_proto (mem ctx) (data ctx)) = false ->
  let c1 := final_ctx (Solutions.xdp_vlan_swap_func K ctx) in
  let c2 := final_ctx (Solutions.xdp_vlan_swap_func K c1) in
  data c1 = (data ctx - 4)%nat
  /\ packet c2 = packet ctx /\ data c2 = data ctx /\ data_end c2 = data_end ctx.
Proof.
  intros K ctx Hok Hwf Hroom He Hv c1 c2.
  destruct (vlan_push_then_pop K ctx 1 Hok Hwf Hroom He ltac:(lia))
    as (ctx1 & ctx2 & Hpush & Hpop & HP & Hd & Hde).
  destruct (vlan_tag_push_spec K ctx 1 (data ctx - 4)
              (Hok _ _ (linux_accepts_grow ctx He)) Hwf ltac:(lia) He)
    as (ctx1' & Hpush' & Hd1 & He1 & _).
  rewrite Hpush in Hpush'. injection Hpush' as <-.
  assert (c1 = ctx1) as E1.
  { subst c1. rewrite vlan_swap_unfold by exact He. rewrite Hv, Hpush.
    reflexivity. }
  assert (proto_is_vlan (eth_h_proto (mem ctx1) (data ctx1)) = true) as Hv1.
  { destruct (proto_is_vlan (eth_h_proto (mem ctx1) (data ctx1))) eqn:Hq;
      [reflexivity|].
    unfold Solutions.vlan_tag_pop in Hpop. rewrite Hq in Hpop.
    cbn [negb] in Hpop. discriminate. }
  assert (c2 = ctx2) as E2.
  { subst c2. rewrite E1.
    rewrite vlan_swap_unfold by (unfold sizeof_ethhdr in *; lia).
    rewrite Hv1, Hpop. reflexivity. }
  rewrite E1, E2. repeat split; assumption.
Qed.

Lemma vlan_swap_twice_restores_witness :
  packet (final_ctx (Solutions.xdp_vlan_swap_func (sample_kernel 0)
            (final_ctx (Solutions.xdp_vlan_swap_func (sample_kernel 0)
                          untagged_ctx))))
  = packet untagged_ctx.
Proof.
  destruct (vlan_swap_twice_restores (sample_kernel 0) untagged_ctx
              (sample_kernel_accepts 0) ltac:(split; vm_compute; lia)
              ltac:(vm_compute; lia) ltac:(vm_compute; lia)
              ltac:(vm_compute; reflexivity))
    as (_ & P & _).
  exact P.
Defined.

(** ** No program writes outside the packet *)

Lemma wip_untouched ctx a tr :
  wf_ctx ctx -> writes_inside_packet ctx (a, ctx, tr).
Proof. intros H. repeat split; try apply H; reflexivity. Qed.

Lemma wip_set_mem ctx a tr m' :
  wf_ctx ctx -> length m' = length (mem ctx) ->
  (forall i, (i < data ctx \/ data_end ctx <= i)%nat ->
             nth i m' x00 = nth i (mem ctx) x00) ->
  writes_inside_packet ctx (a, set_mem ctx m', tr).
Proof.
  intros [H1 H2] L S. unfold writes_inside_packet, set_mem.
  cbn [final_ctx fst snd mem data data_end]. repeat split; try assumption.
  cbn [mem data data_end]. lia.
Qed.

Lemma parse_ethhdr_stays m nh de v nh1 :
  parse_ethhdr m nh de = (v, nh1) -> (pos nh <= de)%nat ->
  (pos nh <= pos nh1 <= de)%nat.
Proof.
  intros H Hle.
  destruct (Nat.lt_ge_cases (de - pos nh) sizeof_ethhdr) as [Hs|Hf].
  - rewrite parse_ethhdr_short in H by exact Hs. injection H as _ <-. lia.
  - destruct (parse_ethhdr_fits m nh de Hf) as (k & _ & Hp & Hd & _).
    rewrite H in Hp, Hd. cbn [snd] in Hp, Hd. lia.
Qed.

Lemma parse_iphdr_stays m nh de v nh2 :
  parse_iphdr m nh de = (v, nh2) -> (pos nh <= de)%nat ->
  (pos nh <= pos nh2 <= de)%nat.
Proof.
  unfold parse_iphdr. cbv zeta. intros H Hle.
  pose proof (ip_ihl_range m (pos nh)).
  destruct (_ <? _)%nat; [injection H as _ <-; lia|].
  destruct (Z.ltb_spec (Z.of_nat de) (Z.of_nat (pos nh) + ip_ihl m (pos nh) * 4));
    injection H as _ <-; cbn [pos]; lia.
Qed.

Lemma parse_ip6hdr_stays m nh de v nh2 :
  parse_ip6hdr m nh de = (v, nh2) -> (pos nh <= de)%nat ->
  (pos nh <= pos nh2 <= de)%nat.
Proof.
  unfold parse_ip6hdr, sizeof_ipv6hdr. cbv zeta. intros H Hle.
  destruct (Nat.ltb_spec de (pos nh + 40)); injection H as _ <-; cbn [pos]; lia.
Qed.

(** *** port rewriting *)

Lemma wip_parse_tcp ctx nh :
  wf_ctx ctx -> (data ctx <= pos nh)%nat ->
  writes_inside_packet ctx
    (let '(_, _, m') := Rewriting.parse_tcphdr (mem ctx) nh (data_end ctx) in
     (XDP_PASS, set_mem ctx m', no_trace)).
Proof.
  intros Hwf Hn. pose proof Hwf as [H1 H2].
  unfold Rewriting.parse_tcphdr, sizeof_tcphdr. cbv zeta.
  destruct (Nat.ltb_spec (data_end ctx) (pos nh + 20)).
  - rewrite set_mem_same. apply wip_untouched. exact Hwf.
  - apply wip_set_mem; [exact Hwf | apply length_store16|].
    intros i Hi. apply nth_store16_other. lia.
Qed.

Lemma wip_parse_udp ctx nh :
  wf_ctx ctx -> (data ctx <= pos nh)%nat ->
  writes_inside_packet ctx
    (let '(_, _, m') := Rewriting.parse_udphdr (mem ctx) nh (data_end ctx) in
     (XDP_PASS, set_mem ctx m', no_trace)).
Proof.
  intros Hwf Hn. pose proof Hwf as [H1 H2].
  unfold Rewriting.parse_udphdr, sizeof_udphdr. cbv zeta.
  destruct (Nat.ltb_spec (data_end ctx) (pos nh + 8)).
  - rewrite set_mem_same. apply wip_untouched. exact Hwf.
  - apply wip_set_mem; [exact Hwf | apply length_store16|].
    intros i Hi. apply nth_store16_other. lia.
Qed.

Lemma wip_port_rewrite ctx :
  wf_ctx ctx -> writes_inside_packet ctx (Rewriting.xdp_port_rewrite_func ctx).
Proof.
  intros Hwf. pose proof Hwf as [H1 H2].
  unfold Rewriting.xdp_port_rewrite_func. cbv zeta.
  destruct (parse_ethhdr (mem ctx) (mk_cursor (data ctx)) (data_end ctx))
    as [t nh1] eqn:E1.
  pose proof (parse_ethhdr_stays _ _ _ _ _ E1 H1) as B1. cbn [pos] in B1.
  destruct (t =? ETH_P_IPV6).
  - destruct (parse_ip6hdr (mem ctx) nh1 (data_end ctx)) as [p nh2] eqn:E2.
    pose proof (parse_ip6hdr_stays _ _ _ _ _ E2 ltac:(lia)) as B2.
    destruct (p =? IPPROTO_TCP); [apply wip_parse_tcp; [exact Hwf | lia]|].
    destruct (p =? IPPROTO_UDP); [apply wip_parse_udp; [exact Hwf | lia]|].
    rewrite set_mem_same. apply wip_untouched. exact Hwf.
  - destruct (t =? ETH_P_IP).
    + destruct (parse_iphdr (mem ctx) nh1 (data_end ctx)) as [p nh2] eqn:E2.
      pose proof (parse_iphdr_stays _ _ _ _ _ E2 ltac:(lia)) as B2.
      destruct (p =? IPPROTO_TCP); [apply wip_parse_tcp; [exact Hwf | lia]|].
      destruct (p =? IPPROTO_UDP); [apply wip_parse_udp; [exact Hwf | lia]|].
      rewrite set_mem_same. apply wip_untouched. exact Hwf.
    + apply wip_parse_tcp; [exact Hwf | lia].
Qed.

(** *** the echo server *)

Lemma echo_cases ctx :
  xdp_icmp_echo_func ctx = (XDP_PASS, ctx, [EvStats XDP_PASS])
  \/ (exists nh1 nh2 nh3,
        parse_ethhdr (mem ctx) (mk_cursor (data ctx)) (data_end ctx)
        = (ETH_P_IP, nh1)
        /\ parse_iphdr (mem ctx) nh1 (data_end ctx) = (IPPROTO_ICMP, nh2)
        /\ parse_icmphdr (mem ctx) nh2 (data_end ctx) = (ICMP_ECHO, nh3))
  \/ (exists nh1 nh2 nh3,
        parse_ethhdr (mem ctx) (mk_cursor (data ctx)) (data_end ctx)
        = (ETH_P_IPV6, nh1)
        /\ parse_ip6hdr (mem ctx) nh1 (data_end ctx) = (IPPROTO_ICMPV6, nh2)
        /\ parse_icmphdr (mem ctx) nh2 (data_end ctx)
           = (ICMPV6_ECHO_REQUEST, nh3)).
Proof.
  unfold xdp_icmp_echo_func. cbv zeta.
  destruct (parse_ethhdr (mem ctx) (mk_cursor (data ctx)) (data_end ctx))
    as [et nh1] eqn:E1.
  destruct (Z.eqb_spec et ETH_P_IP) as [->|Hn4].
  - destruct (parse_iphdr (mem ctx) nh1 (data_end ctx)) as [pt nh2] eqn:E2.
    destruct (Z.eqb_spec pt IPPROTO_ICMP) as [->|Hp]; cbn [negb];
      [|left; reflexivity].
    destruct (parse_icmphdr (mem ctx) nh2 (data_end ctx)) as [it nh3] eqn:E3.
    change (ETH_P_IP =? ETH_P_IP) with true.
    change (ETH_P_IP =? ETH_P_IPV6) with false. cbn [andb].
    destruct (Z.eqb_spec it ICMP_ECHO) as [->|Hi]; [|left; reflexivity].
    right. left. exists nh1, nh2, nh3. rewrite E2, E3. repeat split.
  - destruct (Z.eqb_spec et ETH_P_IPV6) as [->|Hn6]; [|left; reflexivity].
    destruct (parse_ip6hdr (mem ctx) nh1 (data_end ctx)) as [pt nh2] eqn:E2.
    destruct (Z.eqb_spec pt IPPROTO_ICMPV6) as [->|Hp]; cbn [negb];
      [|left; reflexivity].
    destruct (parse_icmphdr (mem ctx) nh2 (data_end ctx)) as [it nh3] eqn:E3.
    change (ETH_P_IPV6 =? ETH_P_IP) with false.
    change (ETH_P_IPV6 =? ETH_P_IPV6) with true. cbn [andb].
    destruct (Z.eqb_spec it ICMPV6_ECHO_REQUEST) as [->|Hi]; [|left; reflexivity].
    right. right. exists nh1, nh2, nh3. rewrite E2, E3. repeat split.
Qed.

Lemma wip_icmp_echo ctx :
  wf_ctx ctx -> writes_inside_packet ctx (xdp_icmp_echo_func ctx).
Proof.
  intros Hwf. pose proof Hwf as [Hw1 Hw2].
  destruct (echo_cases ctx)
    as [E|[(nh1 & nh2 & nh3 & H1 & H2 & H3)|(nh1 & nh2 & nh3 & H1 & H2 & H3)]].
  - rewrite E. apply wip_untouched. exact Hwf.
  - rewrite (echo_ipv4_runs ctx nh1 nh2 nh3 H1 H2 H3). cbv zeta.
    pose proof (parse_ethhdr_ok_bounds _ _ _ _ _ H1 ltac:(discriminate)) as B1.
    pose proof (parse_iphdr_ok_bounds _ _ _ _ _ H2 ltac:(discriminate))
      as (B2 & B2' & _).
    pose proof (parse_icmphdr_ok_bounds _ _ _ _ _ H3 ltac:(discriminate))
      as (B3 & _).
    cbn [pos] in B1. unfold sizeof_ethhdr, sizeof_iphdr, sizeof_icmphdr in *.
    apply wip_set_mem; [exact Hwf| |].
    + rewrite length_store16, length_store8, length_swap_mac.
      apply length_swap_ipv4.
    + intros i Hi. rewrite nth_store16_other by lia.
      rewrite nth_store8_other by lia.
      rewrite nth_swap_mac by (rewrite length_swap_ipv4; lia).
      destruct Hi; decide_ranges; rewrite nth_swap_ipv4 by lia;
        decide_ranges; reflexivity.
  - rewrite (echo_ipv6_runs ctx nh1 nh2 nh3 H1 H2 H3). cbv zeta.
    pose proof (parse_ethhdr_ok_bounds _ _ _ _ _ H1 ltac:(discriminate)) as B1.
    pose proof (parse_ip6hdr_ok_bounds _ _ _ _ _ H2 ltac:(discriminate))
      as (B2 & B2' & _).
    pose proof (parse_icmphdr_ok_bounds _ _ _ _ _ H3 ltac:(discriminate))
      as (B3 & _).
    cbn [pos] in B1. unfold sizeof_ethhdr, sizeof_ipv6hdr, sizeof_icmphdr in *.
    apply wip_set_mem; [exact Hwf| |].
    + rewrite length_store16, length_store8, length_swap_mac.
      apply length_swap_ipv6.
    + intros i Hi. rewrite nth_store16_other by lia.
      rewrite nth_store8_other by lia.
      rewrite nth_swap_mac by (rewrite length_swap_ipv6; lia).
      destruct Hi; decide_ranges; rewrite nth_swap_ipv6 by lia;
        decide_ranges; reflexivity.
Qed.

(** *** the redirecting programs and the router *)

Lemma length_firstn_mac (l : list byte) : (length (firstn ETH_ALEN l) <= 6)%nat.
Proof. rewrite length_firstn. unfold ETH_ALEN. lia. Qed.

Lemma wip_redirect dst ifidx ctx :
  wf_ctx ctx -> writes_inside_packet ctx (xdp_redirect_func dst ifidx ctx).
Proof.
  intros Hwf. pose proof Hwf as [Hw1 Hw2].
  unfold xdp_redirect_func. cbv zeta.
  destruct (parse_ethhdr (mem ctx) (mk_cursor (data ctx)) (data_end ctx))
    as [t nh1] eqn:E1.
  destruct (Z.eqb_spec t (-1)); [apply wip_untouched; exact Hwf|].
  pose proof (parse_ethhdr_ok_bounds _ _ _ _ _ E1 ltac:(assumption)) as B1.
  cbn [pos] in B1. unfold sizeof_ethhdr in *.
  pose proof (length_firstn_mac dst).
  apply wip_set_mem; [exact Hwf | apply length_write_bytes|].
  intros i Hi. apply nth_write_bytes_other. lia.
Qed.

Lemma wip_redirect_map K ctx :
  wf_ctx ctx -> writes_inside_packet ctx (xdp_redirect_map_func K ctx).
Proof.
  intros Hwf. pose proof Hwf as [Hw1 Hw2].
  unfold xdp_redirect_map_func. cbv zeta.
  destruct (parse_ethhdr (mem ctx) (mk_cursor (data ctx)) (data_end ctx))
    as [t nh1] eqn:E1.
  destruct (Z.eqb_spec t (-1)); [apply wip_untouched; exact Hwf|].
  pose proof (parse_ethhdr_ok_bounds _ _ _ _ _ E1 ltac:(assumption)) as B1.
  cbn [pos] in B1. unfold sizeof_ethhdr in *.
  destruct (redirect_params K _) as [dst|]; [|apply wip_untouched; exact Hwf].
  pose proof (length_firstn_mac dst).
  apply wip_set_mem; [exact Hwf | apply length_write_bytes|].
  intros i Hi. apply nth_write_bytes_other. lia.
Qed.

Lemma wip_router_forward K ctx h l3 fp m1 :
  wf_ctx ctx -> (data ctx + 12 <= data_end ctx)%nat ->
  (if h =? bpf_htons ETH_P_IP then snd (ip_decrease_ttl (mem ctx) l3)
   else if h =? bpf_htons ETH_P_IPV6
        then store8 (mem ctx) (l3 + 7) (ip6_hop_limit (mem ctx) l3 - 1)
        else mem ctx) = m1 ->
  length m1 = length (mem ctx) ->
  (forall i, (i < data ctx \/ data_end ctx <= i)%nat ->
             nth i m1 x00 = nth i (mem ctx) x00) ->
  writes_inside_packet ctx (router_forward K ctx h l3 fp).
Proof.
  intros Hwf Hfit Hm1 L1 S1. pose proof Hwf as [Hw1 Hw2].
  unfold router_forward, bpf_fib_lookup_call, bpf_redirect_map. cbv zeta.
  destruct (fib_resolve K _) as [rc fp'].
  destruct (rc =? BPF_FIB_LKUP_RET_SUCCESS).
  - rewrite Hm1.
    pose proof (length_firstn_mac (dmac fp')).
    pose proof (length_firstn_mac (smac fp')).
    apply wip_set_mem; [exact Hwf| |].
    + rewrite !length_write_bytes. exact L1.
    + intros i Hi. rewrite !nth_write_bytes_other by lia. apply S1. exact Hi.
  - destruct (_ || _); [apply wip_untouched; exact Hwf|].
    destruct (_ || _); apply wip_untouched; exact Hwf.
Qed.

Lemma wip_router K ctx :
  wf_ctx ctx -> writes_inside_packet ctx (xdp_router_func K ctx).
Proof.
  intros Hwf. pose proof Hwf as [Hw1 Hw2].
  destruct (forwarding_dec ctx) as [[[H4 Httl]|[H6 Hhop]]|[N4 N6]].
  - rewrite router_ipv4 by exact H4.
    destruct (Z.leb_spec (ip_ttl (mem ctx) (l3_offset ctx)) 1); [lia|].
    destruct H4 as [Hf Hp]. unfold l3_offset, sizeof_ethhdr, sizeof_iphdr in *.
    destruct (ip_decrease_ttl_bytes (mem ctx) (data ctx + 14)
                ltac:(lia) ltac:(lia)) as (L1 & _ & _ & S1).
    eapply wip_router_forward; [exact Hwf | lia | | exact L1 |].
    + rewrite Z.eqb_refl. reflexivity.
    + intros i Hi. apply S1; lia.
  - rewrite router_ipv6 by exact H6.
    destruct (Z.leb_spec (ip6_hop_limit (mem ctx) (l3_offset ctx)) 1); [lia|].
    destruct H6 as [Hf Hp]. unfold l3_offset, sizeof_ethhdr, sizeof_ipv6hdr in *.
    eapply wip_router_forward; [exact Hwf | lia | | |].
    + rewrite htons_ip_ne_ipv6, Z.eqb_refl. reflexivity.
    + apply length_store8.
    + intros i Hi. apply nth_store8_other. lia.
  - destruct (router_not_forwarding K ctx N4 N6) as (a & E). rewrite E.
    apply wip_untouched. exact Hwf.
Qed.

(** *** the VLAN swapper *)

Lemma wip_vlan_pop K ctx a tr :
  wf_ctx ctx ->
  writes_inside_packet ctx (a, snd (Solutions.vlan_tag_pop K ctx (data ctx)), tr).
Proof.
  intros Hwf. pose proof Hwf as [Hw1 Hw2].
  unfold Solutions.vlan_tag_pop. cbv zeta.
  destruct (proto_is_vlan _); [|apply wip_untouched; exact Hwf]. cbn [negb].
  unfold sizeof_ethhdr, sizeof_vlan_hdr.
  destruct (Nat.ltb_spec (data_end ctx) (data ctx + 14 + 4));
    [apply wip_untouched; exact Hwf|].
  destruct (adjust_head_cases K ctx (Z.of_nat 4)) as [E | [Hb E]];
    rewrite E; [apply wip_untouched; exact Hwf|].
  cbn [negb Z.eqb]. unfold set_data, set_mem. cbn [data data_end mem].
  replace (Z.to_nat (Z.of_nat (data ctx) + Z.of_nat 4)) with (data ctx + 4)%nat
    by lia.
  destruct (Nat.ltb_spec (data_end ctx) (data ctx + 4 + 14)); [lia|].
  unfold writes_inside_packet. cbn [final_ctx fst snd mem data data_end].
  split; [rewrite length_store16, length_write_bytes; reflexivity|].
  split; [reflexivity|]. split.
  { split; cbn [mem data data_end];
      rewrite ?length_store16, ?length_write_bytes; lia. }
  intros i Hi. rewrite nth_store16_other by lia.
  apply nth_write_bytes_other. rewrite length_read_bytes. lia.
Qed.

Lemma wip_vlan_push K ctx a tr vlid :
  wf_ctx ctx ->
  writes_inside_packet ctx
    (a, snd (Solutions.vlan_tag_push K ctx (data ctx) vlid), tr).
Proof.
  intros Hwf. pose proof Hwf as [Hw1 Hw2].
  unfold Solutions.vlan_tag_push. cbv zeta.
  unfold sizeof_ethhdr, sizeof_vlan_hdr.
  destruct (adjust_head_cases K ctx (0 - Z.of_nat 4)) as [E | [Hb E]];
    rewrite E; [apply wip_untouched; exact Hwf|].
  cbn [negb Z.eqb]. unfold set_data, set_mem. cbn [data data_end mem].
  assert (exists d', Z.to_nat (Z.of_nat (data ctx) + (0 - Z.of_nat 4)) = d'
                     /\ data ctx = (d' + 4)%nat) as (d' & -> & Hd)
      by (eexists; split; [reflexivity | lia]).
  unfold writes_inside_packet.
  destruct (Nat.ltb_spec (data_end ctx) (d' + 14)).
  { cbn [final_ctx fst snd mem data data_end]. repeat split; try reflexivity;
      cbn [mem data data_end]; lia. }
  destruct (Nat.ltb_spec (data_end ctx) (d' + 14 + 4)).
  { cbn [final_ctx fst snd mem data data_end].
    split; [apply length_write_bytes|]. split; [reflexivity|]. split.
    { split; cbn [mem data data_end]; rewrite ?length_write_bytes; lia. }
    intros i Hi. apply nth_write_bytes_other. rewrite length_read_bytes. lia. }
  cbn [final_ctx fst snd mem data data_end].
  split; [rewrite !length_store16, length_write_bytes; reflexivity|].
  split; [reflexivity|]. split.
  { split; cbn [mem data data_end];
      rewrite ?length_store16, ?length_write_bytes; lia. }
  intros i Hi. rewrite !nth_store16_other by lia.
  apply nth_write_bytes_other. rewrite length_read_bytes. lia.
Qed.

Lemma wip_vlan_swap K ctx :
  wf_ctx ctx -> writes_inside_packet ctx (Solutions.xdp_vlan_swap_func K ctx).
Proof.
  intros Hwf. unfold Solutions.xdp_vlan_swap_func. cbv zeta.
  destruct (parse_ethhdr _ _ _) as [t nh1].
  destruct (t <? 0); [apply wip_untouched; exact Hwf|].
  destruct (proto_is_vlan _);
    [apply wip_vlan_pop | apply wip_vlan_push]; exact Hwf.
Qed.

Lemma vlan_swap_agree K ctx :
  (data_end ctx <= length (mem ctx))%nat ->
  Rewriting.xdp_vlan_swap_func K ctx = Solutions.xdp_vlan_swap_func K ctx.
Proof.
  intros Hw.
  unfold Rewriting.xdp_vlan_swap_func, Solutions.xdp_vlan_swap_func. cbv zeta.
  destruct (parse_ethhdr (mem ctx) (mk_cursor (data ctx)) (data_end ctx))
    as [ty nh1].
  destruct (ty <? 0); [reflexivity|].
  destruct (proto_is_vlan (eth_h_proto (mem ctx) (data ctx))) eqn:Hv.
  - rewrite vlan_tag_pop_agree by exact Hw. reflexivity.
  - rewrite vlan_tag_push_agree by exact Hv. reflexivity.
Qed.

Lemma final_ctx_same (r : result) ctx :
  final_ctx r = ctx -> wf_ctx ctx -> writes_inside_packet ctx r.
Proof.
  intros E Hwf. unfold writes_inside_packet. rewrite E.
  repeat split; try apply Hwf; reflexivity.
Qed.

(** Whatever the packet, the resolver's answer, the redirect table and
    the kernel's policy on head adjustments, no program writes a byte of
    memory outside the packet it returns, changes the length of the
    buffer or moves the tail; the head it leaves is at or before the
    tail. *)
Theorem programs_write_inside_packet : forall K dst ifidx ctx,
  wf_ctx ctx ->
  writes_inside_packet ctx (Parsing01.xdp_parser_func ctx)
  /\ writes_inside_packet ctx (Rewriting.xdp_parser_func ctx)
  /\ writes_inside_packet ctx (Rewriting.xdp_port_rewrite_func ctx)
  /\ writes_inside_packet ctx (Rewriting.xdp_vlan_swap_func K ctx)
  /\ writes_inside_packet ctx (Solutions.xdp_vlan_swap_func K ctx)
  /\ writes_inside_packet ctx (xdp_icmp_echo_func ctx)
  /\ writes_inside_packet ctx (xdp_redirect_func dst ifidx ctx)
  /\ writes_inside_packet ctx (xdp_redirect_map_func K ctx)
  /\ writes_inside_packet ctx (xdp_router_func K ctx)
  /\ writes_inside_packet ctx (xdp_pass_func ctx).
Proof.
  intros K dst ifidx ctx Hwf.
  split.
  { apply final_ctx_same; [|exact Hwf].
    unfold Parsing01.xdp_parser_func. cbv zeta. split_branches; reflexivity. }
  split.
  { apply final_ctx_same; [|exact Hwf].
    unfold Rewriting.xdp_parser_func. cbv zeta. split_branches; reflexivity. }
  split; [apply wip_port_rewrite; exact Hwf|].
  split.
  { rewrite vlan_swap_agree by apply Hwf. apply wip_vlan_swap. exact Hwf. }
  split; [apply wip_vlan_swap; exact Hwf|].
  split; [apply wip_icmp_echo; exact Hwf|].
  split; [apply wip_redirect; exact Hwf|].
  split; [apply wip_redirect_map; exact Hwf|].
  split; [apply wip_router; exact Hwf|].
  apply wip_untouched. exact Hwf.
Qed.

Lemma programs_write_inside_packet_witness :
  writes_inside_packet untagged_ctx
    (Solutions.xdp_vlan_swap_func (sample_kernel 0) untagged_ctx)
  /\ writes_inside_packet echo_seq7_ctx (xdp_icmp_echo_func echo_seq7_ctx).
Proof.
  split.
  - apply (programs_write_inside_packet (sample_kernel 0) [] 0 untagged_ctx
             ltac:(split; vm_compute; lia)).
  - apply (programs_write_inside_packet (sample_kernel 0) [] 0 echo_seq7_ctx
             ltac:(split; vm_compute; lia)).
Defined.

(** ** The parsers of lesson 1 and the common helpers *)

(** The header parsers written out in lesson 1 against the ones of
    common/parsing_helpers.h: on a frame without a VLAN tag the two
    [parse_ethhdr] agree; on a frame with one tag, [parse_ethhdr] followed
    by [parse_vlanhdr] of lesson 1 gives what the common [parse_ethhdr]
    gives alone; [parse_ip6hdr] of lesson 1 moves the cursor alike but
    returns the next-header byte swapped as if it were 16 bits wide, that
    is multiplied by 256; [parse_icmp6hdr] of lesson 1 moves the cursor
    alike and returns 0 where the common one returns the type. *)
Theorem lesson1_parsers_match_common : forall m nh de,
  (proto_is_vlan (eth_h_proto m (pos nh)) = false ->
   Parsing01.parse_ethhdr m nh de = parse_ethhdr m nh de)
  /\ ((pos nh + sizeof_ethhdr + sizeof_vlan_hdr <= de)%nat ->
      proto_is_vlan (eth_h_proto m (pos nh)) = true ->
      proto_is_vlan (vlan_encapsulated_proto m (pos nh + sizeof_ethhdr)) = false ->
      Parsing01.parse_vlanhdr m (snd (Parsing01.parse_ethhdr m nh de)) de
      = parse_ethhdr m nh de)
  /\ Parsing01.parse_ip6hdr m nh de
     = (if fst (parse_ip6hdr m nh de) =? -1 then -1
        else 256 * fst (parse_ip6hdr m nh de),
        snd (parse_ip6hdr m nh de))
  /\ Parsing01.parse_icmp6hdr m nh de
     = (if fst (parse_icmp6hdr m nh de) =? -1 then -1 else 0,
        snd (parse_icmp6hdr m nh de)).
Proof.
  intros m nh de. split; [|split; [|split]].
  - intros Hv. unfold Parsing01.parse_ethhdr, parse_ethhdr. cbv zeta.
    destruct (_ <? _)%nat; [reflexivity|].
    unfold VLAN_MAX_DEPTH. cbn [vlan_loop]. rewrite Hv. reflexivity.
  - unfold sizeof_ethhdr, sizeof_vlan_hdr. intros Hf Hv Hin.
    unfold Parsing01.parse_ethhdr, Parsing01.parse_vlanhdr, parse_ethhdr,
      sizeof_ethhdr, sizeof_vlan_hdr. cbv zeta.
    destruct (Nat.ltb_spec de (pos nh + 14)); [lia|].
    cbn [snd pos].
    destruct (Nat.ltb_spec de (pos nh + 14 + 4)); [lia|].
    unfold VLAN_MAX_DEPTH. cbn [vlan_loop]. rewrite Hv. cbn [negb].
    unfold sizeof_vlan_hdr.
    destruct (Nat.ltb_spec de (pos nh + 14 + 4)); [lia|].
    rewrite Hin. reflexivity.
  - unfold Parsing01.parse_ip6hdr, parse_ip6hdr. cbv zeta.
    destruct (_ <? _)%nat; [reflexivity|]. cbn [fst snd].
    pose proof (load8_range m (pos nh + 6)) as R. unfold ip6_nexthdr.
    destruct (Z.eqb_spec (load8 m (pos nh + 6)) (-1)); [lia|].
    rewrite ntohs_of_byte by exact R. reflexivity.
  - unfold Parsing01.parse_icmp6hdr, parse_icmp6hdr. cbv zeta.
    destruct (_ <? _)%nat; [reflexivity|]. cbn [fst snd].
    pose proof (load8_range m (pos nh)) as R. unfold icmp_type.
    destruct (Z.eqb_spec (load8 m (pos nh)) (-1)); [lia|]. reflexivity.
Qed.

Lemma lesson1_parsers_match_common_witness :
  Parsing01.parse_ethhdr (bytes_of (eth_ipv6_header 64)) (mk_cursor 0) 54
  = parse_ethhdr (bytes_of (eth_ipv6_header 64)) (mk_cursor 0) 54
  /\ Parsing01.parse_vlanhdr
       (bytes_of (tagged_frame ETH_P_8021Q))
       (snd (Parsing01.parse_ethhdr (bytes_of (tagged_frame ETH_P_8021Q))
               (mk_cursor 0) 38)) 38
     = parse_ethhdr (bytes_of (tagged_frame ETH_P_8021Q)) (mk_cursor 0) 38.
Proof.
  split.
  - apply (proj1 (lesson1_parsers_match_common
                    (bytes_of (eth_ipv6_header 64)) (mk_cursor 0) 54)).
    vm_compute. reflexivity.
  - apply (proj1 (proj2 (lesson1_parsers_match_common
                           (bytes_of (tagged_frame ETH_P_8021Q))
                           (mk_cursor 0) 38))).
    + vm_compute. lia.
    + vm_compute. reflexivity.
    + vm_compute. reflexivity.
Defined.
